(** * A shallow embedding of the CMDB repository scanner and query engine

    The development follows the Python sources:
    - [scanner_module/scanner.py]   ([RepositoryScanner]),
    - [scanner_module/db_connector.py] ([DatabaseConnector]),
    - [query_module/query_engine.py] ([NaturalLanguageQueryEngine]).

    Python [str] values are sequences of Unicode code points, modelled as
    [list N]; literals are written [py "..."] and decoded from UTF-8.
    Exceptions are modelled by the sum type [result]; a [try/except] is a
    match on it.  External collaborators (git, the file system, PostgreSQL,
    urllib) are modelled by explicit observations and explicit state. *)

From Stdlib Require Import List String Ascii NArith ZArith Arith Lia Bool.
From Stdlib Require Import Permutation Sorted DecimalString SpecFloat.
From stdpp Require Import gmap.
Import ListNotations.

Set Implicit Arguments.

(* ===================================================================== *)
(** * Python runtime values *)
(* ===================================================================== *)

Module Py.

(** A Python [str]: a sequence of code points. *)
Definition pystr : Type := list N.

(** The outcome of an operation that may raise; [msg] is [str(e)]. *)
Inductive result (A : Type) : Type :=
| Ok (a : A)
| Raise (msg : pystr).

Arguments Ok {A} a.
Arguments Raise {A} msg.

(** Sequencing of operations that may raise. *)
Definition bind (A B : Type) (x : result A) (f : A -> result B) : result B :=
  match x with
  | Ok a => f a
  | Raise e => Raise e
  end.

(** [try: x except Exception: d]. *)
Definition try_except (A : Type) (x : result A) (handler : pystr -> A) : A :=
  match x with
  | Ok a => a
  | Raise e => handler e
  end.

(** UTF-8 decoding of a byte sequence; a truncated sequence keeps its
    lead byte as it is. *)
Fixpoint utf8_decode (bs : list N) : pystr :=
  match bs with
  | [] => []
  | b0 :: t0 =>
    if (b0 <? 128)%N then b0 :: utf8_decode t0
    else if (b0 <? 224)%N then
      match t0 with
      | b1 :: t1 => ((b0 - 192) * 64 + (b1 - 128))%N :: utf8_decode t1
      | [] => [b0]
      end
    else if (b0 <? 240)%N then
      match t0 with
      | b1 :: b2 :: t2 =>
        ((b0 - 224) * 4096 + (b1 - 128) * 64 + (b2 - 128))%N :: utf8_decode t2
      | _ => b0 :: utf8_decode t0
      end
    else
      match t0 with
      | b1 :: b2 :: b3 :: t3 =>
        ((b0 - 240) * 262144 + (b1 - 128) * 4096 + (b2 - 128) * 64 + (b3 - 128))%N
          :: utf8_decode t3
      | _ => b0 :: utf8_decode t0
      end
  end.

(** A source literal. *)
Definition py (s : string) : pystr :=
  utf8_decode (List.map N_of_ascii (list_ascii_of_string s)).

Arguments py s%_string.

(** [a == b] on [str]. *)
Fixpoint str_eqb (a b : pystr) : bool :=
  match a, b with
  | [], [] => true
  | x :: a', y :: b' => (x =? y)%N && str_eqb a' b'
  | _, _ => false
  end.

(** [x in l] for a list of [str]. *)
Definition str_in (x : pystr) (l : list pystr) : bool := existsb (str_eqb x) l.

(** [s.startswith(p)]. *)
Fixpoint startswith (p s : pystr) : bool :=
  match p, s with
  | [], _ => true
  | x :: p', y :: s' => (x =? y)%N && startswith p' s'
  | _ :: _, [] => false
  end.

(** [s.endswith(p)]. *)
Definition endswith (p s : pystr) : bool := startswith (rev p) (rev s).

(** [sub in s] for two [str]: substring test. *)
Fixpoint contains (sub s : pystr) : bool :=
  startswith sub s ||
  match s with
  | [] => false
  | _ :: s' => contains sub s'
  end.

(** [c in s] for a one-character [c]. *)
Definition has_char (c : N) (s : pystr) : bool := existsb (N.eqb c) s.

(** [str.isspace] on one code point (the characters [str.strip] removes
    and the regular-expression class [\s] accepts). *)
Definition is_space (c : N) : bool :=
  ((9 <=? c) && (c <=? 13) || (28 <=? c) && (c <=? 32)
   || (c =? 133) || (c =? 160) || (c =? 5760)
   || (8192 <=? c) && (c <=? 8202)
   || (c =? 8232) || (c =? 8233) || (c =? 8239) || (c =? 8287)
   || (c =? 12288))%N.

(** [s.lstrip(chars)], the set of characters given as a predicate. *)
Fixpoint lstrip_by (p : N -> bool) (s : pystr) : pystr :=
  match s with
  | c :: s' => if p c then lstrip_by p s' else s
  | [] => []
  end.

Definition rstrip_by (p : N -> bool) (s : pystr) : pystr :=
  rev (lstrip_by p (rev s)).

(** [s.strip()]. *)
Definition strip (s : pystr) : pystr := rstrip_by is_space (lstrip_by is_space s).

(** [s.rstrip(c)] for a one-character argument. *)
Definition rstrip_char (c : N) (s : pystr) : pystr := rstrip_by (N.eqb c) s.

(** [s.split(c)] for a one-character separator: never the empty list. *)
Fixpoint str_split (c : N) (s : pystr) : list pystr :=
  match s with
  | [] => [[]]
  | x :: s' =>
    if (x =? c)%N then [] :: str_split c s'
    else match str_split c s' with
         | w :: ws => (x :: w) :: ws
         | [] => [[x]]
         end
  end.

(** [l[-1]] and [l[-2]]; [None] stands for [IndexError]. *)
Definition last_item (A : Type) (l : list A) : option A := List.last (List.map Some l) None.

Definition penultimate (A : Type) (l : list A) : option A :=
  match rev l with
  | _ :: x :: _ => Some x
  | _ => None
  end.

(** [s.replace(old, '')]: every non-overlapping occurrence of [old],
    scanning from the left, is removed ([old] is not empty).  [skip]
    counts the characters of a matched occurrence still to drop. *)
Fixpoint remove_from (old : pystr) (skip : nat) (s : pystr) : pystr :=
  match s with
  | [] => []
  | c :: s' =>
    match skip with
    | S k => remove_from old k s'
    | O =>
      if startswith old s then remove_from old (List.length old - 1) s'
      else c :: remove_from old 0 s'
    end
  end.

Definition remove_all (old s : pystr) : pystr := remove_from old 0 s.

(** ** [str.lower]

    Case mapping follows the Unicode character database that CPython 3.11
    carries (version 14.0.0): the tables below are the ones behind
    [_PyUnicode_ToLowercase], [_PyUnicode_IsCased] and
    [_PyUnicode_IsCaseIgnorable]. *)

(** The simple lowercase mapping: the code points [first], [first + step],
    ..., [last] are moved by [delta]. *)
Definition lower_ranges : list (N * N * N * Z) :=
  [
    (65, 90, 1, 32%Z); (192, 214, 1, 32%Z); (216, 222, 1, 32%Z);
    (256, 302, 2, 1%Z); (304, 304, 1, (-199)%Z); (306, 310, 2, 1%Z);
    (313, 327, 2, 1%Z); (330, 374, 2, 1%Z); (376, 376, 1, (-121)%Z);
    (377, 381, 2, 1%Z); (385, 385, 1, 210%Z); (386, 388, 2, 1%Z);
    (390, 390, 1, 206%Z); (391, 391, 1, 1%Z); (393, 394, 1, 205%Z);
    (395, 395, 1, 1%Z); (398, 398, 1, 79%Z); (399, 399, 1, 202%Z);
    (400, 400, 1, 203%Z); (401, 401, 1, 1%Z); (403, 403, 1, 205%Z);
    (404, 404, 1, 207%Z); (406, 406, 1, 211%Z); (407, 407, 1, 209%Z);
    (408, 408, 1, 1%Z); (412, 412, 1, 211%Z); (413, 413, 1, 213%Z);
    (415, 415, 1, 214%Z); (416, 420, 2, 1%Z); (422, 422, 1, 218%Z);
    (423, 423, 1, 1%Z); (425, 425, 1, 218%Z); (428, 428, 1, 1%Z);
    (430, 430, 1, 218%Z); (431, 431, 1, 1%Z); (433, 434, 1, 217%Z);
    (435, 437, 2, 1%Z); (439, 439, 1, 219%Z); (440, 440, 1, 1%Z);
    (444, 444, 1, 1%Z); (452, 452, 1, 2%Z); (453, 453, 1, 1%Z);
    (455, 455, 1, 2%Z); (456, 456, 1, 1%Z); (458, 458, 1, 2%Z);
    (459, 475, 2, 1%Z); (478, 494, 2, 1%Z); (497, 497, 1, 2%Z);
    (498, 500, 2, 1%Z); (502, 502, 1, (-97)%Z); (503, 503, 1, (-56)%Z);
    (504, 542, 2, 1%Z); (544, 544, 1, (-130)%Z); (546, 562, 2, 1%Z);
    (570, 570, 1, 10795%Z); (571, 571, 1, 1%Z); (573, 573, 1, (-163)%Z);
    (574, 574, 1, 10792%Z); (577, 577, 1, 1%Z); (579, 579, 1, (-195)%Z);
    (580, 580, 1, 69%Z); (581, 581, 1, 71%Z); (582, 590, 2, 1%Z);
    (880, 882, 2, 1%Z); (886, 886, 1, 1%Z); (895, 895, 1, 116%Z);
    (902, 902, 1, 38%Z); (904, 906, 1, 37%Z); (908, 908, 1, 64%Z);
    (910, 911, 1, 63%Z); (913, 929, 1, 32%Z); (931, 939, 1, 32%Z);
    (975, 975, 1, 8%Z); (984, 1006, 2, 1%Z); (1012, 1012, 1, (-60)%Z);
    (1015, 1015, 1, 1%Z); (1017, 1017, 1, (-7)%Z); (1018, 1018, 1, 1%Z);
    (1021, 1023, 1, (-130)%Z); (1024, 1039, 1, 80%Z); (1040, 1071, 1, 32%Z);
    (1120, 1152, 2, 1%Z); (1162, 1214, 2, 1%Z); (1216, 1216, 1, 15%Z);
    (1217, 1229, 2, 1%Z); (1232, 1326, 2, 1%Z); (1329, 1366, 1, 48%Z);
    (4256, 4293, 1, 7264%Z); (4295, 4295, 1, 7264%Z); (4301, 4301, 1, 7264%Z);
    (5024, 5103, 1, 38864%Z); (5104, 5109, 1, 8%Z); (7312, 7354, 1, (-3008)%Z);
    (7357, 7359, 1, (-3008)%Z); (7680, 7828, 2, 1%Z); (7838, 7838, 1, (-7615)%Z);
    (7840, 7934, 2, 1%Z); (7944, 7951, 1, (-8)%Z); (7960, 7965, 1, (-8)%Z);
    (7976, 7983, 1, (-8)%Z); (7992, 7999, 1, (-8)%Z); (8008, 8013, 1, (-8)%Z);
    (8025, 8031, 2, (-8)%Z); (8040, 8047, 1, (-8)%Z); (8072, 8079, 1, (-8)%Z);
    (8088, 8095, 1, (-8)%Z); (8104, 8111, 1, (-8)%Z); (8120, 8121, 1, (-8)%Z);
    (8122, 8123, 1, (-74)%Z); (8124, 8124, 1, (-9)%Z); (8136, 8139, 1, (-86)%Z);
    (8140, 8140, 1, (-9)%Z); (8152, 8153, 1, (-8)%Z); (8154, 8155, 1, (-100)%Z);
    (8168, 8169, 1, (-8)%Z); (8170, 8171, 1, (-112)%Z); (8172, 8172, 1, (-7)%Z);
    (8184, 8185, 1, (-128)%Z); (8186, 8187, 1, (-126)%Z); (8188, 8188, 1, (-9)%Z);
    (8486, 8486, 1, (-7517)%Z); (8490, 8490, 1, (-8383)%Z); (8491, 8491, 1, (-8262)%Z);
    (8498, 8498, 1, 28%Z); (8544, 8559, 1, 16%Z); (8579, 8579, 1, 1%Z);
    (9398, 9423, 1, 26%Z); (11264, 11311, 1, 48%Z); (11360, 11360, 1, 1%Z);
    (11362, 11362, 1, (-10743)%Z); (11363, 11363, 1, (-3814)%Z); (11364, 11364, 1, (-10727)%Z);
    (11367, 11371, 2, 1%Z); (11373, 11373, 1, (-10780)%Z); (11374, 11374, 1, (-10749)%Z);
    (11375, 11375, 1, (-10783)%Z); (11376, 11376, 1, (-10782)%Z); (11378, 11378, 1, 1%Z);
    (11381, 11381, 1, 1%Z); (11390, 11391, 1, (-10815)%Z); (11392, 11490, 2, 1%Z);
    (11499, 11501, 2, 1%Z); (11506, 11506, 1, 1%Z); (42560, 42604, 2, 1%Z);
    (42624, 42650, 2, 1%Z); (42786, 42798, 2, 1%Z); (42802, 42862, 2, 1%Z);
    (42873, 42875, 2, 1%Z); (42877, 42877, 1, (-35332)%Z); (42878, 42886, 2, 1%Z);
    (42891, 42891, 1, 1%Z); (42893, 42893, 1, (-42280)%Z); (42896, 42898, 2, 1%Z);
    (42902, 42920, 2, 1%Z); (42922, 42922, 1, (-42308)%Z); (42923, 42923, 1, (-42319)%Z);
    (42924, 42924, 1, (-42315)%Z); (42925, 42925, 1, (-42305)%Z); (42926, 42926, 1, (-42308)%Z);
    (42928, 42928, 1, (-42258)%Z); (42929, 42929, 1, (-42282)%Z); (42930, 42930, 1, (-42261)%Z);
    (42931, 42931, 1, 928%Z); (42932, 42946, 2, 1%Z); (42948, 42948, 1, (-48)%Z);
    (42949, 42949, 1, (-42307)%Z); (42950, 42950, 1, (-35384)%Z); (42951, 42953, 2, 1%Z);
    (42960, 42960, 1, 1%Z); (42966, 42968, 2, 1%Z); (42997, 42997, 1, 1%Z);
    (65313, 65338, 1, 32%Z); (66560, 66599, 1, 40%Z); (66736, 66771, 1, 40%Z);
    (66928, 66938, 1, 39%Z); (66940, 66954, 1, 39%Z); (66956, 66962, 1, 39%Z);
    (66964, 66965, 1, 39%Z); (68736, 68786, 1, 64%Z); (71840, 71871, 1, 32%Z);
    (93760, 93791, 1, 32%Z); (125184, 125217, 1, 34%Z) ]%N.

(** The move of [c]; the ranges are listed in increasing order and do not
    overlap. *)
Fixpoint lower_delta (c : N) (l : list (N * N * N * Z)) : Z :=
  match l with
  | [] => 0%Z
  | (first, last, step, delta) :: l' =>
    if (c <? first)%N then 0%Z
    else if (c <=? last)%N
         then (if ((c - first) mod step =? 0)%N then delta else 0%Z)
         else lower_delta c l'
  end.

(** [_PyUnicode_ToLowercase]: the lowercase form of one code point, the
    code point itself when it has none. *)
Definition to_lower (c : N) : N := Z.to_N (Z.of_N c + lower_delta c lower_ranges).

(** [_PyUnicode_ToLowerFull]: only U+0130 has a lowercase form of more
    than one code point. *)
Definition lower_full (c : N) : pystr :=
  if (c =? 304)%N then [105; 775]%N else [to_lower c].

Definition in_interval (c : N) (r : N * N) : bool :=
  ((fst r <=? c) && (c <=? snd r))%N.

(** The code points with the property Case_Ignorable. *)
Definition case_ignorable_ranges : list (N * N) :=
  [
    (39, 39); (46, 46); (58, 58); (94, 94); (96, 96); (168, 168);
    (173, 173); (175, 175); (180, 180); (183, 184); (688, 879); (884, 885);
    (890, 890); (900, 901); (903, 903); (1155, 1161); (1369, 1369); (1375, 1375);
    (1425, 1469); (1471, 1471); (1473, 1474); (1476, 1477); (1479, 1479); (1524, 1524);
    (1536, 1541); (1552, 1562); (1564, 1564); (1600, 1600); (1611, 1631); (1648, 1648);
    (1750, 1757); (1759, 1768); (1770, 1773); (1807, 1807); (1809, 1809); (1840, 1866);
    (1958, 1968); (2027, 2037); (2042, 2042); (2045, 2045); (2070, 2093); (2137, 2139);
    (2184, 2184); (2192, 2193); (2200, 2207); (2249, 2306); (2362, 2362); (2364, 2364);
    (2369, 2376); (2381, 2381); (2385, 2391); (2402, 2403); (2417, 2417); (2433, 2433);
    (2492, 2492); (2497, 2500); (2509, 2509); (2530, 2531); (2558, 2558); (2561, 2562);
    (2620, 2620); (2625, 2626); (2631, 2632); (2635, 2637); (2641, 2641); (2672, 2673);
    (2677, 2677); (2689, 2690); (2748, 2748); (2753, 2757); (2759, 2760); (2765, 2765);
    (2786, 2787); (2810, 2815); (2817, 2817); (2876, 2876); (2879, 2879); (2881, 2884);
    (2893, 2893); (2901, 2902); (2914, 2915); (2946, 2946); (3008, 3008); (3021, 3021);
    (3072, 3072); (3076, 3076); (3132, 3132); (3134, 3136); (3142, 3144); (3146, 3149);
    (3157, 3158); (3170, 3171); (3201, 3201); (3260, 3260); (3263, 3263); (3270, 3270);
    (3276, 3277); (3298, 3299); (3328, 3329); (3387, 3388); (3393, 3396); (3405, 3405);
    (3426, 3427); (3457, 3457); (3530, 3530); (3538, 3540); (3542, 3542); (3633, 3633);
    (3636, 3642); (3654, 3662); (3761, 3761); (3764, 3772); (3782, 3782); (3784, 3789);
    (3864, 3865); (3893, 3893); (3895, 3895); (3897, 3897); (3953, 3966); (3968, 3972);
    (3974, 3975); (3981, 3991); (3993, 4028); (4038, 4038); (4141, 4144); (4146, 4151);
    (4153, 4154); (4157, 4158); (4184, 4185); (4190, 4192); (4209, 4212); (4226, 4226);
    (4229, 4230); (4237, 4237); (4253, 4253); (4348, 4348); (4957, 4959); (5906, 5908);
    (5938, 5939); (5970, 5971); (6002, 6003); (6068, 6069); (6071, 6077); (6086, 6086);
    (6089, 6099); (6103, 6103); (6109, 6109); (6155, 6159); (6211, 6211); (6277, 6278);
    (6313, 6313); (6432, 6434); (6439, 6440); (6450, 6450); (6457, 6459); (6679, 6680);
    (6683, 6683); (6742, 6742); (6744, 6750); (6752, 6752); (6754, 6754); (6757, 6764);
    (6771, 6780); (6783, 6783); (6823, 6823); (6832, 6862); (6912, 6915); (6964, 6964);
    (6966, 6970); (6972, 6972); (6978, 6978); (7019, 7027); (7040, 7041); (7074, 7077);
    (7080, 7081); (7083, 7085); (7142, 7142); (7144, 7145); (7149, 7149); (7151, 7153);
    (7212, 7219); (7222, 7223); (7288, 7293); (7376, 7378); (7380, 7392); (7394, 7400);
    (7405, 7405); (7412, 7412); (7416, 7417); (7468, 7530); (7544, 7544); (7579, 7679);
    (8125, 8125); (8127, 8129); (8141, 8143); (8157, 8159); (8173, 8175); (8189, 8190);
    (8203, 8207); (8216, 8217); (8228, 8228); (8231, 8231); (8234, 8238); (8288, 8292);
    (8294, 8303); (8305, 8305); (8319, 8319); (8336, 8348); (8400, 8432); (11388, 11389);
    (11503, 11505); (11631, 11631); (11647, 11647); (11744, 11775); (11823, 11823); (12293, 12293);
    (12330, 12333); (12337, 12341); (12347, 12347); (12441, 12446); (12540, 12542); (40981, 40981);
    (42232, 42237); (42508, 42508); (42607, 42610); (42612, 42621); (42623, 42623); (42652, 42655);
    (42736, 42737); (42752, 42785); (42864, 42864); (42888, 42890); (42994, 42996); (43000, 43001);
    (43010, 43010); (43014, 43014); (43019, 43019); (43045, 43046); (43052, 43052); (43204, 43205);
    (43232, 43249); (43263, 43263); (43302, 43309); (43335, 43345); (43392, 43394); (43443, 43443);
    (43446, 43449); (43452, 43453); (43471, 43471); (43493, 43494); (43561, 43566); (43569, 43570);
    (43573, 43574); (43587, 43587); (43596, 43596); (43632, 43632); (43644, 43644); (43696, 43696);
    (43698, 43700); (43703, 43704); (43710, 43711); (43713, 43713); (43741, 43741); (43756, 43757);
    (43763, 43764); (43766, 43766); (43867, 43871); (43881, 43883); (44005, 44005); (44008, 44008);
    (44013, 44013); (64286, 64286); (64434, 64450); (65024, 65039); (65043, 65043); (65056, 65071);
    (65106, 65106); (65109, 65109); (65279, 65279); (65287, 65287); (65294, 65294); (65306, 65306);
    (65342, 65342); (65344, 65344); (65392, 65392); (65438, 65439); (65507, 65507); (65529, 65531);
    (66045, 66045); (66272, 66272); (66422, 66426); (67456, 67461); (67463, 67504); (67506, 67514);
    (68097, 68099); (68101, 68102); (68108, 68111); (68152, 68154); (68159, 68159); (68325, 68326);
    (68900, 68903); (69291, 69292); (69446, 69456); (69506, 69509); (69633, 69633); (69688, 69702);
    (69744, 69744); (69747, 69748); (69759, 69761); (69811, 69814); (69817, 69818); (69821, 69821);
    (69826, 69826); (69837, 69837); (69888, 69890); (69927, 69931); (69933, 69940); (70003, 70003);
    (70016, 70017); (70070, 70078); (70089, 70092); (70095, 70095); (70191, 70193); (70196, 70196);
    (70198, 70199); (70206, 70206); (70367, 70367); (70371, 70378); (70400, 70401); (70459, 70460);
    (70464, 70464); (70502, 70508); (70512, 70516); (70712, 70719); (70722, 70724); (70726, 70726);
    (70750, 70750); (70835, 70840); (70842, 70842); (70847, 70848); (70850, 70851); (71090, 71093);
    (71100, 71101); (71103, 71104); (71132, 71133); (71219, 71226); (71229, 71229); (71231, 71232);
    (71339, 71339); (71341, 71341); (71344, 71349); (71351, 71351); (71453, 71455); (71458, 71461);
    (71463, 71467); (71727, 71735); (71737, 71738); (71995, 71996); (71998, 71998); (72003, 72003);
    (72148, 72151); (72154, 72155); (72160, 72160); (72193, 72202); (72243, 72248); (72251, 72254);
    (72263, 72263); (72273, 72278); (72281, 72283); (72330, 72342); (72344, 72345); (72752, 72758);
    (72760, 72765); (72767, 72767); (72850, 72871); (72874, 72880); (72882, 72883); (72885, 72886);
    (73009, 73014); (73018, 73018); (73020, 73021); (73023, 73029); (73031, 73031); (73104, 73105);
    (73109, 73109); (73111, 73111); (73459, 73460); (78896, 78904); (92912, 92916); (92976, 92982);
    (92992, 92995); (94031, 94031); (94095, 94111); (94176, 94177); (94179, 94180); (110576, 110579);
    (110581, 110587); (110589, 110590); (113821, 113822); (113824, 113827); (118528, 118573); (118576, 118598);
    (119143, 119145); (119155, 119170); (119173, 119179); (119210, 119213); (119362, 119364); (121344, 121398);
    (121403, 121452); (121461, 121461); (121476, 121476); (121499, 121503); (121505, 121519); (122880, 122886);
    (122888, 122904); (122907, 122913); (122915, 122916); (122918, 122922); (123184, 123197); (123566, 123566);
    (123628, 123631); (125136, 125142); (125252, 125259); (127995, 127999); (917505, 917505); (917536, 917631);
    (917760, 917999) ]%N.

(** The code points with the property Cased, those among the
    case-ignorable ones left out (they are skipped before the property is
    looked at). *)
Definition cased_ranges : list (N * N) :=
  [
    (65, 90); (97, 122); (170, 170); (181, 181); (186, 186); (192, 214);
    (216, 246); (248, 442); (444, 447); (452, 659); (661, 687); (880, 883);
    (886, 887); (891, 893); (895, 895); (902, 902); (904, 906); (908, 908);
    (910, 929); (931, 1013); (1015, 1153); (1162, 1327); (1329, 1366); (1376, 1416);
    (4256, 4293); (4295, 4295); (4301, 4301); (4304, 4346); (4349, 4351); (5024, 5109);
    (5112, 5117); (7296, 7304); (7312, 7354); (7357, 7359); (7424, 7467); (7531, 7543);
    (7545, 7578); (7680, 7957); (7960, 7965); (7968, 8005); (8008, 8013); (8016, 8023);
    (8025, 8025); (8027, 8027); (8029, 8029); (8031, 8061); (8064, 8116); (8118, 8124);
    (8126, 8126); (8130, 8132); (8134, 8140); (8144, 8147); (8150, 8155); (8160, 8172);
    (8178, 8180); (8182, 8188); (8450, 8450); (8455, 8455); (8458, 8467); (8469, 8469);
    (8473, 8477); (8484, 8484); (8486, 8486); (8488, 8488); (8490, 8493); (8495, 8500);
    (8505, 8505); (8508, 8511); (8517, 8521); (8526, 8526); (8544, 8575); (8579, 8580);
    (9398, 9449); (11264, 11387); (11390, 11492); (11499, 11502); (11506, 11507); (11520, 11557);
    (11559, 11559); (11565, 11565); (42560, 42605); (42624, 42651); (42786, 42863); (42865, 42887);
    (42891, 42894); (42896, 42954); (42960, 42961); (42963, 42963); (42965, 42969); (42997, 42998);
    (43002, 43002); (43824, 43866); (43872, 43880); (43888, 43967); (64256, 64262); (64275, 64279);
    (65313, 65338); (65345, 65370); (66560, 66639); (66736, 66771); (66776, 66811); (66928, 66938);
    (66940, 66954); (66956, 66962); (66964, 66965); (66967, 66977); (66979, 66993); (66995, 67001);
    (67003, 67004); (68736, 68786); (68800, 68850); (71840, 71903); (93760, 93823); (119808, 119892);
    (119894, 119964); (119966, 119967); (119970, 119970); (119973, 119974); (119977, 119980); (119982, 119993);
    (119995, 119995); (119997, 120003); (120005, 120069); (120071, 120074); (120077, 120084); (120086, 120092);
    (120094, 120121); (120123, 120126); (120128, 120132); (120134, 120134); (120138, 120144); (120146, 120485);
    (120488, 120512); (120514, 120538); (120540, 120570); (120572, 120596); (120598, 120628); (120630, 120654);
    (120656, 120686); (120688, 120712); (120714, 120744); (120746, 120770); (120772, 120779); (122624, 122633);
    (122635, 122654); (125184, 125251); (127280, 127305); (127312, 127337); (127344, 127369) ]%N.

Definition case_ignorable (c : N) : bool := existsb (in_interval c) case_ignorable_ranges.

Definition cased (c : N) : bool := existsb (in_interval c) cased_ranges.

(** Whether the first character of [s] that is not case-ignorable is
    cased. *)
Fixpoint meets_cased (s : pystr) : bool :=
  match s with
  | [] => false
  | c :: s' => if case_ignorable c then meets_cased s' else cased c
  end.

(** [handle_capital_sigma]: a capital sigma is lowered to the final form
    when a cased letter precedes it and none follows it, case-ignorable
    characters skipped; [before] is the text before it, nearest character
    first. *)
Definition final_sigma (before after : pystr) : bool :=
  meets_cased before && negb (meets_cased after).

Fixpoint lower_from (before s : pystr) : pystr :=
  match s with
  | [] => []
  | c :: s' =>
    (if (c =? 931)%N
     then [if final_sigma before s' then 962%N else 963%N]
     else lower_full c) ++ lower_from (c :: before) s'
  end.

(** [s.lower()]. *)
Definition lower (s : pystr) : pystr := lower_from [] s.

(** The characters [str.lower] changes: those that have a lowercase form. *)
Definition is_upper (c : N) : bool := negb (to_lower c =? c)%N.

(** Whether [s] has a character that [str.lower] changes. *)
Definition has_upper (s : pystr) : bool := existsb is_upper s.

(** The code points that [re.IGNORECASE] treats as one although their
    lowercase forms differ ([_EXTRA_CASES] of [re._casefix]). *)
Definition extra_cases : list (N * list N) :=
  [
    (105, [305]); (115, [383]); (181, [956]); (305, [105]);
    (383, [115]); (837, [953; 8126]); (912, [8147]); (944, [8163]);
    (946, [976]); (949, [1013]); (952, [977]); (953, [837; 8126]);
    (954, [1008]); (956, [181]); (960, [982]); (961, [1009]);
    (962, [963]); (963, [962]); (966, [981]); (976, [946]);
    (977, [952]); (981, [966]); (982, [960]); (1008, [954]);
    (1009, [961]); (1013, [949]); (1074, [7296]); (1076, [7297]);
    (1086, [7298]); (1089, [7299]); (1090, [7300; 7301]); (1098, [7302]);
    (1123, [7303]); (7296, [1074]); (7297, [1076]); (7298, [1086]);
    (7299, [1089]); (7300, [1090; 7301]); (7301, [1090; 7300]); (7302, [1098]);
    (7303, [1123]); (7304, [42571]); (7777, [7835]); (7835, [7777]);
    (8126, [837; 953]); (8147, [912]); (8163, [944]); (42571, [7304]);
    (64261, [64262]); (64262, [64261]) ]%N.

(** [sep.join(l)]. *)
Fixpoint join (sep : pystr) (l : list pystr) : pystr :=
  match l with
  | [] => []
  | [x] => x
  | x :: l' => x ++ sep ++ join sep l'
  end.

(** [str(n)] for a non-negative [int]. *)
Definition str_of_nat (n : nat) : pystr :=
  py (NilZero.string_of_uint (Nat.to_uint n)).

(** Lexicographic comparison of two [str] by code point: [a <= b]. *)
Fixpoint str_leb (a b : pystr) : bool :=
  match a, b with
  | [], _ => true
  | _ :: _, [] => false
  | x :: a', y :: b' => (x <? y)%N || ((x =? y)%N && str_leb a' b')
  end.

(** A stable sort ([sorted], [ORDER BY]): [x] is put before the first
    element that is not [le]-before it, so equal elements keep their
    input order. *)
Fixpoint insert_sorted (A : Type) (le : A -> A -> bool) (x : A) (l : list A) : list A :=
  match l with
  | [] => [x]
  | y :: l' => if le x y then x :: l else y :: insert_sorted le x l'
  end.

Definition sorted (A : Type) (le : A -> A -> bool) (l : list A) : list A :=
  fold_right (insert_sorted le) [] l.

(** ** [float]: IEEE 754 binary64, computed by the Standard Library's
    [SpecFloat] *)

Definition float : Type := spec_float.

Definition prec : Z := 53.

Definition emax : Z := 1024.

(** The least quotient that is too large for a float: halfway between the
    greatest float and [2^1024]. *)
Definition overflow_bound : Z := (2 ^ 1024 - 2 ^ 970)%Z.

(** [a / b] for two [int] that are not negative, [b] not zero: the float
    nearest to the quotient, [OverflowError] when there is none. *)
Definition true_div (a b : nat) : result float :=
  match a with
  | O => Ok (S754_zero false)
  | _ =>
    if (overflow_bound * Z.of_nat b <=? Z.of_nat a)%Z
    then Raise (py "integer division result too large for a float")
    else Ok (SFdiv prec emax (S754_finite false (Pos.of_nat a) 0)
                             (S754_finite false (Pos.of_nat b) 0))
  end.

(** [x * n] for a float [x] and a small positive [int] [n]. *)
Definition float_mul_int (x : float) (n : positive) : float :=
  SFmul prec emax x (binary_normalize prec emax (Zpos n) 0 false).

(** The integer nearest to [n / d], halves to the even one ([0 < d]). *)
Definition round_half_even (n d : Z) : Z :=
  let q := (n / d)%Z in
  let r := (n mod d)%Z in
  if (2 * r <? d)%Z then q
  else if (d <? 2 * r)%Z then (q + 1)%Z
  else if Z.even q then q else (q + 1)%Z.

(** The number of tenths nearest to a positive float [m * 2^e]. *)
Definition tenths (m : positive) (e : Z) : Z :=
  if (0 <=? e)%Z then (Zpos m * 2 ^ e * 10)%Z
  else round_half_even (Zpos m * 10) (2 ^ (- e)).

(** [f"{x:.1f}"]: one digit after the point, correctly rounded. *)
Definition format_1f (x : float) : pystr :=
  match x with
  | S754_zero s => (if s then py "-" else []) ++ py "0.0"
  | S754_infinity s => (if s then py "-" else []) ++ py "inf"
  | S754_nan => py "nan"
  | S754_finite s m e =>
    (if s then py "-" else [])
    ++ str_of_nat (Z.to_nat (tenths m e / 10)) ++ py "."
    ++ str_of_nat (Z.to_nat (tenths m e mod 10))
  end.

End Py.

Import Py.

Notation "x <- a ;; b" := (Py.bind a (fun x => b))
  (at level 100, a at next level, right associativity).


(* ===================================================================== *)
(** * Regular expressions (the part of Python's [re] the sources use) *)
(* ===================================================================== *)

Module Re.

(** Patterns.  Repetition occurs in the sources only over character
    classes ([\s+], [[^/]+], [[^/]+?], ...). *)
Inductive re : Type :=
| Eps                              (* empty pattern *)
| Chr (p : N -> bool)              (* one character of a class *)
| Cat (a b : re)                   (* a b *)
| Alt (a b : re)                   (* a|b, left alternative first *)
| Opt (a : re)                     (* a?, greedy *)
| Plus (p : N -> bool)             (* c+, greedy *)
| PlusLazy (p : N -> bool)         (* c+?, shortest first *)
| Grp (i : nat) (a : re)           (* capture group number i *)
| Eos.                             (* $ *)

(** Captured groups, most recent binding first. *)
Definition caps : Type := list (nat * pystr).

(** A continuation: the rest of the pattern, given the rest of the text. *)
Definition cont : Type := pystr -> caps -> option caps.

Definition orelse (A : Type) (x y : option A) : option A :=
  match x with
  | Some _ => x
  | None => y
  end.

(** [c*] then the continuation, longest repetition first. *)
Fixpoint star_greedy (p : N -> bool) (s : pystr) (k : pystr -> option caps) : option caps :=
  match s with
  | c :: s' => if p c then orelse (star_greedy p s' k) (k s) else k s
  | [] => k s
  end.

Definition plus_greedy (p : N -> bool) (s : pystr) (k : pystr -> option caps) : option caps :=
  match s with
  | c :: s' => if p c then star_greedy p s' k else None
  | [] => None
  end.

(** [c+?] then the continuation, shortest repetition first. *)
Fixpoint plus_lazy (p : N -> bool) (s : pystr) (k : pystr -> option caps) : option caps :=
  match s with
  | c :: s' => if p c then orelse (k s') (plus_lazy p s' k) else None
  | [] => None
  end.

(** [$]: the end of the text, or just before a final newline. *)
Definition at_end (s : pystr) : bool :=
  match s with
  | [] => true
  | [c] => (c =? 10)%N
  | _ => false
  end.

(** The backtracking matcher: [m r s c k] matches [r] at the start of [s]
    and hands the rest of the text to [k]; alternatives are tried in the
    order of Python's engine. *)
Fixpoint m (r : re) (s : pystr) (c : caps) (k : cont) : option caps :=
  match r with
  | Eps => k s c
  | Chr p =>
    match s with
    | x :: s' => if p x then k s' c else None
    | [] => None
    end
  | Cat a b => m a s c (fun s1 c1 => m b s1 c1 k)
  | Alt a b => orelse (m a s c k) (m b s c k)
  | Opt a => orelse (m a s c k) (k s c)
  | Plus p => plus_greedy p s (fun s' => k s' c)
  | PlusLazy p => plus_lazy p s (fun s' => k s' c)
  | Grp i a =>
    m a s c (fun s' c' => k s' ((i, firstn (List.length s - List.length s') s) :: c'))
  | Eos => if at_end s then k s c else None
  end.

Definition accept : cont := fun _ c => Some c.

(** [re.match(r, s)]: anchored at the start of [s]. *)
Definition re_match (r : re) (s : pystr) : option caps := m r s [] accept.

(** [re.search(r, s)]: the leftmost position where [r] matches. *)
Fixpoint re_search (r : re) (s : pystr) : option caps :=
  orelse (re_match r s)
         match s with
         | [] => None
         | _ :: s' => re_search r s'
         end.

(** [match.group(i)]; every group of the patterns of these sources takes
    part in every match, so the [None] of a group that did not is not
    modelled. *)
Fixpoint group (i : nat) (c : caps) : pystr :=
  match c with
  | [] => []
  | (j, t) :: c' => if Nat.eqb i j then t else group i c'
  end.

(** Pattern syntax. *)
Fixpoint seq (l : list re) : re :=
  match l with
  | [] => Eps
  | [a] => a
  | a :: l' => Cat a (seq l')
  end.

Fixpoint alts (l : list re) : re :=
  match l with
  | [] => Eps
  | [a] => a
  | a :: l' => Alt a (alts l')
  end.

(** A literal word. *)
Definition lit (s : pystr) : re := seq (List.map (fun c => Chr (N.eqb c)) s).

(** One character of the pattern under [re.IGNORECASE]: the character of
    the text is lowered ([sre_lower_unicode]) and must be the lowered
    pattern character or one of its extra cases. *)
Definition same_letter (p x : N) : bool :=
  let lo := to_lower p in
  let c := to_lower x in
  if (c =? lo)%N then true
  else match List.find (fun e => (fst e =? lo)%N) extra_cases with
       | Some e => has_char c (snd e)
       | None => false
       end.

(** A literal word under [re.IGNORECASE]. *)
Definition lit_i (s : pystr) : re :=
  seq (List.map (fun p => Chr (same_letter p)) s).

(** [[^abc]] and [[abc]] (the latter under [re.IGNORECASE], for a class
    that has a cased character). *)
Definition none_of (cs : pystr) : N -> bool := fun x => negb (has_char x cs).

Definition one_of_i (cs : pystr) : N -> bool :=
  fun x => existsb (fun p => same_letter p x) cs.

End Re.

(* ===================================================================== *)
(** * db_connector.py: the [repositories] table *)
(* ===================================================================== *)

Module Db.

(** One row of [repositories]. *)
Record Row : Type := {
  id : nat;
  url : pystr;
  owner_name : pystr;
  repo_name : pystr;
  technologies : list pystr;
  is_identified : bool;
  status : pystr;
  ai_explanation : option pystr;
  created_at : nat;
  updated_at : nat
}.

(** One row of [ai_queries]. *)
Record AiQuery : Type := {
  query_text : pystr;
  response_text : pystr;
  query_type : pystr
}.

(** The database: the rows of [repositories] in creation order, the
    [SERIAL] counter of their [id], the clock behind [CURRENT_TIMESTAMP],
    and the rows of [ai_queries]. *)
Record Store : Type := {
  rows : list Row;
  next_id : nat;
  clock : nat;
  ai_queries : list AiQuery
}.

Definition empty : Store := {| rows := []; next_id := 1; clock := 0; ai_queries := [] |}.

(** [ON CONFLICT (url) DO UPDATE SET ...]: the stored row [r] keeps [id],
    [url] and [created_at] and takes every other column from the proposed
    row ([EXCLUDED]); [updated_at] becomes the current time. *)
Definition do_update (r new : Row) : Row :=
  {| id := id r; url := url r;
     owner_name := owner_name new; repo_name := repo_name new;
     technologies := technologies new; is_identified := is_identified new;
     status := status new; ai_explanation := ai_explanation new;
     created_at := created_at r; updated_at := updated_at new |}.

(** [INSERT ... ON CONFLICT (url) DO UPDATE ... RETURNING id]: the row with
    the same [url] is updated in place; without a conflict the proposed row
    is added. *)
Fixpoint upsert (new : Row) (l : list Row) : nat * list Row :=
  match l with
  | [] => (id new, [new])
  | r :: l' =>
    if str_eqb (url r) (url new) then (id r, do_update r new :: l')
    else
      let (i, l'') := upsert new l' in (i, r :: l'')
  end.

(** [technologies or []]. *)
Definition or_empty (t : option (list pystr)) : list pystr :=
  match t with
  | Some l => l
  | None => []
  end.

(** [insert_repository]: [online] tells whether the connection and the
    statement succeed; any exception is caught and gives [None]. *)
Definition insert_repository (online : bool) (st : Store)
    (u owner repo : pystr) (techs : option (list pystr)) (identified : bool)
    (stat : pystr) (expl : option pystr) : option nat * Store :=
  let techs := or_empty techs in
  if online then
    let new := {| id := next_id st; url := u; owner_name := owner; repo_name := repo;
                  technologies := techs; is_identified := identified;
                  status := stat; ai_explanation := expl;
                  created_at := clock st; updated_at := clock st |} in
    let (rid, rows') := upsert new (rows st) in
    (Some rid, {| rows := rows'; next_id := S (next_id st); clock := S (clock st);
                  ai_queries := ai_queries st |})
  else (None, st).

(** [get_repository_by_url]. *)
Definition get_repository_by_url (online : bool) (st : Store) (u : pystr) : option Row :=
  if online then List.find (fun r => str_eqb (url r) u) (rows st) else None.

(** [ORDER BY created_at DESC]. *)
Definition newest_first (l : list Row) : list Row :=
  sorted (fun a b => created_at b <=? created_at a) l.

(** [ORDER BY repo_name]. *)
Definition by_repo_name (l : list Row) : list Row :=
  sorted (fun a b => str_leb (repo_name a) (repo_name b)) l.

(** [ORDER BY owner_name, repo_name]. *)
Definition by_owner_then_repo (l : list Row) : list Row :=
  sorted (fun a b =>
            if str_eqb (owner_name a) (owner_name b)
            then str_leb (repo_name a) (repo_name b)
            else str_leb (owner_name a) (owner_name b)) l.

(** [get_repositories_by_owner]: [WHERE owner_name = %s]. *)
Definition get_repositories_by_owner (online : bool) (st : Store) (owner : pystr) : list Row :=
  if online
  then by_repo_name (List.filter (fun r => str_eqb (owner_name r) owner) (rows st))
  else [].

(** [get_repositories_by_technology]: [WHERE %s = ANY(technologies)]. *)
Definition get_repositories_by_technology (online : bool) (st : Store) (tech : pystr) : list Row :=
  if online
  then by_owner_then_repo (List.filter (fun r => str_in tech (technologies r)) (rows st))
  else [].

(** [get_all_repositories(limit)]; [if limit:] skips [None] and [0]. *)
Definition get_all_repositories (online : bool) (st : Store) (limit : option nat) : list Row :=
  if online then
    match limit with
    | Some (S n) => firstn (S n) (newest_first (rows st))
    | _ => newest_first (rows st)
    end
  else [].

(** [get_unidentified_repositories]: [WHERE is_identified = FALSE]. *)
Definition get_unidentified_repositories (online : bool) (st : Store) : list Row :=
  if online
  then newest_first (List.filter (fun r => negb (is_identified r)) (rows st))
  else [].

(** SQL [LIKE] with the default escape character: [%] any sequence, [_]
    any one character, a backslash quotes the next character.  (A pattern
    ending in a lone backslash is an error in PostgreSQL; the patterns sent
    here always end in [%].) *)
Fixpoint like (pat : pystr) : pystr -> bool :=
  match pat with
  | [] => fun s => match s with [] => true | _ => false end
  | c :: pat' =>
    if (c =? 37)%N then
      (fix any (s : pystr) : bool :=
         like pat' s || match s with [] => false | _ :: s' => any s' end)
    else if (c =? 95)%N then
      fun s => match s with _ :: s' => like pat' s' | [] => false end
    else if (c =? 92)%N then
      match pat' with
      | [] => fun _ => false
      | q :: pat'' =>
        fun s => match s with x :: s' => (x =? q)%N && like pat'' s' | [] => false end
      end
    else
      fun s => match s with x :: s' => (x =? c)%N && like pat' s' | [] => false end
  end.

Section Select.

(** What the server decides: which letters [LOWER] changes (it follows the
    locale of the database), and in which order a [SELECT] without
    [ORDER BY] returns the rows it finds. *)
Variable sql_lower : pystr -> pystr.
Variable row_order : list Row -> list Row.

(** [execute_custom_query] on the one statement shape the query engine
    sends: [SELECT ... FROM repositories WHERE LOWER(repo_name) LIKE
    LOWER(%s)].  A failure is caught and gives [[]]. *)
Definition select_repo_name_like (online : bool) (st : Store) (pattern : pystr) : list Row :=
  if online
  then row_order
         (List.filter (fun r => like (sql_lower pattern) (sql_lower (repo_name r))) (rows st))
  else [].

End Select.

(** [save_ai_query]. *)
Definition save_ai_query (online : bool) (st : Store) (q r t : pystr) : bool * Store :=
  if online then
    (true, {| rows := rows st; next_id := next_id st; clock := S (clock st);
              ai_queries := ai_queries st
                            ++ [{| query_text := q; response_text := r; query_type := t |}] |})
  else (false, st).

End Db.

(* ===================================================================== *)
(** * scanner.py: [RepositoryScanner] *)
(* ===================================================================== *)

Module Scanner.

(** ** The pattern catalog ([self.technology_patterns], in dict order) *)

Definition technology_patterns : list (pystr * list pystr) :=
  [ (py "Node.js", [py "package.json"; py "package-lock.json"; py "yarn.lock"; py "node_modules"]);
    (py "Python", [py "requirements.txt"; py "setup.py"; py "pyproject.toml"; py "Pipfile";
                   py "poetry.lock"; py "conda.yaml"; py "environment.yml"]);
    (py "Java", [py "pom.xml"; py "build.gradle"; py "build.gradle.kts"; py "gradle.properties";
                 py "mvnw"; py "gradlew"]);
    (py "PHP", [py "composer.json"; py "composer.lock"; py "index.php"]);
    (py "Ruby", [py "Gemfile"; py "Gemfile.lock"; py ".ruby-version"]);
    (py "Go", [py "go.mod"; py "go.sum"; py "main.go"]);
    (py "Rust", [py "Cargo.toml"; py "Cargo.lock"]);
    (py "C#", [py "*.csproj"; py "*.sln"; py "packages.config"; py "project.json"]);
    (py "Flutter/Dart", [py "pubspec.yaml"; py "pubspec.lock"]);
    (py "React", [py "package.json"]);
    (py "Angular", [py "angular.json"; py "angular-cli.json"]);
    (py "Vue.js", [py "vue.config.js"; py "vue.config.ts"]);
    (py "Docker", [py "Dockerfile"; py "docker-compose.yml"; py "docker-compose.yaml";
                   py ".dockerignore"]);
    (py "Kubernetes", [py "deployment.yaml"; py "service.yaml"; py "ingress.yaml";
                       py "kustomization.yaml"]);
    (py "Terraform", [py "*.tf"; py "terraform.tfvars"; py ".terraform"]);
    (py "Android", [py "build.gradle"; py "AndroidManifest.xml"]);
    (py "iOS", [py "*.xcodeproj"; py "*.xcworkspace"; py "Podfile"]) ].

(** ** [extract_repo_info_from_url] *)

Definition slash : N := 47.

Definition not_slash : N -> bool := Re.none_of (py "/").

(** The common tail [/([^/]+)/([^/]+?)(?:\.git)?/?$]. *)
Definition owner_repo_tail (sep : pystr) : list Re.re :=
  [ Re.lit sep; Re.Grp 1 (Re.Plus not_slash); Re.lit (py "/");
    Re.Grp 2 (Re.PlusLazy not_slash);
    Re.Opt (Re.lit (py ".git")); Re.Opt (Re.lit (py "/")); Re.Eos ].

(** [https?://(?:www\.)?(?:github|gitlab)\.com/([^/]+)/([^/]+?)(?:\.git)?/?$] *)
Definition pattern_https_hosted : Re.re :=
  Re.seq ([ Re.lit (py "http"); Re.Opt (Re.lit (py "s")); Re.lit (py "://");
            Re.Opt (Re.lit (py "www."));
            Re.Alt (Re.lit (py "github")) (Re.lit (py "gitlab"));
            Re.lit (py ".com") ] ++ owner_repo_tail (py "/")).

(** [git@(?:github|gitlab)\.com:([^/]+)/([^/]+?)(?:\.git)?/?$] *)
Definition pattern_ssh_hosted : Re.re :=
  Re.seq ([ Re.lit (py "git@");
            Re.Alt (Re.lit (py "github")) (Re.lit (py "gitlab"));
            Re.lit (py ".com") ] ++ owner_repo_tail (py ":")).

(** [https?://[^/]+/([^/]+)/([^/]+?)(?:\.git)?/?$] *)
Definition pattern_https_generic : Re.re :=
  Re.seq ([ Re.lit (py "http"); Re.Opt (Re.lit (py "s")); Re.lit (py "://");
            Re.Plus not_slash ] ++ owner_repo_tail (py "/")).

(** [git@[^:]+:([^/]+)/([^/]+?)(?:\.git)?/?$] *)
Definition pattern_ssh_generic : Re.re :=
  Re.seq ([ Re.lit (py "git@"); Re.Plus (Re.none_of (py ":")) ] ++ owner_repo_tail (py ":")).

Definition url_patterns : list Re.re :=
  [ pattern_https_hosted; pattern_ssh_hosted; pattern_https_generic; pattern_ssh_generic ].

(** The loop over [patterns]: the first pattern that matches returns. *)
Fixpoint first_match (patterns : list Re.re) (u : pystr) : option (pystr * pystr) :=
  match patterns with
  | [] => None
  | p :: ps =>
    match Re.re_match p u with
    | Some c => Some (Re.group 1 c, Re.group 2 c)
    | None => first_match ps u
    end
  end.

Definition nonempty (s : pystr) : bool :=
  match s with
  | [] => false
  | _ => true
  end.

Definition index_error : pystr := py "list index out of range".

Section UrlParser.

(** [urlparse(url).path] of the standard library: the path component, or
    the [ValueError] it raises. *)
Variable urlparse_path : pystr -> result pystr.

(** The body of the [try]. *)
Definition extract_repo_info_body (u : pystr) : result (pystr * pystr) :=
  let u := rstrip_char slash (strip u) in
  match first_match url_patterns u with
  | Some p => Ok p
  | None =>
    path <- urlparse_path u ;;
    let path_parts := List.filter nonempty (str_split slash path) in
    if 2 <=? List.length path_parts then
      match penultimate path_parts, last_item path_parts with
      | Some owner, Some repo => Ok (owner, remove_all (py ".git") repo)
      | _, _ => Raise index_error
      end
    else
      match last_item (str_split slash u) with
      | Some repo => Ok (py "unknown", remove_all (py ".git") repo)
      | None => Raise index_error
      end
  end.

Definition extract_repo_info_from_url (u : pystr) : pystr * pystr :=
  try_except (extract_repo_info_body u) (fun _ => (py "unknown", py "unknown")).

End UrlParser.

(** ** The tree walker *)

(** A directory: the names of its files and its sub-directories. *)
#[warnings="-register-all"] Inductive tree : Type :=
| Dir (files : list pystr) (dirs : list (pystr * tree)).

(** [os.walk] top-down with [dirs[:]] pruned by [keep]; every file is
    listed by its path relative to the root ([prefix] is the path walked
    so far, with its trailing separator). *)
Fixpoint walk (keep : pystr -> bool) (prefix : pystr) (t : tree) : list pystr :=
  match t with
  | Dir files dirs =>
    List.map (fun f => prefix ++ f) files ++
    (fix walk_dirs (ds : list (pystr * tree)) : list pystr :=
       match ds with
       | [] => []
       | (d, sub) :: ds' =>
         (if keep d then walk keep (prefix ++ d ++ [slash]) sub else []) ++ walk_dirs ds'
       end) dirs
  end.

(** [not d.startswith('.') and d not in ['node_modules', '__pycache__', 'target']] *)
Definition keep_classify (d : pystr) : bool :=
  negb (startswith (py ".") d)
  && negb (str_in d [py "node_modules"; py "__pycache__"; py "target"]).

(** ** [_matches_pattern] *)

Definition star : N := 42.

Definition qmark : N := 63.

(** *** [fnmatch.translate] *)

(** One piece of a translated pattern. *)
Inductive glob : Type :=
| GStar                                        (* a star *)
| GAny                                         (* a question mark *)
| GChar (c : N)                                (* a character that stands for itself *)
| GSet (negated : bool) (items : list (N * N)). (* a bracket expression: ranges *)

Definition lbracket : N := 91.

Definition rbracket : N := 93.

Definition bang : N := 33.

Definition hyphen : N := 45.

(** The first character of [s] if it is [c], and the rest. *)
Definition skip_one (c : N) (s : pystr) : pystr * pystr :=
  match s with
  | x :: s' => if (x =? c)%N then ([x], s') else ([], s)
  | [] => ([], [])
  end.

(** The text up to the next closing bracket, and the text after it. *)
Fixpoint until_close (s : pystr) : option (pystr * pystr) :=
  match s with
  | [] => None
  | x :: s' =>
    if (x =? rbracket)%N then Some ([], s')
    else match until_close s' with
         | Some (a, r) => Some (x :: a, r)
         | None => None
         end
  end.

(** The text between an opening bracket and the bracket that closes it (a
    closing bracket that comes first, or first after an exclamation mark,
    does not close), and the rest of the pattern; [None] when nothing
    closes the bracket. *)
Definition bracket (s : pystr) : option (pystr * pystr) :=
  let (a, s1) := skip_one bang s in
  let (b, s2) := skip_one rbracket s1 in
  match until_close s2 with
  | Some (body, rest) => Some (a ++ b ++ body, rest)
  | None => None
  end.

(** The chunks between the hyphens that make ranges; [skip] characters
    are passed before a hyphen can make one, [cur] is the chunk read so
    far, last character first. *)
Fixpoint split_chunks (skip : nat) (cur s : pystr) : list pystr :=
  match s with
  | [] => [rev cur]
  | c :: s' =>
    match skip with
    | O => if (c =? hyphen)%N
           then rev cur :: split_chunks 2 [] s'
           else split_chunks 0 (c :: cur) s'
    | S n => split_chunks n (c :: cur) s'
    end
  end.

(** A hyphen at the very end makes no range: it goes to the chunk before. *)
Definition close_chunks (l : list pystr) : list pystr :=
  match rev l with
  | [] :: prev :: before => rev ((prev ++ [hyphen]) :: before)
  | _ => l
  end.

Definition last_char (s : pystr) : option N := List.last (List.map Some s) None.

(** Empty ranges are removed, from the right: a range whose first
    character is greater than its last disappears with both. *)
Fixpoint merge_chunks (l : list pystr) : list pystr :=
  match l with
  | [] => []
  | c :: rest =>
    match merge_chunks rest with
    | [] => [c]
    | d :: rest' =>
      match last_char c, d with
      | Some x, y :: d' =>
        if (y <? x)%N then (removelast c ++ d') :: rest' else c :: d :: rest'
      | _, _ => c :: d :: rest'
      end
    end
  end.

(** The chunks joined by range hyphens ([None]). *)
Fixpoint join_chunks (l : list pystr) : list (option N) :=
  match l with
  | [] => []
  | [c] => List.map Some c
  | c :: l' => List.map Some c ++ None :: join_chunks l'
  end.

(** The regular-expression class: a character, or two joined by a range
    hyphen. *)
Fixpoint class_items (t : list (option N)) : list (N * N) :=
  match t with
  | [] => []
  | None :: t' => (hyphen, hyphen) :: class_items t'
  | Some a :: t' =>
    match t' with
    | None :: Some b :: t'' => (a, b) :: class_items t''
    | _ => (a, a) :: class_items t'
    end
  end.

(** The piece a bracket expression is translated to. *)
Definition bracket_glob (stuff : pystr) : glob :=
  let tokens :=
    if has_char hyphen stuff
    then join_chunks
           (merge_chunks
              (close_chunks
                 (split_chunks (if startswith [bang] stuff then 2 else 1) [] stuff)))
    else List.map Some stuff in
  match tokens with
  | [] => GSet false []
  | [Some c] => if (c =? bang)%N then GAny else GSet false [(c, c)]
  | Some c :: rest =>
    if (c =? bang)%N then GSet true (class_items rest) else GSet false (class_items tokens)
  | None :: _ => GSet false (class_items tokens)
  end.

(** The pattern read from the left; [fuel] bounds the number of pieces. *)
Fixpoint translate_from (fuel : nat) (pat : pystr) : list glob :=
  match fuel with
  | O => []
  | S fuel' =>
    match pat with
    | [] => []
    | c :: pat' =>
      if (c =? star)%N then GStar :: translate_from fuel' pat'
      else if (c =? qmark)%N then GAny :: translate_from fuel' pat'
      else if (c =? lbracket)%N then
        match bracket pat' with
        | Some (stuff, rest) => bracket_glob stuff :: translate_from fuel' rest
        | None => GChar c :: translate_from fuel' pat'
        end
      else GChar c :: translate_from fuel' pat'
    end
  end.

Definition translate (pat : pystr) : list glob := translate_from (List.length pat) pat.

Definition glob_one (g : glob) (c : N) : bool :=
  match g with
  | GStar | GAny => true
  | GChar p => (c =? p)%N
  | GSet negated items =>
    xorb negated (existsb (fun r => (fst r <=? c) && (c <=? snd r))%N items)
  end.

(** The whole of [name] against the pieces. *)
Fixpoint glob_match (g : list glob) : pystr -> bool :=
  match g with
  | [] => fun name => match name with [] => true | _ => false end
  | GStar :: g' =>
    (fix any (name : pystr) : bool :=
       glob_match g' name || match name with [] => false | _ :: name' => any name' end)
  | x :: g' =>
    fun name => match name with c :: name' => glob_one x c && glob_match g' name' | [] => false end
  end.

(** [fnmatch.fnmatch(name, pat)] ([os.path.normcase] changes nothing on a
    POSIX system). *)
Definition fnmatch_pat (pat : pystr) : pystr -> bool := glob_match (translate pat).

Definition fnmatch (name pat : pystr) : bool := fnmatch_pat pat name.

Definition _matches_pattern (files : list pystr) (pattern : pystr) : bool :=
  if has_char star pattern
  then existsb (fun f => fnmatch f pattern) files
  else str_in pattern files || existsb (endswith pattern) files.

(** ** [_validate_technology] *)

(** What [json.load] returns; a [dict] is listed by its items. *)
#[warnings="-register-all"] Inductive json : Type :=
| JNull
| JBool (b : bool)
| JNum (repr : pystr)
| JStr (s : pystr)
| JArr (items : list json)
| JObj (items : list (pystr * json)).

(** What the scanner finds at [os.path.join(directory, 'package.json')]:
    nothing ([os.path.exists] is false), something [open] or [json.load]
    fails on, or a document. *)
Inductive Manifest : Type :=
| NoFile
| Unreadable (msg : pystr)
| Parsed (data : json).

Fixpoint assoc (A : Type) (key : pystr) (items : list (pystr * A)) : option A :=
  match items with
  | [] => None
  | (k, v) :: items' => if str_eqb key k then Some v else assoc key items'
  end.

(** [d.get(key, default)]; only a [dict] has the method. *)
Definition py_get (d : json) (key : pystr) (default : json) : result json :=
  match d with
  | JObj items =>
    Ok match assoc key items with
       | Some v => v
       | None => default
       end
  | _ => Raise (py "object has no attribute 'get'")
  end.

(** [x in c]: key of a [dict], element of a [list], substring of a [str];
    a [TypeError] on anything else. *)
Definition py_in (x : pystr) (c : json) : result bool :=
  match c with
  | JObj items => Ok (existsb (fun kv => str_eqb x (fst kv)) items)
  | JArr items =>
    Ok (existsb (fun v => match v with JStr s => str_eqb x s | _ => false end) items)
  | JStr s => Ok (contains x s)
  | _ => Raise (py "argument is not iterable")
  end.

(** The body of the [try]. *)
Definition validate_technology_body (technology : pystr) (manifest : Manifest)
    (files : list pystr) : result bool :=
  if str_eqb technology (py "React") then
    match manifest with
    | Parsed package_data =>
      dependencies <- py_get package_data (py "dependencies") (JObj []) ;;
      dev_dependencies <- py_get package_data (py "devDependencies") (JObj []) ;;
      in_deps <- py_in (py "react") dependencies ;;
      if in_deps then Ok true else py_in (py "react") dev_dependencies
    | Unreadable e => Raise e
    | NoFile => Ok false
    end
  else if str_eqb technology (py "Android") then
    Ok (existsb (contains (py "AndroidManifest.xml")) files)
  else if str_eqb technology (py "C#") then
    Ok (existsb (endswith (py ".cs")) files)
  else Ok true.

(** [except Exception: return True]. *)
Definition _validate_technology (technology : pystr) (manifest : Manifest)
    (files : list pystr) : bool :=
  try_except (validate_technology_body technology manifest files) (fun _ => true).

(** ** [scan_directory_for_technologies] *)

(** The inner loop over the patterns of one technology, left at the first
    pattern that matches. *)
Fixpoint scan_patterns (manifest : Manifest) (all_files : list pystr)
    (technology : pystr) (patterns : list pystr)
    (identified_technologies : list pystr) : list pystr :=
  match patterns with
  | [] => identified_technologies
  | pattern :: patterns' =>
    if _matches_pattern all_files pattern then
      if negb (str_in technology identified_technologies) then
        if _validate_technology technology manifest all_files
        then identified_technologies ++ [technology]
        else identified_technologies
      else identified_technologies
    else scan_patterns manifest all_files technology patterns' identified_technologies
  end.

(** The outer loop over the catalog. *)
Definition scan_catalog (catalog : list (pystr * list pystr)) (manifest : Manifest)
    (all_files : list pystr) : list pystr :=
  fold_left (fun acc entry => scan_patterns manifest all_files (fst entry) (snd entry) acc)
            catalog [].

(** [walked] is what [os.walk] sees, or the exception raised while the
    files are listed; [except Exception: return []]. *)
Definition scan_directory_for_technologies (walked : result tree) (manifest : Manifest)
    : list pystr :=
  try_except
    (t <- walked ;;
     let all_files := walk keep_classify [] t in
     Ok (scan_catalog technology_patterns manifest all_files))
    (fun _ => []).

(** ** [_generate_explanation_for_unidentified] *)

Definition nl : pystr := [10%N].

Record Census : Type := {
  file_count : nat;
  dir_count : nat;
  file_extensions : list pystr   (* a [set]: distinct, in order of insertion *)
}.

(** [file_extensions.add(ext)]. *)
Definition set_add (x : pystr) (l : list pystr) : list pystr :=
  if str_in x l then l else l ++ [x].

Definition not_hidden (name : pystr) : bool := negb (startswith (py ".") name).

(** The body of [for file in files]. *)
Definition census_file (acc : Census) (file : pystr) : Census :=
  if not_hidden file then
    {| file_count := S (file_count acc);
       dir_count := dir_count acc;
       file_extensions :=
         if has_char 46 file
         then match last_item (str_split 46 file) with
              | Some ext => set_add (lower ext) (file_extensions acc)
              | None => file_extensions acc
              end
         else file_extensions acc |}
  else acc.

(** The second [os.walk], hidden directories pruned. *)
Fixpoint census (t : tree) (acc : Census) : Census :=
  match t with
  | Dir files dirs =>
    let acc1 := {| file_count := file_count acc;
                   dir_count := dir_count acc
                                + List.length (List.filter (fun d => not_hidden (fst d)) dirs);
                   file_extensions := file_extensions acc |} in
    let acc2 := fold_left census_file files acc1 in
    (fix census_dirs (ds : list (pystr * tree)) (a : Census) : Census :=
       match ds with
       | [] => a
       | (d, sub) :: ds' => census_dirs ds' (if not_hidden d then census sub a else a)
       end) dirs acc2
  end.

Definition extension_suggestions : list (pystr * pystr) :=
  [ (py "py", py "Python (considere añadir requirements.txt)");
    (py "js", py "JavaScript (considere añadir package.json)");
    (py "java", py "Java (considere añadir pom.xml o build.gradle)");
    (py "php", py "PHP (considere añadir composer.json)");
    (py "rb", py "Ruby (considere añadir Gemfile)");
    (py "go", py "Go (considere añadir go.mod)");
    (py "rs", py "Rust (considere añadir Cargo.toml)");
    (py "cs", py "C# (considere añadir .csproj o .sln)");
    (py "cpp", py "C++ (considere añadir CMakeLists.txt)");
    (py "c", py "C (considere añadir Makefile)");
    (py "ts", py "TypeScript (considere añadir package.json)");
    (py "dart", py "Dart/Flutter (considere añadir pubspec.yaml)");
    (py "kt", py "Kotlin (considere añadir build.gradle)");
    (py "swift", py "Swift (considere añadir Package.swift)");
    (py "scala", py "Scala (considere añadir build.sbt)") ].

Section Explanation.

(** The order in which Python iterates over a [set] of strings: an
    arrangement of its elements that the source does not determine. *)
Variable set_iter : list pystr -> list pystr.

Definition explanation_text (u : pystr) (c : Census) : pystr :=
  py "
ANÁLISIS DEL REPOSITORIO NO IDENTIFICADO:

Repositorio: " ++ u ++ py "
Archivos encontrados: " ++ str_of_nat (file_count c) ++ py "
Directorios encontrados: " ++ str_of_nat (dir_count c) ++ py "

EXTENSIONES DE ARCHIVO DETECTADAS:
" ++ (match file_extensions c with
      | [] => py "No se encontraron extensiones específicas"
      | _ => join (py ", ") (sorted str_leb (file_extensions c))
      end) ++ py "

POSIBLES RAZONES PARA NO IDENTIFICACIÓN:
1. El repositorio podría contener código en un lenguaje no cubierto por nuestros patrones actuales
2. Podría ser un proyecto de configuración, documentación o datos sin archivos de tecnología estándar
3. Los archivos de configuración podrían estar en ubicaciones no estándar
4. Podría ser un repositorio experimental o de pruebas

RECOMENDACIONES PARA EL DESARROLLADOR:
- Verificar si el repositorio contiene archivos como package.json, requirements.txt, pom.xml, etc.
- Revisar si hay archivos de configuración en subdirectorios
- Considerar añadir archivos de configuración estándar para su tecnología
- Si es un tipo de proyecto nuevo, considerar añadir el patrón correspondiente al sistema

EXTENSIONES DETECTADAS QUE PODRÍAN INDICAR TECNOLOGÍAS:
".

(** [for ext in file_extensions: if ext in extension_suggestions: ...]. *)
Definition suggestion_lines (exts : list pystr) : pystr :=
  fold_left (fun text ext =>
               match assoc ext extension_suggestions with
               | Some hint => text ++ py "- " ++ hint ++ nl
               | None => text
               end) (set_iter exts) [].

Definition _generate_explanation_for_unidentified (walked : result tree) (u : pystr) : pystr :=
  try_except
    (t <- walked ;;
     let c := census t {| file_count := 0; dir_count := 0; file_extensions := [] |} in
     Ok (explanation_text u c ++ suggestion_lines (file_extensions c)))
    (fun e => py "No se pudo generar explicación detallada. Error: " ++ e).

End Explanation.

(** ** [clone_repository] *)

(** How [subprocess.run(['git', 'clone', ...], timeout=300)] ends. *)
Inductive CloneOutcome : Type :=
| Exited (returncode : Z) (stderr : pystr)
| TimedOut                               (* subprocess.TimeoutExpired *)
| CloneError (msg : pystr).              (* any other exception *)

Definition clone_repository (outcome : CloneOutcome) : bool :=
  match outcome with
  | Exited returncode _ => (returncode =? 0)%Z
  | TimedOut => false
  | CloneError _ => false
  end.

(** ** [scan_repository] *)

(** What one scan observes of its collaborators. *)
Record ScanEnv : Type := {
  mkdtemp : result pystr;        (* the random part of the new directory's name *)
  git_clone : CloneOutcome;
  walk_classify : result tree;   (* [os.walk] during classification *)
  package_json : Manifest;       (* [package.json] at the root of the clone *)
  walk_census : result tree;     (* [os.walk] for the explanation *)
  rmtree : result unit;          (* [shutil.rmtree(temp_dir)] *)
  db_online : bool               (* whether [insert_repository] reaches the store *)
}.

(** [tempfile.mkdtemp(prefix='cmdb_repo_')]. *)
Definition temp_path (random : pystr) : pystr := py "/tmp/cmdb_repo_" ++ random.

(** The record [scan_repository] returns. *)
Record ScanResult : Type := {
  url : pystr;
  owner_name : pystr;
  repo_name : pystr;
  technologies : list pystr;
  is_identified : bool;
  status : pystr;
  ai_explanation : option pystr
}.

Definition set_outcome (r : ScanResult) (stat : pystr) (expl : option pystr) : ScanResult :=
  {| url := url r; owner_name := owner_name r; repo_name := repo_name r;
     technologies := technologies r; is_identified := is_identified r;
     status := stat; ai_explanation := expl |}.

Definition set_technologies (r : ScanResult) (techs : list pystr) : ScanResult :=
  {| url := url r; owner_name := owner_name r; repo_name := repo_name r;
     technologies := techs; is_identified := 0 <? List.length techs;
     status := status r; ai_explanation := ai_explanation r |}.

Definition clone_failed_text (u : pystr) : pystr :=
  py "No se pudo clonar el repositorio desde " ++ u
  ++ py ". Verifique que la URL sea correcta y que el repositorio sea público o tenga los permisos necesarios.".

(** The [finally] clause: [fs] lists the scratch directories that exist;
    a failing [shutil.rmtree] is logged and leaves the directory. *)
Definition cleanup (env : ScanEnv) (temp_dir : option pystr) (fs : list pystr) : list pystr :=
  match temp_dir with
  | Some d =>
    if nonempty d && str_in d fs then
      match rmtree env with
      | Ok _ => List.filter (fun x => negb (str_eqb x d)) fs
      | Raise _ => fs
      end
    else fs
  | None => fs
  end.

Section Scan.

Variable urlparse_path : pystr -> result pystr.
Variable set_iter : list pystr -> list pystr.

Definition scan_repository (env : ScanEnv) (u : pystr) (fs : list pystr)
    : ScanResult * list pystr :=
  let (owner, repo) := extract_repo_info_from_url urlparse_path u in
  let result := {| url := u; owner_name := owner; repo_name := repo;
                   technologies := []; is_identified := false;
                   status := py "error"; ai_explanation := None |} in
  match mkdtemp env with
  | Raise e =>
    (* except Exception; temp_dir is still None in the finally clause *)
    (set_outcome result (py "error")
                 (Some (py "Error durante el análisis del repositorio: " ++ e)),
     cleanup env None fs)
  | Ok random =>
    let temp_dir := temp_path random in
    let fs1 := temp_dir :: fs in
    if negb (clone_repository (git_clone env)) then
      (set_outcome result (py "clone_failed") (Some (clone_failed_text u)),
       cleanup env (Some temp_dir) fs1)
    else
      let techs := scan_directory_for_technologies (walk_classify env) (package_json env) in
      let result1 := set_technologies result techs in
      let result2 := set_outcome result1 (py "analyzed") (ai_explanation result1) in
      let result3 :=
        if negb (is_identified result2)
        then set_outcome result2 (status result2)
               (Some (_generate_explanation_for_unidentified set_iter (walk_census env) u))
        else result2 in
      (result3, cleanup env (Some temp_dir) fs1)
  end.

(** ** [scan_and_store_repository] and [batch_scan_repositories] *)

(** The state the scanner works on: the scratch directories that exist,
    the [repositories] table, and the progress lines of the batch loop
    (position, batch size and URL of
    ["Escaneando repositorio {i}/{len(urls)}: {url}"]). *)
Record World : Type := {
  fs : list pystr;
  store : Db.Store;
  progress : list (nat * nat * pystr)
}.

(** Neither [scan_repository] nor [insert_repository] lets an exception
    out, so the [except] clause of this function has nothing to catch. *)
Definition scan_and_store_repository (env : ScanEnv) (u : pystr) (w : World) : bool * World :=
  let (scan_result, fs') := scan_repository env u (fs w) in
  let (repo_id, store') :=
    Db.insert_repository (db_online env) (store w)
      (url scan_result) (owner_name scan_result) (repo_name scan_result)
      (Some (technologies scan_result)) (is_identified scan_result)
      (status scan_result) (ai_explanation scan_result) in
  (match repo_id with
   | Some i => negb (i =? 0)
   | None => false
   end,
   {| fs := fs'; store := store'; progress := progress w |}).

(** One entry of the batch result (the entry of the [except] clause, with
    its [error] key, is never built: see above). *)
Record Outcome : Type := {
  success : bool;
  scanned_at : nat;
  total : nat
}.

(** The loop [for i, url in enumerate(urls, 1)]; the [i]-th scan observes
    [envs i]. *)
Fixpoint batch_loop (envs : nat -> ScanEnv) (n i : nat) (urls : list pystr)
    (w : World) (results : gmap pystr Outcome) : gmap pystr Outcome * World :=
  match urls with
  | [] => (results, w)
  | u :: urls' =>
    let w1 := {| fs := fs w; store := store w; progress := progress w ++ [(i, n, u)] |} in
    let (ok, w2) := scan_and_store_repository (envs i) u w1 in
    batch_loop envs n (S i) urls' w2
               (<[u := {| success := ok; scanned_at := i; total := n |}]> results)
  end.

Definition batch_scan_repositories (envs : nat -> ScanEnv) (urls : list pystr) (w : World)
    : gmap pystr Outcome * World :=
  batch_loop envs (List.length urls) 1 urls w ∅.

End Scan.

(** ** The words of the specification about manifests *)

(** The section [key] of a manifest: the object under [key], or the empty
    object when the key is absent. *)
Definition manifest_section (key : pystr) (items : list (pystr * json))
    (section : list (pystr * json)) : Prop :=
  assoc key items = Some (JObj section) \/ (assoc key items = None /\ section = []).

(** [data] parses as a dependency manifest with the runtime dependencies
    [deps] and the development dependencies [dev]. *)
Definition dependency_manifest (data : json) (deps dev : list (pystr * json)) : Prop :=
  exists items, data = JObj items
    /\ manifest_section (py "dependencies") items deps
    /\ manifest_section (py "devDependencies") items dev.

(** [react] appears under one of the two sections. *)
Definition lists_react (deps dev : list (pystr * json)) : Prop :=
  (exists v, In (py "react", v) deps) \/ (exists v, In (py "react", v) dev).

End Scanner.

(* ===================================================================== *)
(** * query_engine.py: [NaturalLanguageQueryEngine] *)
(* ===================================================================== *)

Module Query.

(** ** [self.query_patterns], all used with [re.IGNORECASE] *)

Definition ws : Re.re := Re.Plus is_space.

Definition word (s : string) : Re.re := Re.lit_i (py s).

Arguments word s%_string.

Definition words (l : list Re.re) : Re.re := Re.alts l.

(** The class of the two quote characters, and the class of every
    character but a quote or a question mark. *)
Definition quote : N -> bool := fun x => has_char x [34; 39]%N.

Definition not_quote_or_qmark : N -> bool := Re.none_of [34; 39; 63]%N.

Definition not_qmark : N -> bool := Re.none_of [63%N].

Definition de_del : Re.re := words [word "de"; word "del"].

Definition que : Re.re := words [word "qué"; word "que"].

Definition repos : Re.re := words [word "repositorios"; word "repos"].

(** An optional [repositorio\s+], an optional quote, the captured name
    (one or more characters that are no quote and no question mark), an
    optional quote. *)
Definition quoted_name : list Re.re :=
  [ Re.Opt (Re.seq [word "repositorio"; ws]); Re.Opt (Re.Chr quote);
    Re.Grp 1 (Re.Plus not_quote_or_qmark); Re.Opt (Re.Chr quote) ].

Definition pattern_owner_repositories : Re.re :=
  Re.seq [ repos; ws; de_del; ws; Re.Grp 1 (Re.Plus not_qmark) ].

Definition pattern_repository_owner : Re.re :=
  Re.seq ([ words [word "quién"; word "quien"]; ws; words [word "es"; word "tiene"]; ws;
            Re.Opt (Re.seq [word "el"; ws]);
            words [word "dueño"; word "propietario"]; ws; de_del; ws ] ++ quoted_name).

Definition pattern_technologies_used : Re.re :=
  Re.seq ([ que; ws; word "tecnolog"; Re.Chr (Re.one_of_i (py "íi")); word "a";
            Re.Opt (word "s"); ws;
            words [word "usa"; word "utiliza"; Re.seq [word "se"; ws; word "usan"]]; ws;
            Re.Opt (Re.seq [word "en"; ws]); Re.Opt (Re.seq [word "el"; ws]) ] ++ quoted_name).

Definition pattern_projects_with_technology : Re.re :=
  Re.seq [ que; ws; words [word "repositorios"; word "proyectos"]; ws;
           words [word "usan"; word "utilizan"; word "tienen"]; ws;
           Re.Grp 1 (Re.Plus not_qmark) ].

Definition pattern_repository_count : Re.re :=
  Re.seq [ words [word "cuántos"; word "cuantos"]; ws; word "repositorios" ].

Definition pattern_statistics : Re.re :=
  words [word "estadísticas"; word "estadisticas"; word "stats"; word "resumen"].

Definition pattern_unidentified_repos : Re.re :=
  Re.seq [ repos; ws; Re.Opt (Re.seq [word "no"; ws]);
           words [word "identificados"; Re.seq [word "sin"; ws; word "identificar"]] ].

(** ** The answers *)

(** The value under the key [results]. *)
Inductive Results : Type :=
| NoResults                                       (* the key is absent *)
| Rows (l : list Db.Row)
| RepoTechnologies (l : list (pystr * list pystr))
| Statistics (total identified : nat) (technologies : list (pystr * nat))
| TotalRepositories (l : list nat).

(** The dict a query returns; [None] and [[]] stand for an absent key. *)
Record Answer : Type := {
  success : bool;
  explanation : option pystr;
  error : option pystr;
  results : Results;
  count : option nat;
  suggestions : list pystr;
  ai_processed : bool
}.

Definition answer (ok : bool) (text : pystr) (res : Results) (n : option nat) : Answer :=
  {| success := ok; explanation := Some text; error := None; results := res;
     count := n; suggestions := []; ai_processed := false |}.

(** [{'success': False, 'explanation': ...}] *)
Definition failure (text : pystr) : Answer := answer false text NoResults None.

(** [{'success': False, 'error': str(e)}] *)
Definition error_answer (e : pystr) : Answer :=
  {| success := false; explanation := None; error := Some e; results := NoResults;
     count := None; suggestions := []; ai_processed := false |}.

(** The recognised purpose of a query, with its extracted argument. *)
Inductive Intent : Type :=
| RepositoryOwner (repo_name : pystr)
| OwnerRepositories (owner_name : pystr)
| TechnologiesUsed (repo_name : pystr)
| ProjectsWithTechnology (technology : pystr)
| GeneralStatistics
| UnidentifiedRepos
| RepositoryCount.

(** The argument an intent carries (the empty string when it has none). *)
Definition intent_argument (i : Intent) : pystr :=
  match i with
  | RepositoryOwner a | OwnerRepositories a | TechnologiesUsed a
  | ProjectsWithTechnology a => a
  | GeneralStatistics | UnidentifiedRepos | RepositoryCount => []
  end.

(** The matching half of [_try_pattern_matching]: the patterns in the
    order the method tries them, the argument being
    [match.group(1).strip()]. *)
Definition classify_query (query : pystr) : option Intent :=
  match Re.re_search pattern_repository_owner query with
  | Some c => Some (RepositoryOwner (strip (Re.group 1 c)))
  | None =>
  match Re.re_search pattern_owner_repositories query with
  | Some c => Some (OwnerRepositories (strip (Re.group 1 c)))
  | None =>
  match Re.re_search pattern_technologies_used query with
  | Some c => Some (TechnologiesUsed (strip (Re.group 1 c)))
  | None =>
  match Re.re_search pattern_projects_with_technology query with
  | Some c => Some (ProjectsWithTechnology (strip (Re.group 1 c)))
  | None =>
  match Re.re_search pattern_statistics query with
  | Some _ => Some GeneralStatistics
  | None =>
  match Re.re_search pattern_unidentified_repos query with
  | Some _ => Some UnidentifiedRepos
  | None =>
  match Re.re_search pattern_repository_count query with
  | Some _ => Some RepositoryCount
  | None => None
  end end end end end end end.

Definition quoted (s : pystr) : pystr := py "'" ++ s ++ py "'".

(** [tech_counts[tech] = tech_counts.get(tech, 0) + 1] on a dict listed by
    its items in insertion order. *)
Fixpoint bump (tech : pystr) (counts : list (pystr * nat)) : list (pystr * nat) :=
  match counts with
  | [] => [(tech, 1)]
  | (k, v) :: counts' =>
    if str_eqb k tech then (k, v + 1) :: counts' else (k, v) :: bump tech counts'
  end.

Definition tech_counts (all_techs : list pystr) : list (pystr * nat) :=
  fold_left (fun counts tech => bump tech counts) all_techs [].

(** [sorted(tech_counts.items(), key=lambda x: x[1], reverse=True)[:5]] *)
Definition top_techs (counts : list (pystr * nat)) : list (pystr * nat) :=
  firstn 5 (sorted (fun a b => snd b <=? snd a) counts).

(** A new line and a bullet: the start of one line of the report. *)
Definition nl_bullet : pystr := py "
• ".

(** The words of the specification about the ranking of technologies:
    how often a label occurs, where it is first seen, and when one counted
    label ranks before another (more frequent, or as frequent and first
    seen earlier). *)
Definition occurrences (t : pystr) (l : list pystr) : nat :=
  List.length (List.filter (str_eqb t) l).

Fixpoint first_index (t : pystr) (l : list pystr) : nat :=
  match l with
  | [] => 0
  | x :: l' => if str_eqb x t then 0 else S (first_index t l')
  end.

Definition ranks_before (all_techs : list pystr) (a b : pystr * nat) : Prop :=
  snd b < snd a
  \/ (snd a = snd b /\ first_index (fst a) all_techs < first_index (fst b) all_techs).

Definition zero_division : pystr := py "division by zero".

(** [identified/total*100] formatted with [:.1f]; the division raises on a
    zero total. *)
Definition percentage (identified total : nat) : result pystr :=
  if total =? 0 then Raise zero_division
  else x <- true_div identified total ;; Ok (format_1f (float_mul_int x 100)).

Section Engine.

(** The connection state and the database. *)
Variable online : bool.
Variable st : Db.Store.

(** What the database server decides for the search by name: the letters
    [LOWER] changes and the order of the rows found. *)
Variable sql_lower : pystr -> pystr.
Variable row_order : list Db.Row -> list Db.Row.

Definition _find_repository_owner (repo_name : pystr) : Answer :=
  let repos := Db.select_repo_name_like sql_lower row_order online st (py "%" ++ repo_name ++ py "%") in
  match repos with
  | [] => failure (py "No encontré ningún repositorio con el nombre " ++ quoted repo_name)
  | [repo] =>
    answer true (py "El propietario del repositorio " ++ quoted (Db.repo_name repo)
                 ++ py " es " ++ Db.owner_name repo) (Rows [repo]) (Some 1)
  | _ =>
    answer true (py "Encontré " ++ str_of_nat (List.length repos)
                 ++ py " repositorios que coinciden con " ++ quoted repo_name ++ py ":")
           (Rows repos) (Some (List.length repos))
  end.

Definition _find_repositories_by_owner (owner_name : pystr) : Answer :=
  let repos := Db.get_repositories_by_owner online st owner_name in
  match repos with
  | [] => failure (py "No encontré repositorios para el propietario " ++ quoted owner_name)
  | _ =>
    answer true (owner_name ++ py " tiene " ++ str_of_nat (List.length repos)
                 ++ py " repositorio(s):") (Rows repos) (Some (List.length repos))
  end.

Definition _find_technologies_for_repository (repo_name : pystr) : Answer :=
  let repos := Db.select_repo_name_like sql_lower row_order online st (py "%" ++ repo_name ++ py "%") in
  match repos with
  | [] => failure (py "No encontré el repositorio " ++ quoted repo_name)
  | repo :: _ =>
    match Db.technologies repo with
    | [] =>
      answer true (py "El repositorio " ++ quoted (Db.repo_name repo)
                   ++ py " no tiene tecnologías identificadas") (Rows []) (Some 0)
    | technologies =>
      answer true (py "El repositorio " ++ quoted (Db.repo_name repo) ++ py " de "
                   ++ Db.owner_name repo ++ py " usa: " ++ join (py ", ") technologies)
             (RepoTechnologies [(Db.repo_name repo, technologies)])
             (Some (List.length technologies))
    end
  end.

Definition _find_projects_with_technology (technology : pystr) : Answer :=
  let repos := Db.get_repositories_by_technology online st technology in
  match repos with
  | [] => failure (py "No encontré repositorios que usen " ++ quoted technology)
  | _ =>
    answer true (py "Encontré " ++ str_of_nat (List.length repos)
                 ++ py " repositorio(s) que usan " ++ technology ++ py ":")
           (Rows repos) (Some (List.length repos))
  end.

(** [for tech, count in top_techs: stats_text += ...] *)
Definition tech_lines (top : list (pystr * nat)) : pystr :=
  fold_left (fun text tc => text ++ nl_bullet ++ fst tc ++ py ": " ++ str_of_nat (snd tc)
                            ++ py " repositorio(s)") top [].

(** The head of the report (the f-string [stats_text]); [pct] is the text
    of the percentage. *)
Definition stats_text (total identified : nat) (pct : pystr) : pystr :=
  py "
📊 Estadísticas del CMDB:
• Total de repositorios: " ++ str_of_nat total ++ py "
• Repositorios identificados: " ++ str_of_nat identified ++ py " (" ++ pct ++ py "%)
• Repositorios no identificados: " ++ str_of_nat (total - identified) ++ py "

Tecnologías más populares:".

Definition _get_general_statistics : Answer :=
  let all_repos := Db.get_all_repositories online st None in
  match all_repos with
  | [] => failure (py "No hay repositorios en la base de datos")
  | _ =>
    let total := List.length all_repos in
    let identified := List.length (List.filter Db.is_identified all_repos) in
    let all_techs := List.concat (List.map Db.technologies all_repos) in
    let top := top_techs (tech_counts all_techs) in
    try_except
      (pct <- percentage identified total ;;
       Ok (answer true (stats_text total identified pct ++ tech_lines top)
                  (Statistics total identified top) (Some total)))
      error_answer
  end.

Definition _get_unidentified_repositories : Answer :=
  let unidentified := Db.get_unidentified_repositories online st in
  match unidentified with
  | [] =>
    answer true (py "Todos los repositorios han sido identificados correctamente")
           (Rows []) (Some 0)
  | _ =>
    answer true (py "Hay " ++ str_of_nat (List.length unidentified)
                 ++ py " repositorio(s) no identificados:")
           (Rows unidentified) (Some (List.length unidentified))
  end.

Definition _count_repositories : Answer :=
  let total := List.length (Db.get_all_repositories online st None) in
  answer true (py "Hay " ++ str_of_nat total ++ py " repositorio(s) en la base de datos")
         (TotalRepositories [total]) (Some total).

(** The dispatching half of [_try_pattern_matching]. *)
Definition answer_intent (i : Intent) : Answer :=
  match i with
  | RepositoryOwner repo_name => _find_repository_owner repo_name
  | OwnerRepositories owner_name => _find_repositories_by_owner owner_name
  | TechnologiesUsed repo_name => _find_technologies_for_repository repo_name
  | ProjectsWithTechnology technology => _find_projects_with_technology technology
  | GeneralStatistics => _get_general_statistics
  | UnidentifiedRepos => _get_unidentified_repositories
  | RepositoryCount => _count_repositories
  end.

Definition _try_pattern_matching (query : pystr) : option Answer :=
  option_map answer_intent (classify_query query).

(** ** The fallback to the AI collaborator *)

(** Whether an API key is configured, the model ([None] when there is no
    key or the model could not be built; the function gives
    [generate_content(prompt).text] or the exception raised), its name. *)
Variable api_key : bool.
Variable gemini_model : option (pystr -> result pystr).
Variable model_name : pystr.

(** Whether the connection that [save_ai_query] opens succeeds: it is not
    the connection of the reads. *)
Variable save_online : bool.

Definition list_models_hint : pystr := py " Puedes listar modelos con: genai.list_models()".

(** [for repo in all_repos[:3]: context += ...] *)
Definition sample_lines (sample : list Db.Row) : pystr :=
  fold_left (fun text repo =>
               text ++ py "- " ++ Db.owner_name repo ++ py "/" ++ Db.repo_name repo
               ++ py " (Tecnologías: " ++ join (py ", ") (Db.technologies repo) ++ py ")" ++ Scanner.nl)
            sample [].

Definition ai_prompt (query : pystr) (all_repos : list Db.Row) : pystr :=
  let context := py "
Base de datos CMDB con " ++ str_of_nat (List.length all_repos) ++ py " repositorios.
Campos disponibles: url, owner_name, repo_name, technologies, is_identified, status, ai_explanation.
Repositorios de muestra:
" ++ sample_lines (firstn 3 all_repos) in
  py "
Consulta del usuario: " ++ [34%N] ++ query ++ [34%N] ++ py "
Contexto de la base de datos:
" ++ context ++ py "
Traduce esta consulta a una respuesta útil. Si es una pregunta específica sobre repositorios, proporciona una respuesta basada en los datos disponibles.
Responde en español de forma clara y directa.
".

Definition _process_with_ai (query : pystr) : Answer * Db.Store :=
  match gemini_model with
  | None =>
    (failure (py "El modelo Gemini " ++ quoted model_name
              ++ py " no está disponible. Verifica tu clave y modelo." ++ list_models_hint), st)
  | Some generate =>
    let all_repos := Db.get_all_repositories online st (Some 50) in
    match generate (ai_prompt query all_repos) with
    | Ok text =>
      let ai_response := strip text in
      let (_, st') := Db.save_ai_query save_online st query ai_response (py "natural_language") in
      ({| success := true; explanation := Some ai_response; error := None;
          results := Rows []; count := Some 0; suggestions := []; ai_processed := true |}, st')
    | Raise e =>
      (failure (py "Error procesando con Gemini: " ++ e ++ py ". Verifica que el modelo "
                ++ quoted model_name ++ py " esté disponible para tu clave." ++ list_models_hint), st)
    end
  end.

Definition get_suggested_queries : list pystr :=
  [ py "¿Quién es el dueño del repositorio 'proyecto-ejemplo'?";
    py "¿Qué tecnologías usa el repositorio 'mi-app'?";
    py "repositorios de usuario juan";
    py "proyectos que usan Python";
    py "repositorios no identificados";
    py "estadísticas del sistema";
    py "¿cuántos repositorios hay?" ].

Definition _process_fallback (query : pystr) : Answer :=
  {| success := false;
     explanation := Some (py "No pude procesar la consulta " ++ quoted query
       ++ py ". Intenta con consultas como: '¿Quién es el dueño del repositorio X?', '¿Qué tecnologías usa el proyecto Y?', 'repositorios de usuario Z'");
     error := None; results := NoResults; count := None;
     suggestions := get_suggested_queries; ai_processed := false |}.

(** ** [process_natural_language_query] *)

Definition process_natural_language_query (query : pystr) : Answer * Db.Store :=
  let query_lower := strip (lower query) in
  match _try_pattern_matching query_lower with
  | Some sql_result => (sql_result, st)
  | None =>
    if api_key then _process_with_ai query
    else (_process_fallback query_lower, st)
  end.

End Engine.

End Query.

(* ===================================================================== *)
(** * validator.py: [AIValidator], the part that needs no model *)
(* ===================================================================== *)

Module Validator.

(** What a dict holds under a key: nothing (the key is absent), [None],
    or a value. *)
Inductive field (A : Type) : Type :=
| Absent
| Null
| Value (a : A).

Arguments Absent {A}.
Arguments Null {A}.
Arguments Value {A} a.

(** The keys of [repo_data] that the validator reads. *)
Record RepoData : Type := {
  url : field pystr;
  owner_name : field pystr;
  repo_name : field pystr;
  technologies : field (list pystr);
  status : field pystr
}.

(** A row of the table as the dict [dict(row)] of a [RealDictCursor]. *)
Definition of_row (r : Db.Row) : RepoData :=
  {| url := Value (Db.url r); owner_name := Value (Db.owner_name r);
     repo_name := Value (Db.repo_name r); technologies := Value (Db.technologies r);
     status := Value (Db.status r) |}.

(** [repo_data.get(key)] as a condition: a [str] that is not empty. *)
Definition truthy (f : field pystr) : bool :=
  match f with
  | Value s => Scanner.nonempty s
  | _ => false
  end.

(** [repo_data.get(key) and repo_data[key] != 'unknown']. *)
Definition known (f : field pystr) : bool :=
  match f with
  | Value s => Scanner.nonempty s && negb (str_eqb s (py "unknown"))
  | _ => false
  end.

(** [repo_data.get('technologies', [])] as a condition. *)
Definition has_technologies (f : field (list pystr)) : bool :=
  match f with
  | Value (_ :: _) => true
  | _ => false
  end.

(** [repo_data.get('status') == 'analyzed']. *)
Definition is_analyzed (f : field pystr) : bool :=
  match f with
  | Value s => str_eqb s (py "analyzed")
  | _ => false
  end.

(** The text of [repo_data.get('status', 'Desconocido')] in an f-string. *)
Definition status_text (f : field pystr) : pystr :=
  match f with
  | Absent => py "Desconocido"
  | Null => py "None"
  | Value s => s
  end.

Section Floats.

(** Floating-point numbers, and [(a / b) * 100] for a [b] that is not
    zero. *)
Variable float : Type.
Variable percent : nat -> nat -> float.

(** The dict [validate_repository_completeness] returns. *)
Record Validation : Type := {
  score : nat;
  max_score : nat;
  issues : list pystr;
  recommendations : list pystr;
  percentage : float
}.

(** One check: the points when it passes, the issue and the
    recommendation (if any) when it fails. *)
Definition check (passed : bool) (points : nat) (issue : pystr) (advice : list pystr)
    (v : nat * list pystr * list pystr) : nat * list pystr * list pystr :=
  let '(s, iss, recs) := v in
  if passed then (s + points, iss, recs) else (s, iss ++ [issue], recs ++ advice).

Definition validate_repository_completeness (repo_data : RepoData) : Validation :=
  let v0 := (0, [], []) in
  let v1 := check (truthy (url repo_data)) 20 (py "URL no especificada") [] v0 in
  let v2 := check (known (owner_name repo_data)) 15 (py "Propietario no identificado")
                  [py "Verificar que la URL del repositorio sea válida"] v1 in
  let v3 := check (known (repo_name repo_data)) 15
                  (py "Nombre del repositorio no identificado") [] v2 in
  let v4 := check (has_technologies (technologies repo_data)) 30
                  (py "No se identificaron tecnologías")
                  [py "Añadir archivos de configuración estándar (package.json, requirements.txt, etc.)"]
                  v3 in
  let v5 := check (is_analyzed (status repo_data)) 20
                  (py "Estado del análisis: " ++ status_text (status repo_data)) [] v4 in
  let '(s, iss, recs) := v5 in
  {| score := s; max_score := 100; issues := iss; recommendations := recs;
     percentage := percent s 100 |}.

(** The dict [analyze_repository_patterns] returns when there are
    repositories; [identification_rate] is a float, or the integer [0]. *)
Record Analysis : Type := {
  total_repositories : nat;
  identified_repositories : nat;
  identification_rate : float + nat;
  most_common_technologies : list (pystr * nat);
  most_active_owners : list (pystr * nat);
  unidentified_count : nat
}.

Inductive AnalysisResult : Type :=
| AnalysisError (msg : pystr)          (* [{'error': msg}] *)
| AnalysisOk (a : Analysis).

(** [sorted(counts.items(), key=lambda x: x[1], reverse=True)[:10]] *)
Definition top_ten (counts : list (pystr * nat)) : list (pystr * nat) :=
  firstn 10 (sorted (fun a b => snd b <=? snd a) counts).

(** [analyze_repository_patterns] on rows of the table, as
    [get_statistics] calls it; both dicts of counts are filled by the loop
    of the query engine's [tech_counts]. *)
Definition analyze_repository_patterns (repositories : list Db.Row) : AnalysisResult :=
  match repositories with
  | [] => AnalysisError (py "No hay repositorios para analizar")
  | _ =>
    let total_repos := List.length repositories in
    let identified_repos := List.length (List.filter Db.is_identified repositories) in
    let all_technologies := List.concat (List.map Db.technologies repositories) in
    let tech_counts := Query.tech_counts all_technologies in
    let owner_counts := Query.tech_counts (List.map Db.owner_name repositories) in
    AnalysisOk
      {| total_repositories := total_repos;
         identified_repositories := identified_repos;
         identification_rate :=
           if 0 <? total_repos then inl (percent identified_repos total_repos) else inr 0;
         most_common_technologies := top_ten tech_counts;
         most_active_owners := top_ten owner_counts;
         unidentified_count := total_repos - identified_repos |}
  end.

End Floats.

End Validator.

(* ===================================================================== *)
(** * main.py: [CMDBTool.get_statistics] *)
(* ===================================================================== *)

Module Main.

Section Floats.

Variable float : Type.
Variable percent : nat -> nat -> float.

(** The dict [get_statistics] returns: ['statistics'] and
    ['sample_repositories'], under ['success': True]; neither call raises
    on rows of the table, so the [except] clause has nothing to catch. *)
Definition get_statistics (online : bool) (st : Db.Store)
    : Validator.AnalysisResult float * list Db.Row :=
  let all_repos := Db.get_all_repositories online st None in
  let analysis := Validator.analyze_repository_patterns percent all_repos in
  (analysis, firstn 5 all_repos).

End Floats.

End Main.

(* ===================================================================== *)
(** * Sample inputs for the examples *)
(* ===================================================================== *)

Module Sample.

(** A stand-in for [urlparse(url).path] on plain paths. *)
Definition plain_path (u : pystr) : result pystr := Ok u.

(** A stand-in for the iteration order of a set. *)
Definition in_order (l : list pystr) : list pystr := l.

Definition react_manifest : Scanner.json :=
  Scanner.JObj [(py "name", Scanner.JStr (py "app"));
                (py "dependencies", Scanner.JObj [(py "react", Scanner.JStr (py "^18.0.0"))])].

Definition octocat : pystr := py "https://github.com/octo/cat".


(** A scan whose clone times out and whose scratch directory cannot be
    removed. *)
Definition env_timeout_rmtree_fails : Scanner.ScanEnv :=
  {| Scanner.mkdtemp := Ok (py "k3x9");
     Scanner.git_clone := Scanner.TimedOut;
     Scanner.walk_classify := Ok (Scanner.Dir [] []);
     Scanner.package_json := Scanner.NoFile;
     Scanner.walk_census := Ok (Scanner.Dir [] []);
     Scanner.rmtree := Raise (py "[Errno 13] Permission denied");
     Scanner.db_online := true |}.

(** A scan whose clone times out and whose scratch directory is removed. *)
Definition env_timeout : Scanner.ScanEnv :=
  {| Scanner.mkdtemp := Ok (py "k3x9");
     Scanner.git_clone := Scanner.TimedOut;
     Scanner.walk_classify := Ok (Scanner.Dir [] []);
     Scanner.package_json := Scanner.NoFile;
     Scanner.walk_census := Ok (Scanner.Dir [] []);
     Scanner.rmtree := Ok tt;
     Scanner.db_online := true |}.

(** A scan that clones a Maven project. *)
Definition env_java : Scanner.ScanEnv :=
  {| Scanner.mkdtemp := Ok (py "k3x9");
     Scanner.git_clone := Scanner.Exited 0 [];
     Scanner.walk_classify := Ok (Scanner.Dir [py "pom.xml"] [(py "src", Scanner.Dir [py "App.java"] [])]);
     Scanner.package_json := Scanner.NoFile;
     Scanner.walk_census := Ok (Scanner.Dir [py "pom.xml"] []);
     Scanner.rmtree := Ok tt;
     Scanner.db_online := true |}.

(** A row stored by an earlier scan of [octocat]. *)
Definition octocat_python : Db.Row :=
  {| Db.id := 1; Db.url := octocat; Db.owner_name := py "octo"; Db.repo_name := py "cat";
     Db.technologies := [py "Python"; py "Docker"]; Db.is_identified := true;
     Db.status := py "analyzed"; Db.ai_explanation := None;
     Db.created_at := 0; Db.updated_at := 0 |}.

Definition store_octocat : Db.Store :=
  {| Db.rows := [octocat_python]; Db.next_id := 2; Db.clock := 1; Db.ai_queries := [] |}.

Definition world_octocat : Scanner.World :=
  {| Scanner.fs := []; Scanner.store := store_octocat; Scanner.progress := [] |}.

(** [LOWER] in a database of the C locale: the letters A to Z only. *)
Definition lower_c (s : pystr) : pystr :=
  List.map (fun c => if ((65 <=? c) && (c <=? 90))%N then (c + 32)%N else c) s.

(** A server that returns the rows it finds in the order of the table. *)
Definition table_order (l : list Db.Row) : list Db.Row := l.

Definition row (i : nat) (owner repo : string) (techs : list pystr) : Db.Row :=
  {| Db.id := i; Db.url := py "https://github.com/" ++ py owner ++ py "/" ++ py repo;
     Db.owner_name := py owner; Db.repo_name := py repo;
     Db.technologies := techs;
     Db.is_identified := match techs with [] => false | _ => true end;
     Db.status := py "analyzed"; Db.ai_explanation := None;
     Db.created_at := i; Db.updated_at := i |}.

(** Three repositories; the newest is listed first by the engine. *)
Definition store_three : Db.Store :=
  {| Db.rows := [ row 1 "Alice" "api" [py "Java"; py "Docker"];
                  row 2 "bob" "notes" [];
                  row 3 "Alice" "web" [py "Python"; py "Docker"] ];
     Db.next_id := 4; Db.clock := 4; Db.ai_queries := [] |}.

(** A batch in which the second clone times out and the first URL comes
    back at the end. *)
Definition batch_urls : list pystr :=
  [octocat; py "https://github.com/octo/gone"; octocat].

Definition batch_envs (i : nat) : Scanner.ScanEnv :=
  match i with
  | 2 => env_timeout
  | _ => env_java
  end.

(** Two repositories of one owner, as the scanner stores them. *)
Definition store_alice : Db.Store :=
  {| Db.rows := [ row 1 "Alice" "api" [py "Java"; py "Docker"];
                  row 2 "Alice" "web" [py "Python"; py "Docker"] ];
     Db.next_id := 3; Db.clock := 3; Db.ai_queries := [] |}.

(** A percentage rounded down to a whole number, standing for the float. *)
Definition pct_floor (a b : nat) : nat := a * 100 / b.

End Sample.

(* ===================================================================== *)
(** * Notions used by the proofs *)
(* ===================================================================== *)

(** The order of [sorted(..., key=..., reverse=True)]: by decreasing key. *)
Definition desc (A : Type) (key : A -> nat) (a b : A) : bool := key b <=? key a.

(** [a] is listed before [b]: a greater key, or the same key and a smaller
    index. *)
Definition before (A : Type) (key idx : A -> nat) (a b : A) : Prop :=
  key b < key a \/ (key a = key b /\ idx a < idx b).

(** Every character of every captured group satisfies [P]. *)
Definition caps_all (P : N -> Prop) (c : Re.caps) : Prop :=
  Forall (fun g => Forall P (snd g)) c.

(** A signature in which every character stands for itself: no star, no
    question mark, no opening bracket. *)
Definition plain_text (p : pystr) : bool :=
  negb (has_char Scanner.star p) && negb (has_char Scanner.qmark p)
  && negb (has_char Scanner.lbracket p).

(** A store as [insert_repository] builds it: one row per URL, and the
    identifiers distinct, positive and below the [SERIAL] counter. *)
Definition well_formed (st : Db.Store) : Prop :=
  List.NoDup (List.map Db.url (Db.rows st))
  /\ List.NoDup (List.map Db.id (Db.rows st))
  /\ 1 <= Db.next_id st
  /\ forall r, In r (Db.rows st) -> 1 <= Db.id r < Db.next_id st.

(** Whether the last character of [s] satisfies [p]. *)
Definition last_char_is (p : N -> bool) (s : pystr) : bool :=
  match rev s with
  | x :: _ => p x
  | [] => false
  end.

(** A text without any of the characters that [LIKE] reads specially. *)
Definition like_plain (s : pystr) : bool :=
  forallb (fun c => negb ((c =? 37) || (c =? 95) || (c =? 92))%N) s.

(** The form of a recorded file extension: no dot, and no character that
    [str.lower] changes. *)
Definition extension_form (e : pystr) : Prop :=
  has_char 46 e = false /\ has_upper e = false.

(** What the census keeps true of its counters. *)
Definition census_ok (c : Scanner.Census) : Prop :=
  List.NoDup (Scanner.file_extensions c)
  /\ Forall extension_form (Scanner.file_extensions c)
  /\ List.length (Scanner.file_extensions c) <= Scanner.file_count c.

(** The code points of one range of the lowercase table, and all the code
    points the table moves. *)
Definition range_elements (r : N * N * N * Z) : list N :=
  let '(first, last, step, _) := r in
  List.map (fun k => (first + N.of_nat k * step)%N)
           (List.seq 0 (S (N.to_nat ((last - first) / step)))).

Definition lower_sources : list N := List.flat_map range_elements lower_ranges.

(* ===================================================================== *)
(** * Facts about the runtime values *)
(* ===================================================================== *)

Lemma str_eqb_eq (a b : pystr) : str_eqb a b = true <-> a = b.
Proof.
  revert b; induction a as [|x a IH]; intros [|y b]; simpl; split; try easy.
  - rewrite andb_true_iff, N.eqb_eq, IH. now intros [-> ->].
  - intros [= -> ->]. rewrite N.eqb_refl. simpl. now apply IH.
Qed.

Lemma str_eqb_refl (a : pystr) : str_eqb a a = true.
Proof. now apply str_eqb_eq. Qed.

Lemma str_eqb_neq (a b : pystr) : str_eqb a b = false <-> a <> b.
Proof.
  rewrite <- str_eqb_eq. destruct (str_eqb a b); split; congruence.
Qed.

Lemma str_eqb_sym (a b : pystr) : str_eqb a b = str_eqb b a.
Proof.
  destruct (str_eqb a b) eqn:E.
  - apply str_eqb_eq in E. subst. now rewrite str_eqb_refl.
  - apply str_eqb_neq in E. symmetry. apply str_eqb_neq. congruence.
Qed.

Lemma str_in_In (x : pystr) (l : list pystr) : str_in x l = true <-> In x l.
Proof.
  unfold str_in. rewrite existsb_exists. split.
  - intros (y & Hy & E). apply str_eqb_eq in E. now subst.
  - intros H. exists x. split; [assumption | apply str_eqb_refl].
Qed.

Lemma str_in_false (x : pystr) (l : list pystr) : str_in x l = false <-> ~ In x l.
Proof.
  rewrite <- str_in_In. destruct (str_in x l); split; congruence.
Qed.

Lemma startswith_app (p s : pystr) : startswith p (p ++ s) = true.
Proof.
  induction p as [|x p IH]; simpl; [reflexivity|].
  now rewrite N.eqb_refl, IH.
Qed.

Lemma startswith_split (p s : pystr) :
  startswith p s = true <-> exists t, s = p ++ t.
Proof.
  split.
  - revert s; induction p as [|x p IH]; intros s H.
    + now exists s.
    + destruct s as [|y s]; simpl in H; [discriminate|].
      apply andb_true_iff in H as [E H]. apply N.eqb_eq in E. subst y.
      destruct (IH _ H) as [t ->]. now exists t.
  - intros [t ->]. apply startswith_app.
Qed.

Lemma contains_startswith (sub s : pystr) :
  startswith sub s = true -> contains sub s = true.
Proof. intros H. destruct s; simpl; rewrite H; reflexivity. Qed.

Lemma contains_app (sub a b : pystr) : contains sub (a ++ sub ++ b) = true.
Proof.
  induction a as [|x a IH].
  - simpl. apply contains_startswith, startswith_app.
  - simpl. rewrite IH. apply orb_true_r.
Qed.

Lemma nonempty_true (s : pystr) : Scanner.nonempty s = true <-> s <> [].
Proof. destruct s; simpl; split; congruence. Qed.
(* ===================================================================== *)
(** * The lowercase table *)
(* ===================================================================== *)

(** A code point that the table moves is one of its listed sources. *)
Lemma lower_delta_source (l : list (N * N * N * Z)) (c : N) :
  Forall (fun r => snd (fst r) <> 0%N) l ->
  lower_delta c l <> 0%Z -> In c (List.flat_map range_elements l).
Proof.
  induction l as [|[[[a b] s] d] l IH]; intros Hs H; [now contradiction H|].
  inversion Hs as [|? ? Hs1 Hs2]; subst. cbn [fst snd] in Hs1.
  cbn [lower_delta List.flat_map] in *. apply in_or_app.
  destruct (N.ltb_spec c a) as [Hlt|Hge]; [now contradiction H|].
  destruct (N.leb_spec c b) as [Hle|Hgt]; [|right; now apply IH].
  destruct (N.eqb_spec ((c - a) mod s) 0) as [Hm|Hm]; [|now contradiction H].
  left. unfold range_elements. apply in_map_iff.
  exists (N.to_nat ((c - a) / s)). split.
  - rewrite N2Nat.id. pose proof (N.div_mod (c - a) s Hs1) as Hd.
    rewrite Hm, N.add_0_r in Hd. rewrite (N.mul_comm _ s), <- Hd. lia.
  - apply in_seq. split; [apply Nat.le_0_l|].
    assert (Hq : ((c - a) / s <= (b - a) / s)%N) by (apply N.Div0.div_le_mono; lia).
    revert Hq. generalize ((c - a) / s)%N ((b - a) / s)%N. intros x y Hxy. lia.
Qed.

Lemma lower_ranges_steps : Forall (fun r => snd (fst r) <> 0%N) lower_ranges.
Proof.
  apply List.Forall_forall. intros r Hr.
  assert (H : forallb (fun r => negb (snd (fst r) =? 0)%N) lower_ranges = true)
    by (vm_compute; reflexivity).
  rewrite forallb_forall in H. specialize (H r Hr).
  apply negb_true_iff in H. now apply N.eqb_neq.
Qed.

(** What holds of every source of the table holds of every code point
    that has a lowercase form. *)
Lemma to_lower_sources (P : N -> bool) (c : N) :
  forallb P lower_sources = true -> to_lower c <> c -> P c = true.
Proof.
  intros H Hc. rewrite forallb_forall in H. apply H.
  apply lower_delta_source; [exact lower_ranges_steps|].
  intros Hz. apply Hc. unfold to_lower. rewrite Hz. lia.
Qed.

(** A lowercase form has no lowercase form of its own. *)
Lemma to_lower_idempotent (c : N) : to_lower (to_lower c) = to_lower c.
Proof.
  destruct (N.eq_dec (to_lower c) c) as [E|E]; [now rewrite E|].
  apply N.eqb_eq.
  apply (to_lower_sources (fun c => (to_lower (to_lower c) =? to_lower c)%N));
    [vm_compute; reflexivity | exact E].
Qed.

Lemma to_lower_not_upper (c : N) : is_upper (to_lower c) = false.
Proof.
  unfold is_upper. rewrite to_lower_idempotent. now rewrite N.eqb_refl.
Qed.

(** No other character is lowered to the full stop. *)
Lemma to_lower_dot (c : N) : (46 =? to_lower c)%N = (46 =? c)%N.
Proof.
  destruct (N.eq_dec (to_lower c) c) as [E|E]; [now rewrite E|].
  assert (H : negb (46 =? to_lower c)%N && negb (46 =? c)%N = true).
  { apply (to_lower_sources (fun c => negb (46 =? to_lower c)%N && negb (46 =? c)%N));
      [vm_compute; reflexivity | exact E]. }
  apply andb_true_iff in H as [H1 H2]. apply negb_true_iff in H1, H2. congruence.
Qed.

(** The characters one character of the text is lowered to. *)
Lemma lower_piece (before : pystr) (c : N) (s : pystr) :
  lower_from before (c :: s)
  = (if (c =? 931)%N
     then [if final_sigma before s then 962%N else 963%N]
     else lower_full c) ++ lower_from (c :: before) s.
Proof. reflexivity. Qed.

Lemma lower_piece_form (before : pystr) (c : N) (s : pystr) :
  let piece := if (c =? 931)%N
               then [if final_sigma before s then 962%N else 963%N]
               else lower_full c in
  Forall (fun x => is_upper x = false) piece
  /\ has_char 46 piece = (46 =? c)%N.
Proof.
  cbn zeta. destruct (N.eqb_spec c 931) as [->|H1].
  - split; [|now destruct (final_sigma before s)]. constructor; [|constructor].
    destruct (final_sigma before s); vm_compute; reflexivity.
  - unfold lower_full. destruct (N.eqb_spec c 304) as [->|H2].
    + split; [|reflexivity].
      constructor; [vm_compute; reflexivity|]. constructor; [vm_compute; reflexivity|].
      constructor.
    + split; [constructor; [apply to_lower_not_upper | constructor]|].
      unfold has_char. cbn [existsb]. rewrite orb_false_r. apply to_lower_dot.
Qed.

(** [str.lower] leaves no character that it would change. *)
Lemma lower_not_upper (s : pystr) : Forall (fun c => is_upper c = false) (lower s).
Proof.
  unfold lower. generalize (@nil N) as before.
  induction s as [|c s IH]; intros before; [constructor|].
  rewrite lower_piece. apply List.Forall_app. split; [|apply IH].
  apply (lower_piece_form before c s).
Qed.

(** [str.lower] makes no full stop and removes none. *)
Lemma lower_has_dot (s : pystr) : has_char 46 (lower s) = has_char 46 s.
Proof.
  unfold lower. generalize (@nil N) as before.
  induction s as [|c s IH]; intros before; [reflexivity|].
  rewrite lower_piece. unfold has_char in *. rewrite existsb_app.
  rewrite IH. cbn [existsb]. f_equal. apply (lower_piece_form before c s).
Qed.

Lemma has_upper_false (s : pystr) :
  has_upper s = false <-> Forall (fun c => is_upper c = false) s.
Proof.
  unfold has_upper. induction s as [|c s IH]; simpl.
  - split; [constructor | reflexivity].
  - rewrite orb_false_iff, IH. split.
    + intros [H1 H2]. now constructor.
    + intros H. inversion H. now split.
Qed.

(* ===================================================================== *)
(** * The scan orchestrator *)
(* ===================================================================== *)

Section ScanFacts.

Variable urlparse_path : pystr -> result pystr.
Variable set_iter : list pystr -> list pystr.

Local Abbreviation scan := (Scanner.scan_repository urlparse_path set_iter).

(** The three exits of [scan_repository]. *)
Lemma scan_repository_error env u fs0 e :
  Scanner.mkdtemp env = Raise e ->
  scan env u fs0 =
  ({| Scanner.url := u;
      Scanner.owner_name := fst (Scanner.extract_repo_info_from_url urlparse_path u);
      Scanner.repo_name := snd (Scanner.extract_repo_info_from_url urlparse_path u);
      Scanner.technologies := []; Scanner.is_identified := false;
      Scanner.status := py "error";
      Scanner.ai_explanation :=
        Some (py "Error durante el análisis del repositorio: " ++ e) |}, fs0).
Proof.
  intros H. unfold Scanner.scan_repository.
  destruct (Scanner.extract_repo_info_from_url urlparse_path u) as [o r].
  rewrite H. reflexivity.
Qed.

Lemma scan_repository_clone_failed env u fs0 random :
  Scanner.mkdtemp env = Ok random ->
  Scanner.clone_repository (Scanner.git_clone env) = false ->
  scan env u fs0 =
  ({| Scanner.url := u;
      Scanner.owner_name := fst (Scanner.extract_repo_info_from_url urlparse_path u);
      Scanner.repo_name := snd (Scanner.extract_repo_info_from_url urlparse_path u);
      Scanner.technologies := []; Scanner.is_identified := false;
      Scanner.status := py "clone_failed";
      Scanner.ai_explanation := Some (Scanner.clone_failed_text u) |},
   Scanner.cleanup env (Some (Scanner.temp_path random)) (Scanner.temp_path random :: fs0)).
Proof.
  intros H1 H2. unfold Scanner.scan_repository.
  destruct (Scanner.extract_repo_info_from_url urlparse_path u) as [o r].
  rewrite H1, H2. reflexivity.
Qed.

Lemma scan_repository_analyzed env u fs0 random :
  Scanner.mkdtemp env = Ok random ->
  Scanner.clone_repository (Scanner.git_clone env) = true ->
  let techs := Scanner.scan_directory_for_technologies
                 (Scanner.walk_classify env) (Scanner.package_json env) in
  scan env u fs0 =
  ({| Scanner.url := u;
      Scanner.owner_name := fst (Scanner.extract_repo_info_from_url urlparse_path u);
      Scanner.repo_name := snd (Scanner.extract_repo_info_from_url urlparse_path u);
      Scanner.technologies := techs;
      Scanner.is_identified := 0 <? List.length techs;
      Scanner.status := py "analyzed";
      Scanner.ai_explanation :=
        if 0 <? List.length techs then None
        else Some (Scanner._generate_explanation_for_unidentified
                     set_iter (Scanner.walk_census env) u) |},
   Scanner.cleanup env (Some (Scanner.temp_path random)) (Scanner.temp_path random :: fs0)).
Proof.
  intros H1 H2 techs. unfold Scanner.scan_repository.
  destruct (Scanner.extract_repo_info_from_url urlparse_path u) as [o r].
  rewrite H1, H2. fold techs.
  unfold Scanner.set_outcome, Scanner.set_technologies.
  cbn [negb Scanner.url Scanner.owner_name Scanner.repo_name Scanner.technologies
       Scanner.is_identified Scanner.status Scanner.ai_explanation fst snd].
  destruct (0 <? List.length techs); reflexivity.
Qed.

(** Every scan takes one of the three exits. *)
Lemma scan_repository_cases (env : Scanner.ScanEnv) :
  (exists e, Scanner.mkdtemp env = Raise e)
  \/ (exists random, Scanner.mkdtemp env = Ok random
        /\ Scanner.clone_repository (Scanner.git_clone env) = false)
  \/ (exists random, Scanner.mkdtemp env = Ok random
        /\ Scanner.clone_repository (Scanner.git_clone env) = true).
Proof.
  destruct (Scanner.mkdtemp env) as [random|e]; [|left; eauto].
  right. destruct (Scanner.clone_repository (Scanner.git_clone env)); eauto.
Qed.

Lemma temp_path_nonempty (random : pystr) :
  Scanner.nonempty (Scanner.temp_path random) = true.
Proof.
  unfold Scanner.temp_path.
  destruct (py "/tmp/cmdb_repo_") eqn:E; [vm_compute in E; discriminate | reflexivity].
Qed.

Lemma str_in_filter_out (d : pystr) (l : list pystr) :
  str_in d (List.filter (fun x => negb (str_eqb x d)) l) = false.
Proof.
  apply str_in_false. intros H. apply filter_In in H as [_ H].
  now rewrite str_eqb_refl in H.
Qed.

(** The [finally] clause removes the scratch directory when
    [shutil.rmtree] succeeds, and leaves it when it fails. *)
Lemma cleanup_removed env d l x :
  Scanner.nonempty d = true ->
  Scanner.rmtree env = Ok x ->
  str_in d (Scanner.cleanup env (Some d) l) = false.
Proof.
  intros Hd H. unfold Scanner.cleanup. rewrite Hd, H. simpl.
  destruct (str_in d l) eqn:E; [apply str_in_filter_out | assumption].
Qed.

Lemma cleanup_kept env d l e :
  Scanner.rmtree env = Raise e ->
  Scanner.cleanup env (Some d) l = l.
Proof.
  intros H. unfold Scanner.cleanup. rewrite H.
  now destruct (Scanner.nonempty d && str_in d l).
Qed.

(** [status] is ['error'] exactly when the scratch directory could not be
    created. *)
Lemma scan_repository_status_error env u fs0 :
  Scanner.status (fst (scan env u fs0)) = py "error"
  <-> exists e, Scanner.mkdtemp env = Raise e.
Proof.
  destruct (scan_repository_cases env) as [[e H] | [(r & H1 & H2) | (r & H1 & H2)]].
  - rewrite (scan_repository_error _ _ _ H). simpl. split; eauto.
  - rewrite (scan_repository_clone_failed _ _ _ H1 H2). simpl.
    split; [intros E; vm_compute in E; discriminate | intros [e E]; congruence].
  - rewrite (scan_repository_analyzed _ _ _ H1 H2). simpl.
    split; [intros E; vm_compute in E; discriminate | intros [e E]; congruence].
Qed.

(** C6: for every record [scan_repository] returns, on each of its exits
    (analyzed, clone_failed, error), [is_identified] is true if and only if
    the list of technologies is not empty. *)
Theorem scan_repository_is_identified_iff env u fs0 :
  Scanner.is_identified (fst (Scanner.scan_repository urlparse_path set_iter env u fs0)) = true
  <-> Scanner.technologies (fst (Scanner.scan_repository urlparse_path set_iter env u fs0)) <> [].
Proof.
  destruct (scan_repository_cases env) as [[e H] | [(r & H1 & H2) | (r & H1 & H2)]].
  - rewrite (scan_repository_error _ _ _ H). simpl. split; [discriminate | congruence].
  - rewrite (scan_repository_clone_failed _ _ _ H1 H2). simpl.
    split; [discriminate | congruence].
  - rewrite (scan_repository_analyzed _ _ _ H1 H2). simpl.
    destruct (Scanner.scan_directory_for_technologies _ _); simpl;
      split; intros; try easy; congruence.
Qed.


(** C3 (amended): when the clone times out or exits with a code that is not
    zero, the record has status ['clone_failed'] and an explanation that
    names the URL and asks to check that it is correct and the repository
    public; and on every exit of a scan that created a scratch directory,
    the directory no longer exists afterwards provided [shutil.rmtree]
    succeeds (a failing removal is caught and logged, and leaves the
    directory). *)
Theorem clone_failure_record_and_cleanup env u fs0 random :
  Scanner.mkdtemp env = Ok random ->
  ((Scanner.git_clone env = Scanner.TimedOut
    \/ exists rc err, Scanner.git_clone env = Scanner.Exited rc err /\ rc <> 0%Z) ->
   Scanner.status (fst (Scanner.scan_repository urlparse_path set_iter env u fs0)) = py "clone_failed"
   /\ Scanner.ai_explanation (fst (Scanner.scan_repository urlparse_path set_iter env u fs0)) = Some (Scanner.clone_failed_text u)
   /\ contains u (Scanner.clone_failed_text u) = true
   /\ contains (py "Verifique que la URL sea correcta y que el repositorio sea público")
                (Scanner.clone_failed_text u) = true)
  /\ (forall x, Scanner.rmtree env = Ok x ->
      str_in (Scanner.temp_path random) (snd (Scanner.scan_repository urlparse_path set_iter env u fs0)) = false).
Proof.
  intros H1. split.
  - intros Hc.
    assert (H2 : Scanner.clone_repository (Scanner.git_clone env) = false).
    { destruct Hc as [-> | (rc & err & -> & Hrc)]; [reflexivity|].
      simpl. now apply Z.eqb_neq. }
    rewrite (scan_repository_clone_failed _ _ _ H1 H2). cbn -[py contains].
    repeat split.
    + unfold Scanner.clone_failed_text. apply contains_app.
    + unfold Scanner.clone_failed_text.
      assert (E : py ". Verifique que la URL sea correcta y que el repositorio sea público o tenga los permisos necesarios."
                  = py ". " ++ py "Verifique que la URL sea correcta y que el repositorio sea público"
                    ++ py " o tenga los permisos necesarios.") by (vm_compute; reflexivity).
      rewrite E, !app_assoc.
      rewrite <- (app_assoc _ (py "Verifique que la URL sea correcta y que el repositorio sea público")).
      apply contains_app.
  - intros x Hx.
    destruct (Scanner.clone_repository (Scanner.git_clone env)) eqn:H2.
    + rewrite (scan_repository_analyzed _ _ _ H1 H2). cbn [snd].
      now apply cleanup_removed with (x := x); [apply temp_path_nonempty|].
    + rewrite (scan_repository_clone_failed _ _ _ H1 H2). cbn [snd].
      now apply cleanup_removed with (x := x); [apply temp_path_nonempty|].
Qed.

End ScanFacts.



Lemma clone_failure_record_and_cleanup_witness :
  Scanner.mkdtemp Sample.env_timeout = Ok (py "k3x9")
  /\ Scanner.git_clone Sample.env_timeout = Scanner.TimedOut
  /\ Scanner.rmtree Sample.env_timeout = Ok tt
  /\ Scanner.status
       (fst (Scanner.scan_repository Sample.plain_path Sample.in_order
               Sample.env_timeout Sample.octocat [])) = py "clone_failed"
  /\ str_in (Scanner.temp_path (py "k3x9"))
       (snd (Scanner.scan_repository Sample.plain_path Sample.in_order
               Sample.env_timeout Sample.octocat [])) = false.
Proof.
  pose proof (clone_failure_record_and_cleanup Sample.plain_path Sample.in_order
                Sample.env_timeout Sample.octocat [] (random := py "k3x9") eq_refl)
    as [Hrecord Hclean].
  split; [reflexivity|]. split; [reflexivity|]. split; [reflexivity|]. split.
  - exact (proj1 (Hrecord (or_introl eq_refl))).
  - exact (Hclean tt eq_refl).
Defined.

(** C3 as stated fails: the clone times out, [shutil.rmtree] raises, and
    the scratch directory still exists when [scan_repository] returns. *)
Lemma scratch_directory_left_counterexample :
  Scanner.git_clone Sample.env_timeout_rmtree_fails = Scanner.TimedOut
  /\ Scanner.status
       (fst (Scanner.scan_repository Sample.plain_path Sample.in_order
               Sample.env_timeout_rmtree_fails Sample.octocat [])) = py "clone_failed"
  /\ str_in (Scanner.temp_path (py "k3x9"))
       (snd (Scanner.scan_repository Sample.plain_path Sample.in_order
               Sample.env_timeout_rmtree_fails Sample.octocat [])) = true.
Proof. repeat split. Qed.

(* ===================================================================== *)
(** * The technology classifier *)
(* ===================================================================== *)

(** The inner loop, in one step. *)
Lemma scan_patterns_spec manifest files tech pats acc :
  Scanner.scan_patterns manifest files tech pats acc =
  if existsb (Scanner._matches_pattern files) pats
     && negb (str_in tech acc)
     && Scanner._validate_technology tech manifest files
  then acc ++ [tech] else acc.
Proof.
  induction pats as [|p pats IH]; simpl; [reflexivity|].
  destruct (Scanner._matches_pattern files p); simpl; [|exact IH].
  destruct (str_in tech acc); simpl; [reflexivity|].
  now destruct (Scanner._validate_technology tech manifest files).
Qed.

(** What the outer loop accepts: a technology is in the result exactly
    when one of its catalog entries has a matching signature and the
    validation heuristic lets it pass. *)
Lemma scan_catalog_from_In catalog manifest files acc t :
  In t (fold_left (fun a entry =>
                     Scanner.scan_patterns manifest files (fst entry) (snd entry) a)
                  catalog acc)
  <-> In t acc
      \/ exists pats, In (t, pats) catalog
           /\ existsb (Scanner._matches_pattern files) pats = true
           /\ Scanner._validate_technology t manifest files = true.
Proof.
  revert acc; induction catalog as [|[tech pats] catalog IH]; intros acc; simpl.
  - split; [tauto | intros [H | (p & [] & _)]; exact H].
  - rewrite IH, scan_patterns_spec. clear IH.
    destruct (existsb (Scanner._matches_pattern files) pats) eqn:Em; simpl.
    + destruct (str_in tech acc) eqn:Ein; simpl.
      * apply str_in_In in Ein. split.
        -- intros [H | (p & H1 & H2)]; [now left | right; exists p; tauto].
        -- intros [H | (p & [E | H1] & H2)]; [now left | | right; exists p; tauto].
           injection E as -> ->. now left.
      * destruct (Scanner._validate_technology tech manifest files) eqn:Ev.
        -- rewrite in_app_iff. simpl. split.
           ++ intros [[H | [-> | []]] | (p & H1 & H2)];
                [now left | right; exists pats; tauto | right; exists p; tauto].
           ++ intros [H | (p & [E | H1] & H2)];
                [tauto | | right; exists p; tauto].
              injection E as -> ->. tauto.
        -- split.
           ++ intros [H | (p & H1 & H2)]; [now left | right; exists p; tauto].
           ++ intros [H | (p & [E | H1] & H2 & H3)];
                [now left | | right; exists p; tauto].
              injection E as -> ->. congruence.
    + split.
      * intros [H | (p & H1 & H2)]; [now left | right; exists p; tauto].
      * intros [H | (p & [E | H1] & H2 & H3)];
          [now left | | right; exists p; tauto].
        injection E as -> ->. congruence.
Qed.

Lemma scan_catalog_In catalog manifest files t :
  In t (Scanner.scan_catalog catalog manifest files)
  <-> exists pats, In (t, pats) catalog
        /\ existsb (Scanner._matches_pattern files) pats = true
        /\ Scanner._validate_technology t manifest files = true.
Proof.
  unfold Scanner.scan_catalog. rewrite scan_catalog_from_In. simpl. tauto.
Qed.

(** The catalog has one entry for React, with the one signature
    [package.json]. *)
Lemma react_entry (pats : list pystr) :
  In (py "React", pats) Scanner.technology_patterns <-> pats = [py "package.json"].
Proof.
  split.
  - intros H. vm_compute in H.
    repeat (destruct H as [H | H]; [try discriminate H|]); try contradiction.
    injection H as <-. vm_compute. reflexivity.
  - intros ->. vm_compute. tauto.
Qed.

(** A file of the root directory is listed under its own name. *)
Lemma walk_root_file keep files dirs f :
  In f files -> In f (Scanner.walk keep [] (Scanner.Dir files dirs)).
Proof.
  intros H. cbn [Scanner.walk]. apply in_or_app. left.
  apply in_map_iff. exists f. now split.
Qed.

Lemma matches_literal_In files pattern :
  has_char Scanner.star pattern = false ->
  In pattern files -> Scanner._matches_pattern files pattern = true.
Proof.
  intros Hs H. unfold Scanner._matches_pattern. rewrite Hs.
  apply str_in_In in H. now rewrite H.
Qed.

(** React is accepted exactly when [package.json] is matched and the
    validation lets it pass. *)
Lemma react_accepted walked manifest :
  In (py "React") (Scanner.scan_directory_for_technologies (Ok walked) manifest)
  <-> Scanner._matches_pattern (Scanner.walk Scanner.keep_classify [] walked)
                               (py "package.json") = true
      /\ Scanner._validate_technology (py "React") manifest
           (Scanner.walk Scanner.keep_classify [] walked) = true.
Proof.
  unfold Scanner.scan_directory_for_technologies. cbn [bind try_except].
  rewrite scan_catalog_In. split.
  - intros (pats & Hin & Hm & Hv). apply react_entry in Hin. subst pats.
    cbn [existsb] in Hm. rewrite orb_false_r in Hm. now split.
  - intros [Hm Hv]. exists [py "package.json"]. split; [now apply react_entry|].
    cbn [existsb]. rewrite orb_false_r. now split.
Qed.

(** The heuristic for React, by the state of the manifest. *)
Lemma validate_react_body manifest files :
  Scanner.validate_technology_body (py "React") manifest files =
  match manifest with
  | Scanner.Parsed package_data =>
    dependencies <- Scanner.py_get package_data (py "dependencies") (Scanner.JObj []) ;;
    dev_dependencies <- Scanner.py_get package_data (py "devDependencies") (Scanner.JObj []) ;;
    in_deps <- Scanner.py_in (py "react") dependencies ;;
    if in_deps then Ok true else Scanner.py_in (py "react") dev_dependencies
  | Scanner.Unreadable e => Raise e
  | Scanner.NoFile => Ok false
  end.
Proof.
  unfold Scanner.validate_technology_body. now rewrite str_eqb_refl.
Qed.

Lemma key_in_items (k : pystr) (items : list (pystr * Scanner.json)) :
  existsb (fun kv => str_eqb k (fst kv)) items = true <-> exists v, In (k, v) items.
Proof.
  rewrite existsb_exists. split.
  - intros ([k' v] & Hin & E). apply str_eqb_eq in E. simpl in E. subst. now exists v.
  - intros [v H]. exists (k, v). split; [assumption | apply str_eqb_refl].
Qed.

Lemma py_get_section key items section :
  Scanner.manifest_section key items section ->
  Scanner.py_get (Scanner.JObj items) key (Scanner.JObj []) = Ok (Scanner.JObj section).
Proof.
  unfold Scanner.py_get. intros [-> | [-> ->]]; reflexivity.
Qed.

Lemma validate_react_manifest data deps dev files :
  Scanner.dependency_manifest data deps dev ->
  Scanner._validate_technology (py "React") (Scanner.Parsed data) files = true
  <-> Scanner.lists_react deps dev.
Proof.
  intros (items & -> & Hd & Hv). unfold Scanner._validate_technology.
  rewrite validate_react_body.
  rewrite (py_get_section Hd), (py_get_section Hv).
  cbn [bind Scanner.py_in try_except]. unfold Scanner.lists_react.
  rewrite <- !key_in_items.
  destruct (existsb (fun kv => str_eqb (py "react") (fst kv)) deps);
    cbn [try_except]; [tauto|].
  split; [now right | now intros [H | H]].
Qed.

(** C2: when the root of the inventory has a [package.json] that parses as
    a dependency manifest, the classifier accepts React if and only if
    [react] appears under [dependencies] or [devDependencies]; and when the
    signature matched but the validation heuristic itself raises (the
    manifest is unreadable or malformed), React is accepted all the same. *)
Theorem react_accepted_iff_declared (walked : Scanner.tree) (manifest : Scanner.Manifest) :
  (forall files dirs data deps dev,
      walked = Scanner.Dir files dirs ->
      In (py "package.json") files ->
      manifest = Scanner.Parsed data ->
      Scanner.dependency_manifest data deps dev ->
      (In (py "React") (Scanner.scan_directory_for_technologies (Ok walked) manifest)
       <-> Scanner.lists_react deps dev))
  /\ (forall e,
        Scanner._matches_pattern (Scanner.walk Scanner.keep_classify [] walked)
                                 (py "package.json") = true ->
        Scanner.validate_technology_body (py "React") manifest
          (Scanner.walk Scanner.keep_classify [] walked) = Raise e ->
        In (py "React") (Scanner.scan_directory_for_technologies (Ok walked) manifest)).
Proof.
  split.
  - intros files dirs data deps dev -> Hin -> Hm.
    rewrite react_accepted, (validate_react_manifest _ Hm).
    assert (Scanner._matches_pattern
              (Scanner.walk Scanner.keep_classify [] (Scanner.Dir files dirs))
              (py "package.json") = true) as ->; [|tauto].
    apply matches_literal_In; [vm_compute; reflexivity|].
    now apply walk_root_file.
  - intros e Hm Hraise. apply react_accepted. split; [assumption|].
    unfold Scanner._validate_technology. now rewrite Hraise.
Qed.

Lemma react_manifest_is_manifest :
  Scanner.dependency_manifest Sample.react_manifest
    [(py "react", Scanner.JStr (py "^18.0.0"))] [].
Proof.
  exists [(py "name", Scanner.JStr (py "app"));
          (py "dependencies", Scanner.JObj [(py "react", Scanner.JStr (py "^18.0.0"))])].
  split; [reflexivity|]. split.
  - left. vm_compute. reflexivity.
  - right. split; [vm_compute|]; reflexivity.
Qed.

Lemma react_accepted_iff_declared_witness :
  In (py "package.json") [py "package.json"]
  /\ In (py "React")
        (Scanner.scan_directory_for_technologies
           (Ok (Scanner.Dir [py "package.json"] [])) (Scanner.Parsed Sample.react_manifest))
  /\ In (py "React")
        (Scanner.scan_directory_for_technologies
           (Ok (Scanner.Dir [py "package.json"] []))
           (Scanner.Unreadable (py "Expecting value: line 1 column 1 (char 0)"))).
Proof.
  split; [now left|]. split.
  - apply (proj1 (react_accepted_iff_declared
                    (Scanner.Dir [py "package.json"] [])
                    (Scanner.Parsed Sample.react_manifest))
             [py "package.json"] [] Sample.react_manifest
             [(py "react", Scanner.JStr (py "^18.0.0"))] []
             eq_refl (or_introl eq_refl) eq_refl react_manifest_is_manifest).
    left. exists (Scanner.JStr (py "^18.0.0")). now left.
  - apply (proj2 (react_accepted_iff_declared
                    (Scanner.Dir [py "package.json"] [])
                    (Scanner.Unreadable (py "Expecting value: line 1 column 1 (char 0)")))
             (py "Expecting value: line 1 column 1 (char 0)")).
    + vm_compute. reflexivity.
    + vm_compute. reflexivity.
Defined.

(* ===================================================================== *)
(** * The store *)
(* ===================================================================== *)

(** An upsert on a URL that has a row: the row is updated where it is. *)
Lemma upsert_conflict (new : Db.Row) (l : list Db.Row) (old : Db.Row) :
  List.find (fun r => str_eqb (Db.url r) (Db.url new)) l = Some old ->
  fst (Db.upsert new l) = Db.id old
  /\ List.find (fun r => str_eqb (Db.url r) (Db.url new)) (snd (Db.upsert new l))
     = Some (Db.do_update old new)
  /\ List.map Db.url (snd (Db.upsert new l)) = List.map Db.url l.
Proof.
  induction l as [|r l IH]; simpl; [discriminate|].
  destruct (str_eqb (Db.url r) (Db.url new)) eqn:E.
  - intros [= ->]. simpl. rewrite E. repeat split.
  - intros H. destruct (IH H) as (H1 & H2 & H3).
    destruct (Db.upsert new l) as [i l'']. simpl in *. rewrite E.
    repeat split; [assumption | assumption | now f_equal].
Qed.

(** An upsert on a new URL: the row is added at the end. *)
Lemma upsert_fresh (new : Db.Row) (l : list Db.Row) :
  List.find (fun r => str_eqb (Db.url r) (Db.url new)) l = None ->
  Db.upsert new l = (Db.id new, l ++ [new]).
Proof.
  induction l as [|r l IH]; simpl; [reflexivity|].
  destruct (str_eqb (Db.url r) (Db.url new)); [discriminate|].
  intros H. now rewrite (IH H).
Qed.

(** Rows of other URLs are left as they are. *)
Lemma upsert_other (new : Db.Row) (l : list Db.Row) (u : pystr) :
  u <> Db.url new ->
  List.find (fun r => str_eqb (Db.url r) u) (snd (Db.upsert new l))
  = List.find (fun r => str_eqb (Db.url r) u) l.
Proof.
  intros Hne. induction l as [|r l IH]; simpl.
  - apply str_eqb_neq in Hne. now rewrite str_eqb_sym, Hne.
  - destruct (str_eqb (Db.url r) (Db.url new)) eqn:E; simpl.
    + apply str_eqb_eq in E. rewrite E.
      apply not_eq_sym, str_eqb_neq in Hne. now rewrite Hne.
    + destruct (Db.upsert new l) as [i l'']. simpl in *. now rewrite IH.
Qed.

(** [insert_repository] on a URL that has a row. *)
Lemma insert_repository_conflict st u owner repo techs identified stat expl old :
  Db.get_repository_by_url true st u = Some old ->
  let st' := snd (Db.insert_repository true st u owner repo (Some techs)
                                        identified stat expl) in
  fst (Db.insert_repository true st u owner repo (Some techs) identified stat expl)
  = Some (Db.id old)
  /\ Db.get_repository_by_url true st' u
     = Some {| Db.id := Db.id old; Db.url := Db.url old;
               Db.owner_name := owner; Db.repo_name := repo;
               Db.technologies := techs; Db.is_identified := identified;
               Db.status := stat; Db.ai_explanation := expl;
               Db.created_at := Db.created_at old; Db.updated_at := Db.clock st |}
  /\ List.map Db.url (Db.rows st') = List.map Db.url (Db.rows st).
Proof.
  unfold Db.get_repository_by_url, Db.insert_repository. cbn [Db.or_empty].
  set (new := {| Db.id := Db.next_id st; Db.url := u |}).
  intros H. destruct (upsert_conflict new (Db.rows st) H) as (H1 & H2 & H3).
  destruct (Db.upsert new (Db.rows st)) as [rid rows']. cbn [fst snd Db.rows] in *.
  repeat split; [now f_equal | exact H2 | exact H3].
Qed.

Section Rescan.

Variable urlparse_path : pystr -> result pystr.
Variable set_iter : list pystr -> list pystr.

(** The record of a scan carries the URL it was given. *)
Lemma scan_repository_url env u fs0 :
  Scanner.url (fst (Scanner.scan_repository urlparse_path set_iter env u fs0)) = u.
Proof.
  destruct (scan_repository_cases env) as [[e H] | [(r & H1 & H2) | (r & H1 & H2)]].
  - now rewrite (scan_repository_error _ _ _ _ _ H).
  - now rewrite (scan_repository_clone_failed _ _ _ _ _ H1 H2).
  - now rewrite (scan_repository_analyzed _ _ _ _ _ H1 H2).
Qed.

(** [scan_and_store_repository] is the scan followed by the upsert of its
    record. *)
Lemma scan_and_store_repository_store env u w :
  Scanner.store (snd (Scanner.scan_and_store_repository urlparse_path set_iter env u w)) =
  let r := fst (Scanner.scan_repository urlparse_path set_iter env u (Scanner.fs w)) in
  snd (Db.insert_repository (Scanner.db_online env) (Scanner.store w)
         u (Scanner.owner_name r) (Scanner.repo_name r) (Some (Scanner.technologies r))
         (Scanner.is_identified r) (Scanner.status r) (Scanner.ai_explanation r)).
Proof.
  unfold Scanner.scan_and_store_repository.
  pose proof (scan_repository_url env u (Scanner.fs w)) as Hu.
  destruct (Scanner.scan_repository urlparse_path set_iter env u (Scanner.fs w)) as [r fs'].
  cbn [fst] in *. rewrite Hu.
  now destruct (Db.insert_repository _ _ _ _ _ _ _ _ _).
Qed.

(** C5: when a URL that has a stored record is scanned again and the
    record of the new scan is persisted, the stored record takes the
    owner, name, technologies, [is_identified], status and explanation of
    the new scan, whatever they were before: its technologies are exactly
    those of the new scan.  The row keeps its place, its [id] and its
    creation time, and no row is added. *)
Theorem rescan_replaces_record env u w old :
  Scanner.db_online env = true ->
  Db.get_repository_by_url true (Scanner.store w) u = Some old ->
  exists new,
    Db.get_repository_by_url true
      (Scanner.store (snd (Scanner.scan_and_store_repository
                             urlparse_path set_iter env u w))) u = Some new
    /\ Db.owner_name new
       = Scanner.owner_name (fst (Scanner.scan_repository urlparse_path set_iter env u (Scanner.fs w)))
    /\ Db.repo_name new
       = Scanner.repo_name (fst (Scanner.scan_repository urlparse_path set_iter env u (Scanner.fs w)))
    /\ Db.technologies new
       = Scanner.technologies (fst (Scanner.scan_repository urlparse_path set_iter env u (Scanner.fs w)))
    /\ Db.is_identified new
       = Scanner.is_identified (fst (Scanner.scan_repository urlparse_path set_iter env u (Scanner.fs w)))
    /\ Db.status new
       = Scanner.status (fst (Scanner.scan_repository urlparse_path set_iter env u (Scanner.fs w)))
    /\ Db.ai_explanation new
       = Scanner.ai_explanation (fst (Scanner.scan_repository urlparse_path set_iter env u (Scanner.fs w)))
    /\ Db.id new = Db.id old
    /\ Db.created_at new = Db.created_at old
    /\ List.map Db.url
         (Db.rows (Scanner.store (snd (Scanner.scan_and_store_repository
                                         urlparse_path set_iter env u w))))
       = List.map Db.url (Db.rows (Scanner.store w)).
Proof.
  intros Hon Hold. rewrite scan_and_store_repository_store. cbn zeta. rewrite Hon.
  set (r := fst (Scanner.scan_repository urlparse_path set_iter env u (Scanner.fs w))).
  destruct (insert_repository_conflict (Scanner.store w) u
              (Scanner.owner_name r) (Scanner.repo_name r) (Scanner.technologies r)
              (Scanner.is_identified r) (Scanner.status r) (Scanner.ai_explanation r) Hold)
    as (_ & Hget & Hurls).
  eexists. split; [exact Hget|]. cbn. repeat split. exact Hurls.
Qed.

End Rescan.

Lemma rescan_replaces_record_witness :
  Scanner.db_online Sample.env_java = true
  /\ Db.get_repository_by_url true (Scanner.store Sample.world_octocat) Sample.octocat
     = Some Sample.octocat_python
  /\ exists new,
       Db.get_repository_by_url true
         (Scanner.store (snd (Scanner.scan_and_store_repository
                                Sample.plain_path Sample.in_order
                                Sample.env_java Sample.octocat Sample.world_octocat)))
         Sample.octocat = Some new
       /\ Db.technologies new = [py "Java"].
Proof.
  split; [reflexivity|]. split; [reflexivity|].
  destruct (rescan_replaces_record Sample.plain_path Sample.in_order
              Sample.env_java Sample.octocat Sample.world_octocat
              (old := Sample.octocat_python) eq_refl eq_refl)
    as (new & Hget & _ & _ & Htech & _).
  exists new. split; [exact Hget|]. rewrite Htech. vm_compute. reflexivity.
Defined.

(* ===================================================================== *)
(** * The stable sort *)
(* ===================================================================== *)

Section StableSort.

Context {A : Type}.
Variable le : A -> A -> bool.

Lemma insert_sorted_perm (x : A) (l : list A) :
  Permutation (insert_sorted le x l) (x :: l).
Proof.
  induction l as [|y l IH]; simpl; [reflexivity|].
  destruct (le x y); [reflexivity|].
  rewrite IH. apply perm_swap.
Qed.

Lemma sorted_perm (l : list A) : Permutation (sorted le l) l.
Proof.
  induction l as [|x l IH]; simpl; [reflexivity|].
  rewrite insert_sorted_perm. now constructor.
Qed.

Lemma sorted_nil : sorted le [] = [].
Proof. reflexivity. Qed.

Lemma sorted_length (l : list A) : List.length (sorted le l) = List.length l.
Proof. apply Permutation_length, sorted_perm. Qed.

Lemma sorted_In (x : A) (l : list A) : In x (sorted le l) <-> In x l.
Proof.
  split; apply Permutation_in; [|symmetry]; apply sorted_perm.
Qed.

End StableSort.

(** Sorting by decreasing [key] keeps the input order among equal keys:
    if the input is listed by increasing [idx], the output is listed by
    decreasing [key] and, under one key, by increasing [idx]. *)
Section Descending.

Context {A : Type}.
Variables key idx : A -> nat.

Lemma before_key (a b : A) : before key idx a b -> key b <= key a.
Proof. intros [H | [H _]]; lia. Qed.

Lemma insert_sorted_before (x : A) (l : list A) :
  StronglySorted (before key idx) l ->
  Forall (fun y => idx x < idx y) l ->
  StronglySorted (before key idx) (insert_sorted (desc key) x l).
Proof.
  induction l as [|y l IH]; intros Hs Hx; simpl.
  - constructor; constructor.
  - apply StronglySorted_inv in Hs as [Hs Hy].
    unfold desc at 1. destruct (key y <=? key x) eqn:E.
    + apply Nat.leb_le in E. constructor; [now constructor|].
      rewrite List.Forall_forall in Hx, Hy |- *. intros z Hz.
      assert (key z <= key x).
      { destruct Hz as [<- | Hz]; [assumption|].
        specialize (Hy z Hz). apply before_key in Hy. lia. }
      specialize (Hx z Hz). unfold before. lia.
    + apply Nat.leb_gt in E. constructor.
      * apply IH; [assumption | now inversion Hx].
      * rewrite List.Forall_forall in Hy |- *. intros z Hz.
        apply (Permutation_in _ (insert_sorted_perm (desc key) x l)) in Hz.
        destruct Hz as [<- | Hz]; [left; lia | now apply Hy].
Qed.

Lemma sorted_before (l : list A) :
  StronglySorted (fun a b => idx a < idx b) l ->
  StronglySorted (before key idx) (sorted (desc key) l).
Proof.
  induction l as [|x l IH]; intros Hs; simpl; [constructor|].
  apply StronglySorted_inv in Hs as [Hs Hx].
  apply insert_sorted_before; [now apply IH|].
  rewrite List.Forall_forall in Hx |- *. intros y Hy. apply Hx.
  now apply (sorted_In (desc key)).
Qed.

End Descending.

(* ===================================================================== *)
(** * Counting technologies *)
(* ===================================================================== *)

Lemma StronglySorted_weaken {A : Type} (R R' : A -> A -> Prop) (l : list A) :
  (forall a b, In a l -> In b l -> R a b -> R' a b) ->
  StronglySorted R l -> StronglySorted R' l.
Proof.
  induction l as [|x l IH]; intros Himp Hs; [constructor|].
  apply StronglySorted_inv in Hs as [Hs Hx]. constructor.
  - apply IH; [|assumption]. intros a b Ha Hb. apply Himp; now right.
  - rewrite List.Forall_forall in Hx |- *. intros y Hy.
    apply Himp; [now left | now right | now apply Hx].
Qed.

Lemma StronglySorted_snoc {A : Type} (R : A -> A -> Prop) (l : list A) (x : A) :
  StronglySorted R l -> Forall (fun a => R a x) l -> StronglySorted R (l ++ [x]).
Proof.
  induction l as [|y l IH]; intros Hs Hx; simpl.
  - constructor; constructor.
  - apply StronglySorted_inv in Hs as [Hs Hy]. inversion Hx; subst. constructor.
    + now apply IH.
    + apply List.Forall_app. split; [assumption | now constructor].
Qed.

Lemma StronglySorted_map {A B : Type} (f : A -> B) (R : B -> B -> Prop) (l : list A) :
  StronglySorted R (List.map f l) -> StronglySorted (fun a b => R (f a) (f b)) l.
Proof.
  induction l as [|x l IH]; simpl; intros Hs; [constructor|].
  apply StronglySorted_inv in Hs as [Hs Hx]. constructor; [now apply IH|].
  rewrite List.Forall_forall in Hx |- *. intros y Hy. apply Hx.
  now apply in_map.
Qed.

Lemma occurrences_snoc (t x : pystr) (l : list pystr) :
  Query.occurrences t (l ++ [x])
  = Query.occurrences t l + (if str_eqb t x then 1 else 0).
Proof.
  unfold Query.occurrences. rewrite List.filter_app, List.length_app. simpl.
  now destruct (str_eqb t x).
Qed.

Lemma occurrences_notin (t : pystr) (l : list pystr) :
  ~ In t l -> Query.occurrences t l = 0.
Proof.
  unfold Query.occurrences. induction l as [|x l IH]; simpl; [reflexivity|].
  intros H. destruct (str_eqb t x) eqn:E.
  - apply str_eqb_eq in E. subst. exfalso. apply H. now left.
  - apply IH. intros Hin. apply H. now right.
Qed.

Lemma first_index_app (t : pystr) (l l' : list pystr) :
  In t l -> Query.first_index t (l ++ l') = Query.first_index t l.
Proof.
  induction l as [|x l IH]; simpl; [tauto|].
  intros H. destruct (str_eqb x t) eqn:E; [reflexivity|].
  f_equal. apply IH. destruct H as [-> | H]; [|assumption].
  now rewrite str_eqb_refl in E.
Qed.

Lemma first_index_lt (t : pystr) (l : list pystr) :
  In t l -> Query.first_index t l < List.length l.
Proof.
  induction l as [|x l IH]; simpl; [tauto|].
  intros H. destruct (str_eqb x t) eqn:E; [lia|].
  destruct H as [-> | H]; [now rewrite str_eqb_refl in E|].
  specialize (IH H). lia.
Qed.

Lemma first_index_snoc_new (t : pystr) (l : list pystr) :
  ~ In t l -> Query.first_index t (l ++ [t]) = List.length l.
Proof.
  induction l as [|x l IH]; simpl; intros H.
  - now rewrite str_eqb_refl.
  - destruct (str_eqb x t) eqn:E.
    + apply str_eqb_eq in E. subst. exfalso. apply H. now left.
    + f_equal. apply IH. intros Hin. apply H. now right.
Qed.

(** [bump] on a label that is counted already, and on a new label. *)
Lemma bump_hit (t : pystr) (n : nat) (c : list (pystr * nat)) :
  List.NoDup (List.map fst c) -> In (t, n) c ->
  List.map fst (Query.bump t c) = List.map fst c
  /\ forall x m, In (x, m) (Query.bump t c)
                 <-> (x <> t /\ In (x, m) c) \/ (x = t /\ m = n + 1).
Proof.
  induction c as [|[k v] c IH]; simpl; intros Hnd Hin; [contradiction|].
  apply List.NoDup_cons_iff in Hnd as [Hk Hnd].
  destruct (str_eqb k t) eqn:E.
  - apply str_eqb_eq in E. subst k. split; [reflexivity|].
    assert (v = n) as ->.
    { destruct Hin as [[= ->] | Hin]; [reflexivity|].
      exfalso. apply Hk. change t with (fst (t, n)). now apply in_map. }
    intros x m. simpl. split.
    + intros [[= <- <-] | H]; [now right|]. left. split; [|now right].
      intros ->. apply Hk. change t with (fst (t, m)). now apply in_map.
    + intros [[Hne [[= -> ->] | H]] | [-> ->]]; [congruence | now right | now left].
  - apply str_eqb_neq in E.
    destruct Hin as [[= -> ->] | Hin]; [congruence|].
    destruct (IH Hnd Hin) as [IH1 IH2]. split; [simpl; now f_equal|].
    intros x m. simpl. rewrite IH2. split.
    + intros [[= <- <-] | [[Hne H] | H]]; [left; split; [congruence | now left] | | now right].
      left. split; [assumption | now right].
    + intros [[Hne [H | H]] | H]; [now left | right; left; now split | now right; right].
Qed.

Lemma bump_miss (t : pystr) (c : list (pystr * nat)) :
  ~ In t (List.map fst c) -> Query.bump t c = c ++ [(t, 1)].
Proof.
  induction c as [|[k v] c IH]; simpl; intros H; [reflexivity|].
  destruct (str_eqb k t) eqn:E.
  - apply str_eqb_eq in E. subst. exfalso. apply H. now left.
  - f_equal. apply IH. intros Hin. apply H. now right.
Qed.

Lemma tech_counts_snoc (l : list pystr) (t : pystr) :
  Query.tech_counts (l ++ [t]) = Query.bump t (Query.tech_counts l).
Proof. unfold Query.tech_counts. now rewrite fold_left_app. Qed.

(** The counted labels: each label of the input once, with the number of
    its occurrences, in the order in which the labels are first seen. *)
Lemma tech_counts_spec (l : list pystr) :
  List.NoDup (List.map fst (Query.tech_counts l))
  /\ (forall t n, In (t, n) (Query.tech_counts l)
                  <-> In t l /\ n = Query.occurrences t l)
  /\ StronglySorted (fun a b => Query.first_index a l < Query.first_index b l)
                    (List.map fst (Query.tech_counts l)).
Proof.
  induction l as [|t l (Hnd & Hin & Hs)] using rev_ind.
  - split; [constructor|]. split; [|constructor].
    intros t n. simpl. split; [contradiction | now intros [[] _]].
  - rewrite tech_counts_snoc.
    assert (Hkeys : forall k, In k (List.map fst (Query.tech_counts l)) <-> In k l).
    { intros k. rewrite in_map_iff. split.
      - intros ([k' n] & <- & H). now apply Hin in H.
      - intros H. exists (k, Query.occurrences k l). split; [reflexivity|].
        now apply Hin. }
    assert (Hsorted : StronglySorted
                        (fun a b => Query.first_index a (l ++ [t])
                                    < Query.first_index b (l ++ [t]))
                        (List.map fst (Query.tech_counts l))).
    { eapply StronglySorted_weaken; [|exact Hs].
      intros a b Ha Hb. apply Hkeys in Ha, Hb. now rewrite !first_index_app. }
    destruct (str_in t l) eqn:Et;
      [apply str_in_In in Et; rename Et into Ht | apply str_in_false in Et; rename Et into Ht].
    + assert (Hc : In (t, Query.occurrences t l) (Query.tech_counts l)) by now apply Hin.
      destruct (@bump_hit _ _ _ Hnd Hc) as [Hk Hb]. rewrite Hk.
      split; [assumption|]. split; [|assumption].
      intros x m. rewrite Hb, occurrences_snoc, in_app_iff. split.
      * intros [[Hne H] | [-> ->]].
        -- apply str_eqb_neq in Hne. rewrite Hne. apply Hin in H as [H ->].
           split; [now left | lia].
        -- rewrite str_eqb_refl. split; [now left | reflexivity].
      * intros [Hx ->]. destruct (str_eqb x t) eqn:E.
        -- apply str_eqb_eq in E. subst. now right.
        -- apply str_eqb_neq in E. left. split; [assumption|].
           apply Hin. split; [|lia].
           destruct Hx as [Hx | [-> | []]]; [assumption | congruence].
    + assert (Hm : ~ In t (List.map fst (Query.tech_counts l))) by now rewrite Hkeys.
      rewrite (@bump_miss _ _ Hm), List.map_app. simpl. split; [|split].
      * apply List.NoDup_app; [assumption | repeat constructor; simpl; tauto |].
        intros x Hx [<- | []]. contradiction.
      * intros x m. rewrite occurrences_snoc, !in_app_iff. simpl. split.
        -- intros [H | [[= <- <-] | []]].
           ++ apply Hin in H as [Hx ->]. split; [now left|].
              destruct (str_eqb x t) eqn:E; [|lia].
              apply str_eqb_eq in E. subst. contradiction.
           ++ rewrite str_eqb_refl, occurrences_notin by assumption.
              split; [right; now left | reflexivity].
        -- intros [Hx ->]. destruct (str_eqb x t) eqn:E.
           ++ apply str_eqb_eq in E. subst. right. left.
              now rewrite occurrences_notin.
           ++ apply str_eqb_neq in E. left. apply Hin. split; [|lia].
              destruct Hx as [Hx | [-> | []]]; [assumption | congruence].
      * apply StronglySorted_snoc; [assumption|].
        rewrite List.Forall_forall. intros k Hk. apply Hkeys in Hk.
        rewrite first_index_app, first_index_snoc_new by assumption.
        now apply first_index_lt.
Qed.

(* ===================================================================== *)
(** * The query engine *)
(* ===================================================================== *)

Lemma newest_first_nil : Db.newest_first [] = [].
Proof. reflexivity. Qed.

Lemma filter_none {A : Type} (f : A -> bool) (l : list A) :
  (forall x, In x l -> f x = false) -> List.filter f l = [].
Proof.
  induction l as [|x l IH]; simpl; intros H; [reflexivity|].
  rewrite (H x) by now left. apply IH. intros y Hy. apply H. now right.
Qed.

(** The ranking behind the report: the counted labels sorted by
    decreasing count, labels of one count in the order they are first
    seen. *)
Lemma ranking_spec (all_techs : list pystr) :
  let ranking := sorted (fun a b => snd b <=? snd a) (Query.tech_counts all_techs) in
  List.NoDup (List.map fst ranking)
  /\ (forall t n, In (t, n) ranking
                  <-> In t all_techs /\ n = Query.occurrences t all_techs)
  /\ StronglySorted (Query.ranks_before all_techs) ranking.
Proof.
  intros ranking.
  destruct (tech_counts_spec all_techs) as (Hnd & Hin & Hs).
  split; [|split].
  - eapply Permutation_NoDup; [|exact Hnd].
    apply Permutation_map. symmetry. apply sorted_perm.
  - intros t n. unfold ranking. rewrite sorted_In. apply Hin.
  - apply (sorted_before snd (fun a => Query.first_index (fst a) all_techs)).
    exact (@StronglySorted_map _ _ fst
             (fun a b => Query.first_index a all_techs < Query.first_index b all_techs)
             _ Hs).
Qed.

(** The lines of the report, one after the other. *)
Lemma tech_lines_concat (top : list (pystr * nat)) :
  Query.tech_lines top
  = List.concat
      (List.map (fun tc => Query.nl_bullet ++ fst tc ++ py ": " ++ str_of_nat (snd tc)
                           ++ py " repositorio(s)") top).
Proof.
  unfold Query.tech_lines.
  enough (H : forall acc,
             fold_left (fun text tc => text ++ Query.nl_bullet ++ fst tc ++ py ": "
                                       ++ str_of_nat (snd tc) ++ py " repositorio(s)")
                       top acc
             = acc ++ List.concat
                        (List.map (fun tc => Query.nl_bullet ++ fst tc ++ py ": "
                                             ++ str_of_nat (snd tc)
                                             ++ py " repositorio(s)") top))
    by apply (H []).
  induction top as [|tc top IH]; intros acc; cbn [fold_left List.map List.concat].
  - now rewrite app_nil_r.
  - rewrite IH. now rewrite <- app_assoc.
Qed.

Lemma overflow_bound_large : (2 <= overflow_bound)%Z.
Proof. vm_compute. discriminate. Qed.

(** A part of a whole has a percentage: the division does not overflow. *)
Lemma true_div_part (identified total : nat) :
  identified <= total ->
  exists x, true_div identified total = Ok x.
Proof.
  intros Hle. unfold true_div. destruct identified as [|n]; [eauto|].
  pose proof overflow_bound_large as Hb.
  destruct (Z.leb_spec (overflow_bound * Z.of_nat total) (Z.of_nat (S n))) as [H|H];
    [|eauto].
  exfalso. nia.
Qed.

(** The two answers of the statistics handler. *)
Lemma get_general_statistics_cases (online : bool) (st : Db.Store) :
  let all_repos := Db.get_all_repositories online st None in
  let total := List.length all_repos in
  let identified := List.length (List.filter Db.is_identified all_repos) in
  let top := Query.top_techs
               (Query.tech_counts (List.concat (List.map Db.technologies all_repos))) in
  (all_repos = []
   /\ Query._get_general_statistics online st
      = Query.failure (py "No hay repositorios en la base de datos"))
  \/ (exists x,
        all_repos <> [] /\ true_div identified total = Ok x
        /\ Query._get_general_statistics online st
           = Query.answer true
               (Query.stats_text total identified (format_1f (float_mul_int x 100))
                ++ Query.tech_lines top)
               (Query.Statistics total identified top) (Some total)).
Proof.
  cbn zeta. unfold Query._get_general_statistics.
  destruct (Db.get_all_repositories online st None) as [|r rs];
    [left; now split | right].
  destruct (@true_div_part (List.length (List.filter Db.is_identified (r :: rs)))
              (List.length (r :: rs)) (List.filter_length_le _ _)) as [x Hx].
  exists x. split; [discriminate|]. split; [exact Hx|].
  unfold Query.percentage.
  replace (List.length (r :: rs) =? 0) with false by reflexivity.
  rewrite Hx. reflexivity.
Qed.

Section QueryFacts.

Variable online : bool.
Variable st : Db.Store.
Variable sql_lower : pystr -> pystr.
Variable row_order : list Db.Row -> list Db.Row.
Variable api_key : bool.
Variable gemini_model : option (pystr -> result pystr).
Variable model_name : pystr.
Variable save_online : bool.

(** A query whose intent is recognised is answered by the handler of the
    intent, and the store is left as it is. *)
Lemma process_query_intent (q : pystr) (i : Query.Intent) :
  Query.classify_query (strip (lower q)) = Some i ->
  Query.process_natural_language_query
    online st sql_lower row_order api_key gemini_model model_name save_online q
  = (Query.answer_intent online st sql_lower row_order i, st).
Proof.
  intros H. unfold Query.process_natural_language_query, Query._try_pattern_matching.
  now rewrite H.
Qed.

(** The answer of the [unidentified_repos] handler always reports success. *)
Lemma get_unidentified_success :
  Query.success (Query._get_unidentified_repositories online st) = true.
Proof.
  unfold Query._get_unidentified_repositories.
  now destruct (Db.get_unidentified_repositories online st).
Qed.

(** C8: when the [unidentified_repos] intent fires, the answer reports
    success, whatever the store holds; and when every stored record is
    identified, the answer is success with an empty list of results, a
    count of zero and the message that all repositories are identified. *)
Theorem unidentified_intent_all_identified (q : pystr) :
  Query.classify_query (strip (lower q)) = Some Query.UnidentifiedRepos ->
  Query.success
    (fst (Query.process_natural_language_query
            online st sql_lower row_order api_key gemini_model model_name save_online q))
  = true
  /\ ((forall r, In r (Db.rows st) -> Db.is_identified r = true) ->
      fst (Query.process_natural_language_query
             online st sql_lower row_order api_key gemini_model model_name save_online q)
      = {| Query.success := true;
           Query.explanation :=
             Some (py "Todos los repositorios han sido identificados correctamente");
           Query.error := None;
           Query.results := Query.Rows [];
           Query.count := Some 0;
           Query.suggestions := [];
           Query.ai_processed := false |}).
Proof.
  intros H. rewrite (process_query_intent _ H). cbn [fst Query.answer_intent].
  split; [apply get_unidentified_success|].
  intros Hall. unfold Query._get_unidentified_repositories, Db.get_unidentified_repositories.
  destruct online; [|reflexivity].
  rewrite filter_none; [reflexivity|].
  intros r Hr. now rewrite (Hall r Hr).
Qed.

(** C7: when the statistics intent fires and the engine finds no
    repository, the answer is the explanation that there are none: no
    division is performed, and the answer is not the error of one.  When
    it finds some, the answer succeeds and its text is the report written
    out below: the total, the number of identified repositories, their
    percentage of the total (the float nearest to the quotient, times
    100, to one digit after the point), the number of the others, and one
    line for each of the first five entries of the ranking of all
    technology labels by decreasing frequency, labels of one frequency
    in first-seen order. *)
Theorem statistics_intent_report (q : pystr) :
  Query.classify_query (strip (lower q)) = Some Query.GeneralStatistics ->
  let all_repos := Db.get_all_repositories online st None in
  let all_techs := List.concat (List.map Db.technologies all_repos) in
  let total := List.length all_repos in
  let identified := List.length (List.filter Db.is_identified all_repos) in
  (all_repos = [] ->
   fst (Query.process_natural_language_query
          online st sql_lower row_order api_key gemini_model model_name save_online q)
   = {| Query.success := false;
        Query.explanation := Some (py "No hay repositorios en la base de datos");
        Query.error := None;
        Query.results := Query.NoResults;
        Query.count := None;
        Query.suggestions := [];
        Query.ai_processed := false |})
  /\ (all_repos <> [] ->
      exists ranking quotient,
        true_div identified total = Ok quotient
        /\ fst (Query.process_natural_language_query
                  online st sql_lower row_order api_key gemini_model model_name
                  save_online q)
           = {| Query.success := true;
                Query.explanation :=
                  Some ((py "
📊 Estadísticas del CMDB:
• Total de repositorios: " ++ str_of_nat total ++ py "
• Repositorios identificados: " ++ str_of_nat identified ++ py " ("
                         ++ format_1f (float_mul_int quotient 100) ++ py "%)
• Repositorios no identificados: " ++ str_of_nat (total - identified) ++ py "

Tecnologías más populares:")
                        ++ List.concat
                             (List.map (fun entry => py "
• " ++ fst entry ++ py ": " ++ str_of_nat (snd entry) ++ py " repositorio(s)")
                                       (firstn 5 ranking)));
                Query.error := None;
                Query.results := Query.Statistics total identified (firstn 5 ranking);
                Query.count := Some total;
                Query.suggestions := [];
                Query.ai_processed := false |}
        /\ identified <= total
        /\ List.NoDup (List.map fst ranking)
        /\ (forall t n, In (t, n) ranking
                        <-> In t all_techs /\ n = Query.occurrences t all_techs)
        /\ StronglySorted (Query.ranks_before all_techs) ranking).
Proof.
  intros H all_repos all_techs total identified.
  rewrite (process_query_intent _ H). cbn [fst Query.answer_intent].
  unfold Query._get_general_statistics. fold all_repos. split.
  - intros ->. reflexivity.
  - intros Hne.
    assert (Hle : identified <= total) by apply List.filter_length_le.
    destruct (true_div_part Hle) as [x Hx].
    exists (sorted (fun a b => snd b <=? snd a) (Query.tech_counts all_techs)), x.
    split; [exact Hx|]. split; [|split; [exact Hle | apply ranking_spec]].
    fold all_techs total identified.
    destruct all_repos as [|r rs] eqn:E; [congruence|].
    unfold Query.percentage.
    replace (total =? 0) with false by (subst total; reflexivity).
    rewrite Hx. cbn [bind try_except Query.answer].
    rewrite tech_lines_concat. unfold Query.stats_text, Query.top_techs, Query.nl_bullet.
    reflexivity.
Qed.

End QueryFacts.

Lemma unidentified_intent_all_identified_witness :
  Query.classify_query (strip (lower (py "Repositorios no identificados")))
  = Some Query.UnidentifiedRepos
  /\ (forall r, In r (Db.rows Sample.store_octocat) -> Db.is_identified r = true)
  /\ Query.count
       (fst (Query.process_natural_language_query
               true Sample.store_octocat Sample.lower_c Sample.table_order
               false None (py "gemini-1.5-flash") false
               (py "Repositorios no identificados"))) = Some 0.
Proof.
  assert (Hq : Query.classify_query (strip (lower (py "Repositorios no identificados")))
               = Some Query.UnidentifiedRepos) by (vm_compute; reflexivity).
  assert (Hall : forall r, In r (Db.rows Sample.store_octocat) -> Db.is_identified r = true).
  { intros r [<- | []]. reflexivity. }
  split; [exact Hq|]. split; [exact Hall|].
  rewrite (proj2 (unidentified_intent_all_identified
                    true Sample.store_octocat Sample.lower_c Sample.table_order
                    false None (py "gemini-1.5-flash") false
                    (py "Repositorios no identificados") Hq) Hall).
  reflexivity.
Defined.

Lemma statistics_intent_report_witness :
  Query.classify_query (strip (lower (py "Estadísticas del sistema")))
  = Some Query.GeneralStatistics
  /\ Db.get_all_repositories true Sample.store_three None <> []
  /\ exists quotient,
       true_div 2 3 = Ok quotient
       /\ format_1f (float_mul_int quotient 100) = py "66.7"
       /\ Query.count
            (fst (Query.process_natural_language_query
                    true Sample.store_three Sample.lower_c Sample.table_order
                    false None (py "gemini-1.5-flash") false
                    (py "Estadísticas del sistema"))) = Some 3.
Proof.
  assert (Hq : Query.classify_query (strip (lower (py "Estadísticas del sistema")))
               = Some Query.GeneralStatistics) by (vm_compute; reflexivity).
  assert (Hne : Db.get_all_repositories true Sample.store_three None <> [])
    by (vm_compute; discriminate).
  split; [exact Hq|]. split; [exact Hne|].
  destruct (proj2 (statistics_intent_report
                     true Sample.store_three Sample.lower_c Sample.table_order
                     false None (py "gemini-1.5-flash") false
                     (py "Estadísticas del sistema") Hq) Hne)
    as (ranking & quotient & Hx & -> & _).
  exists quotient. split; [exact Hx|]. split; [|reflexivity].
  vm_compute in Hx. injection Hx as <-. vm_compute. reflexivity.
Defined.

(* ===================================================================== *)
(** * Batch scanning *)
(* ===================================================================== *)

Section BatchFacts.

Variable urlparse_path : pystr -> result pystr.
Variable set_iter : list pystr -> list pystr.

Local Abbreviation batch_loop := (Scanner.batch_loop urlparse_path set_iter).

(** A scan writes no progress line. *)
Lemma scan_and_store_progress env u w :
  Scanner.progress (snd (Scanner.scan_and_store_repository urlparse_path set_iter env u w))
  = Scanner.progress w.
Proof.
  unfold Scanner.scan_and_store_repository.
  destruct (Scanner.scan_repository urlparse_path set_iter env u (Scanner.fs w)).
  now destruct (Db.insert_repository _ _ _ _ _ _ _ _ _).
Qed.

(** The progress lines of the loop: one per URL, in the order of the
    input, numbered from [i]. *)
Lemma batch_loop_progress envs n urls : forall i w results,
  Scanner.progress (snd (batch_loop envs n i urls w results))
  = Scanner.progress w
    ++ List.map (fun p => (fst p, n, snd p)) (combine (seq i (List.length urls)) urls).
Proof.
  induction urls as [|u urls IH]; intros i w results; simpl.
  - now rewrite app_nil_r.
  - destruct (Scanner.scan_and_store_repository _ _ _ _ _) as [ok w2] eqn:E.
    rewrite IH.
    replace (Scanner.progress w2) with (Scanner.progress w ++ [(i, n, u)]).
    + now rewrite <- app_assoc.
    + change w2 with (snd (ok, w2)). rewrite <- E.
      now rewrite scan_and_store_progress.
Qed.

(** The entries of the loop: a URL of the input has the entry of its last
    occurrence; any other URL keeps the entry it had. *)
Lemma batch_loop_lookup envs n urls : forall i w (results : gmap pystr Scanner.Outcome) u,
  (~ In u urls -> fst (batch_loop envs n i urls w results) !! u = results !! u)
  /\ (In u urls ->
      exists o j,
        fst (batch_loop envs n i urls w results) !! u = Some o
        /\ Scanner.total o = n
        /\ Scanner.scanned_at o = i + j
        /\ nth_error urls j = Some u
        /\ forall k, j < k -> nth_error urls k <> Some u).
Proof.
  induction urls as [|x urls IH]; intros i w results u.
  - split; [reflexivity | intros []].
  - cbn [Scanner.batch_loop].
    destruct (Scanner.scan_and_store_repository _ _ _ _ _) as [ok w2].
    set (ox := {| Scanner.success := ok; Scanner.scanned_at := i; Scanner.total := n |}).
    destruct (IH (S i) w2 (<[x:=ox]> results) u) as [IHout IHin].
    destruct (str_in u urls) eqn:Eu;
      [apply str_in_In in Eu | apply str_in_false in Eu].
    + split; [intros H; exfalso; apply H; now right|]. intros _.
      destruct (IHin Eu) as (o & j & H1 & H2 & H3 & H4 & H5).
      exists o, (S j). repeat split; [assumption | assumption | lia | assumption |].
      intros [|k] Hk; [lia|]. simpl. apply H5. lia.
    + rewrite (IHout Eu). split.
      * intros H. apply lookup_insert_ne. intros ->. apply H. now left.
      * intros [-> | H]; [|contradiction].
        exists ox, 0. rewrite lookup_insert_eq.
        repeat split; [simpl; lia|].
        intros [|k] Hk; [lia|]. simpl. intros Hn. apply Eu.
        eapply nth_error_In. exact Hn.
Qed.

(** X4: the batch writes one progress line per URL, in the order of the
    input and numbered from one, whatever the outcome of each scan (no
    failure stops the loop); the result has an entry exactly for the URLs
    of the input, and each entry carries the batch size and a position
    (counted from one) at which its URL stands in the input: the last one,
    when the URL occurs more than once. *)
Theorem batch_scan_outcomes envs urls w :
  Scanner.progress
    (snd (Scanner.batch_scan_repositories urlparse_path set_iter envs urls w))
  = Scanner.progress w
    ++ List.map (fun p => (fst p, List.length urls, snd p))
                (combine (seq 1 (List.length urls)) urls)
  /\ (forall u,
        In u urls
        <-> is_Some (fst (Scanner.batch_scan_repositories
                            urlparse_path set_iter envs urls w) !! u))
  /\ (forall u o,
        fst (Scanner.batch_scan_repositories urlparse_path set_iter envs urls w) !! u
        = Some o ->
        Scanner.total o = List.length urls
        /\ 1 <= Scanner.scanned_at o <= List.length urls
        /\ nth_error urls (Scanner.scanned_at o - 1) = Some u
        /\ forall k, Scanner.scanned_at o <= k -> nth_error urls k <> Some u).
Proof.
  unfold Scanner.batch_scan_repositories. split; [apply batch_loop_progress|].
  assert (Hlk := fun u => batch_loop_lookup envs (List.length urls) urls 1 w ∅ u).
  split.
  - intros u. destruct (Hlk u) as [Hout Hin]. split.
    + intros H. destruct (Hin H) as (o & j & H1 & _). now exists o.
    + intros [o Ho]. destruct (str_in u urls) eqn:Eu; [now apply str_in_In|].
      apply str_in_false in Eu. rewrite (Hout Eu), lookup_empty in Ho. discriminate.
  - intros u o Ho. destruct (Hlk u) as [Hout Hin].
    destruct (str_in u urls) eqn:Eu;
      [apply str_in_In in Eu | apply str_in_false in Eu].
    + destruct (Hin Eu) as (o' & j & H1 & H2 & H3 & H4 & H5).
      rewrite Ho in H1. injection H1 as <-.
      assert (j < List.length urls) by (apply nth_error_Some; congruence).
      rewrite H3. replace (1 + j - 1) with j by lia.
      repeat split; [assumption | lia | lia | assumption |].
      intros k Hk. apply H5. lia.
    + rewrite (Hout Eu), lookup_empty in Ho. discriminate.
Qed.

End BatchFacts.

Lemma batch_scan_outcomes_witness :
  fst (Scanner.batch_scan_repositories Sample.plain_path Sample.in_order
         Sample.batch_envs Sample.batch_urls Sample.world_octocat) !! Sample.octocat
  = Some {| Scanner.success := true; Scanner.scanned_at := 3; Scanner.total := 3 |}
  /\ nth_error Sample.batch_urls (3 - 1) = Some Sample.octocat.
Proof.
  assert (H : fst (Scanner.batch_scan_repositories Sample.plain_path Sample.in_order
                     Sample.batch_envs Sample.batch_urls Sample.world_octocat)
              !! Sample.octocat
              = Some {| Scanner.success := true; Scanner.scanned_at := 3;
                        Scanner.total := 3 |}) by (vm_compute; reflexivity).
  split; [exact H|].
  exact (proj1 (proj2 (proj2 (proj2 (proj2
           (batch_scan_outcomes Sample.plain_path Sample.in_order
              Sample.batch_envs Sample.batch_urls Sample.world_octocat))
           Sample.octocat _ H)))).
Defined.

(* ===================================================================== *)
(** * What a match can capture *)
(* ===================================================================== *)

(** Every captured group is made of characters of the text: a property
    of all the characters of the text holds of all the characters of
    every group. *)
Section Captures.

Variable P : N -> Prop.

Local Abbreviation caps_all := (caps_all P).

Lemma Forall_firstn_text (n : nat) (s : pystr) : Forall P s -> Forall P (firstn n s).
Proof.
  revert n; induction s as [|x s IH]; intros [|n] H; simpl; try constructor.
  - now inversion H.
  - apply IH. now inversion H.
Qed.

Lemma star_greedy_suffix p s k res (Q : Prop) :
  Forall P s ->
  (forall s', Forall P s' -> k s' = Some res -> Q) ->
  Re.star_greedy p s k = Some res -> Q.
Proof.
  intros Hs Hk. induction s as [|x s IH]; simpl.
  - now apply Hk.
  - destruct (p x); [|now apply Hk].
    destruct (Re.star_greedy p s k) eqn:E; simpl.
    + intros [= ->]. apply IH; [now inversion Hs | reflexivity].
    + now apply Hk.
Qed.

Lemma plus_greedy_suffix p s k res (Q : Prop) :
  Forall P s ->
  (forall s', Forall P s' -> k s' = Some res -> Q) ->
  Re.plus_greedy p s k = Some res -> Q.
Proof.
  intros Hs Hk. destruct s as [|x s]; simpl; [discriminate|].
  destruct (p x); [|discriminate].
  apply star_greedy_suffix; [now inversion Hs | assumption].
Qed.

Lemma plus_lazy_suffix p s k res (Q : Prop) :
  Forall P s ->
  (forall s', Forall P s' -> k s' = Some res -> Q) ->
  Re.plus_lazy p s k = Some res -> Q.
Proof.
  intros Hs Hk. induction s as [|x s IH]; simpl; [discriminate|].
  destruct (p x); [|discriminate].
  assert (Hs' : Forall P s) by now inversion Hs.
  destruct (k s) eqn:E; simpl.
  - intros [= ->]. now apply (Hk s).
  - now apply IH.
Qed.

Lemma m_caps_all r : forall s c k res,
  Forall P s -> caps_all c ->
  (forall s' c' , Forall P s' -> caps_all c' -> k s' c' = Some res -> caps_all res) ->
  Re.m r s c k = Some res -> caps_all res.
Proof.
  induction r as [|p|a IHa b IHb|a IHa b IHb|a IHa|p|p|i a IHa|];
    intros s c k res Hs Hc Hk; simpl.
  - now apply Hk.
  - destruct s as [|x s]; [discriminate|]. destruct (p x); [|discriminate].
    apply Hk; [now inversion Hs | assumption].
  - apply IHa; [assumption | assumption|].
    intros s1 c1 Hs1 Hc1. now apply IHb.
  - destruct (Re.m a s c k) eqn:E; simpl.
    + intros [= ->]. now apply (IHa s c k).
    + now apply IHb.
  - destruct (Re.m a s c k) eqn:E; simpl.
    + intros [= ->]. now apply (IHa s c k).
    + now apply Hk.
  - apply plus_greedy_suffix; [assumption|]. intros s' Hs'. now apply Hk.
  - apply plus_lazy_suffix; [assumption|]. intros s' Hs'. now apply Hk.
  - apply IHa; [assumption | assumption|].
    intros s' c' Hs' Hc'. apply Hk; [assumption|].
    constructor; [|assumption]. simpl. now apply Forall_firstn_text.
  - destruct (Re.at_end s); [|discriminate]. now apply Hk.
Qed.

Lemma re_search_caps_all r s res :
  Forall P s -> Re.re_search r s = Some res -> caps_all res.
Proof.
  induction s as [|x s IH]; intros Hs; simpl; unfold Re.re_match.
  - destruct (Re.m r [] [] Re.accept) eqn:E; simpl; [|discriminate].
    intros [= <-]. eapply m_caps_all; [exact Hs | constructor | | exact E].
    intros s' c' _ Hc' [= <-]. exact Hc'.
  - destruct (Re.m r (x :: s) [] Re.accept) eqn:E; simpl.
    + intros [= <-]. eapply m_caps_all; [exact Hs | constructor | | exact E].
      intros s' c' _ Hc' [= <-]. exact Hc'.
    + apply IH. now inversion Hs.
Qed.

Lemma group_caps_all i c : caps_all c -> Forall P (Re.group i c).
Proof.
  induction c as [|[j t] c IH]; simpl; intros H; [constructor|].
  inversion H; subst. destruct (Nat.eqb i j); [assumption | now apply IH].
Qed.

Lemma lstrip_by_all p s : Forall P s -> Forall P (lstrip_by p s).
Proof.
  induction s as [|x s IH]; simpl; intros H; [constructor|].
  destruct (p x); [apply IH; now inversion H | assumption].
Qed.

Lemma strip_all s : Forall P s -> Forall P (strip s).
Proof.
  intros H. unfold strip, rstrip_by.
  apply List.Forall_rev, lstrip_by_all, List.Forall_rev. now apply lstrip_by_all.
Qed.

(** The argument of a search: [match.group(1).strip()]. *)
Lemma search_argument_all r s res :
  Forall P s -> Re.re_search r s = Some res -> Forall P (strip (Re.group 1 res)).
Proof.
  intros Hs H. apply strip_all, group_caps_all. now apply (re_search_caps_all r Hs).
Qed.

End Captures.

(* ===================================================================== *)
(** * Lowercased queries *)
(* ===================================================================== *)

(** The argument of a recognised intent is cut out of the lowercased
    query. *)
Lemma intent_argument_lower (q : pystr) (i : Query.Intent) :
  Query.classify_query (strip (lower q)) = Some i ->
  has_upper (Query.intent_argument i) = false.
Proof.
  assert (Hq : Forall (fun c => is_upper c = false) (strip (lower q)))
    by apply strip_all, lower_not_upper.
  revert Hq. generalize (strip (lower q)) as s. intros s Hs.
  unfold Query.classify_query.
  destruct (Re.re_search Query.pattern_repository_owner s) as [c|] eqn:E1.
  { intros [= <-]. apply has_upper_false. exact (search_argument_all _ Hs E1). }
  destruct (Re.re_search Query.pattern_owner_repositories s) as [c|] eqn:E2.
  { intros [= <-]. apply has_upper_false. exact (search_argument_all _ Hs E2). }
  destruct (Re.re_search Query.pattern_technologies_used s) as [c|] eqn:E3.
  { intros [= <-]. apply has_upper_false. exact (search_argument_all _ Hs E3). }
  destruct (Re.re_search Query.pattern_projects_with_technology s) as [c|] eqn:E4.
  { intros [= <-]. apply has_upper_false. exact (search_argument_all _ Hs E4). }
  destruct (Re.re_search Query.pattern_statistics s); [now intros [= <-]|].
  destruct (Re.re_search Query.pattern_unidentified_repos s); [now intros [= <-]|].
  destruct (Re.re_search Query.pattern_repository_count s); [now intros [= <-] | discriminate].
Qed.

(** X1: every argument the pattern matcher extracts from a query has been
    lowercased: it holds no character that [str.lower] changes (no letter
    that has a lowercase form, in any script), because the whole query is
    lowercased before the patterns are tried. *)
Theorem classify_query_argument_lower (q : pystr) (i : Query.Intent) :
  Query.classify_query (strip (lower q)) = Some i ->
  has_upper (Query.intent_argument i) = false.
Proof. apply intent_argument_lower. Qed.

(** The two exact-match lookups. *)
Lemma get_repositories_by_owner_In online st owner r :
  In r (Db.get_repositories_by_owner online st owner)
  <-> online = true /\ In r (Db.rows st) /\ Db.owner_name r = owner.
Proof.
  unfold Db.get_repositories_by_owner, Db.by_repo_name.
  destruct online.
  - rewrite sorted_In, filter_In, str_eqb_eq. tauto.
  - simpl. split; [tauto | now intros [? _]].
Qed.

Lemma get_repositories_by_technology_In online st tech r :
  In r (Db.get_repositories_by_technology online st tech)
  <-> online = true /\ In r (Db.rows st) /\ In tech (Db.technologies r).
Proof.
  unfold Db.get_repositories_by_technology, Db.by_owner_then_repo.
  destruct online.
  - rewrite sorted_In, filter_In, str_in_In. tauto.
  - simpl. split; [tauto | now intros [? _]].
Qed.

Lemma no_rows_matching {A : Type} (l : list A) : (forall x, ~ In x l) -> l = [].
Proof.
  destruct l as [|x l]; [reflexivity|]. intros H. destruct (H x). now left.
Qed.

(** Every label of the catalog has an uppercase letter, so every label the
    classifier produces has one. *)
Lemma catalog_labels_upper :
  forallb (fun entry => has_upper (fst entry)) Scanner.technology_patterns = true.
Proof. vm_compute. reflexivity. Qed.

Lemma classifier_labels_upper walked manifest l :
  In l (Scanner.scan_directory_for_technologies walked manifest) -> has_upper l = true.
Proof.
  unfold Scanner.scan_directory_for_technologies.
  destruct walked as [t|e]; cbn [bind try_except]; [|intros []].
  rewrite scan_catalog_In. intros (pats & Hin & _).
  pose proof catalog_labels_upper as H. rewrite forallb_forall in H.
  exact (H _ Hin).
Qed.

Section LowercaseLookups.

Variable online : bool.
Variable st : Db.Store.
Variable sql_lower : pystr -> pystr.
Variable row_order : list Db.Row -> list Db.Row.
Variable api_key : bool.
Variable gemini_model : option (pystr -> result pystr).
Variable model_name : pystr.
Variable save_online : bool.

(** X2: the [owner_repositories] intent looks the owner up by an exact,
    case-sensitive match on a lowercased argument: no row it returns has
    in its owner name a character that [str.lower] changes, and when every
    stored owner name has one the answer is the not-found failure. *)
Theorem owner_intent_misses_uppercase (q a : pystr) :
  Query.classify_query (strip (lower q)) = Some (Query.OwnerRepositories a) ->
  (forall r, In r (Db.get_repositories_by_owner online st a) ->
             has_upper (Db.owner_name r) = false)
  /\ ((forall r, In r (Db.rows st) -> has_upper (Db.owner_name r) = true) ->
      fst (Query.process_natural_language_query
             online st sql_lower row_order api_key gemini_model model_name save_online q)
      = Query.failure (py "No encontré repositorios para el propietario "
                       ++ Query.quoted a)).
Proof.
  intros H. pose proof (intent_argument_lower _ H) as Ha. cbn in Ha.
  assert (Hrows : forall r, In r (Db.get_repositories_by_owner online st a) ->
                            has_upper (Db.owner_name r) = false).
  { intros r Hr. apply get_repositories_by_owner_In in Hr as (_ & _ & ->). exact Ha. }
  split; [exact Hrows|]. intros Hall.
  rewrite (process_query_intent _ _ _ _ _ _ _ _ _ H). cbn [fst Query.answer_intent].
  unfold Query._find_repositories_by_owner.
  rewrite (@no_rows_matching _ (Db.get_repositories_by_owner online st a)); [reflexivity|].
  intros r Hr. pose proof (Hrows r Hr) as Hlow.
  apply get_repositories_by_owner_In in Hr as (_ & Hin & _).
  rewrite (Hall r Hin) in Hlow. discriminate.
Qed.

(** X3: the [projects_with_technology] intent tests membership of the
    lowercased argument in the stored labels: every row it returns has a
    label without any character that [str.lower] changes, and when every
    stored label has such a character (as every label the classifier
    produces has: each begins with a capital) the answer is the not-found
    failure. *)
Theorem technology_intent_misses_uppercase (q t : pystr) :
  Query.classify_query (strip (lower q)) = Some (Query.ProjectsWithTechnology t) ->
  (forall r, In r (Db.get_repositories_by_technology online st t) ->
             exists l, In l (Db.technologies r) /\ has_upper l = false)
  /\ ((forall r l, In r (Db.rows st) -> In l (Db.technologies r) -> has_upper l = true) ->
      fst (Query.process_natural_language_query
             online st sql_lower row_order api_key gemini_model model_name save_online q)
      = Query.failure (py "No encontré repositorios que usen " ++ Query.quoted t))
  /\ (forall walked manifest l,
        In l (Scanner.scan_directory_for_technologies walked manifest) ->
        has_upper l = true).
Proof.
  intros H. pose proof (intent_argument_lower _ H) as Ht. cbn in Ht.
  assert (Hrows : forall r, In r (Db.get_repositories_by_technology online st t) ->
                            exists l, In l (Db.technologies r) /\ has_upper l = false).
  { intros r Hr. apply get_repositories_by_technology_In in Hr as (_ & _ & Hr).
    now exists t. }
  split; [exact Hrows|]. split; [|apply classifier_labels_upper]. intros Hall.
  rewrite (process_query_intent _ _ _ _ _ _ _ _ _ H). cbn [fst Query.answer_intent].
  unfold Query._find_projects_with_technology.
  rewrite (@no_rows_matching _ (Db.get_repositories_by_technology online st t));
    [reflexivity|].
  intros r Hr. destruct (Hrows r Hr) as (l & Hl & Hlow).
  apply get_repositories_by_technology_In in Hr as (_ & Hin & _).
  rewrite (Hall r l Hin Hl) in Hlow. discriminate.
Qed.

End LowercaseLookups.

Lemma classify_query_argument_lower_witness :
  Query.classify_query (strip (lower (py "Repositorios de Alice")))
  = Some (Query.OwnerRepositories (py "alice"))
  /\ has_upper (py "alice") = false.
Proof.
  assert (H : Query.classify_query (strip (lower (py "Repositorios de Alice")))
              = Some (Query.OwnerRepositories (py "alice"))) by (vm_compute; reflexivity).
  split; [exact H|].
  exact (classify_query_argument_lower (py "Repositorios de Alice") H).
Defined.

Lemma owner_intent_misses_uppercase_witness :
  Query.classify_query (strip (lower (py "Repositorios de Alice")))
  = Some (Query.OwnerRepositories (py "alice"))
  /\ (forall r, In r (Db.rows Sample.store_alice) -> has_upper (Db.owner_name r) = true)
  /\ Query.success
       (fst (Query.process_natural_language_query
               true Sample.store_alice Sample.lower_c Sample.table_order false None (py "gemini-1.5-flash") false
               (py "Repositorios de Alice"))) = false.
Proof.
  assert (H : Query.classify_query (strip (lower (py "Repositorios de Alice")))
              = Some (Query.OwnerRepositories (py "alice"))) by (vm_compute; reflexivity).
  assert (Hall : forall r, In r (Db.rows Sample.store_alice) ->
                           has_upper (Db.owner_name r) = true).
  { intros r [<- | [<- | []]]; vm_compute; reflexivity. }
  split; [exact H|]. split; [exact Hall|].
  rewrite (proj2 (owner_intent_misses_uppercase
                    true Sample.store_alice Sample.lower_c Sample.table_order false None
                    (py "gemini-1.5-flash") false (py "Repositorios de Alice") H) Hall).
  reflexivity.
Defined.

Lemma technology_intent_misses_uppercase_witness :
  Query.classify_query (strip (lower (py "¿Qué proyectos usan Python?")))
  = Some (Query.ProjectsWithTechnology (py "python"))
  /\ In (py "Python") (Db.technologies (Sample.row 2 "Alice" "web" [py "Python"; py "Docker"]))
  /\ Query.success
       (fst (Query.process_natural_language_query
               true Sample.store_alice Sample.lower_c Sample.table_order false None (py "gemini-1.5-flash") false
               (py "¿Qué proyectos usan Python?"))) = false.
Proof.
  assert (H : Query.classify_query (strip (lower (py "¿Qué proyectos usan Python?")))
              = Some (Query.ProjectsWithTechnology (py "python")))
    by (vm_compute; reflexivity).
  assert (Hall : forall r l, In r (Db.rows Sample.store_alice) ->
                             In l (Db.technologies r) -> has_upper l = true).
  { intros r l [<- | [<- | []]] [<- | [<- | []]]; vm_compute; reflexivity. }
  split; [exact H|]. split; [now left|].
  rewrite (proj1 (proj2 (technology_intent_misses_uppercase
                           true Sample.store_alice Sample.lower_c Sample.table_order false None
                           (py "gemini-1.5-flash") false (py "¿Qué proyectos usan Python?") H))
             Hall).
  reflexivity.
Defined.

(* ===================================================================== *)
(** * More on the scan orchestrator *)
(* ===================================================================== *)

Lemma filter_out_notin (d : pystr) (l : list pystr) :
  ~ In d l -> List.filter (fun x => negb (str_eqb x d)) l = l.
Proof.
  induction l as [|x l IH]; simpl; intros H; [reflexivity|].
  destruct (str_eqb x d) eqn:E.
  - apply str_eqb_eq in E. subst. exfalso. apply H. now left.
  - simpl. f_equal. apply IH. intros Hin. apply H. now right.
Qed.

Lemma str_in_filter_other (d x : pystr) (l : list pystr) :
  x <> d -> str_in x (List.filter (fun y => negb (str_eqb y d)) l) = str_in x l.
Proof.
  intros Hne. destruct (str_in x l) eqn:E.
  - apply str_in_In. apply str_in_In in E. apply filter_In. split; [assumption|].
    apply str_eqb_neq in Hne. now rewrite Hne.
  - apply str_in_false. apply str_in_false in E. intros H. apply E.
    now apply filter_In in H.
Qed.

Lemma str_in_cons_other (d x : pystr) (l : list pystr) :
  x <> d -> str_in x (d :: l) = str_in x l.
Proof.
  intros Hne. unfold str_in. simpl. apply str_eqb_neq in Hne. now rewrite Hne.
Qed.

Section ScanMore.

Variable urlparse_path : pystr -> result pystr.
Variable set_iter : list pystr -> list pystr.

(** X5: the record of a scan carries an explanation exactly when no
    technology was identified: on the error and clone-failed exits and on
    an analysis that found nothing, never beside identified
    technologies. *)
Theorem scan_repository_explanation_iff env u fs0 :
  Scanner.ai_explanation (fst (Scanner.scan_repository urlparse_path set_iter env u fs0))
  = None
  <-> Scanner.is_identified
        (fst (Scanner.scan_repository urlparse_path set_iter env u fs0)) = true.
Proof.
  destruct (scan_repository_cases env) as [[e H] | [(r & H1 & H2) | (r & H1 & H2)]].
  - rewrite (scan_repository_error _ _ _ _ _ H). simpl. split; discriminate.
  - rewrite (scan_repository_clone_failed _ _ _ _ _ H1 H2). simpl. split; discriminate.
  - rewrite (scan_repository_analyzed _ _ _ _ _ H1 H2).
    cbn [fst Scanner.ai_explanation Scanner.is_identified].
    destruct (0 <? List.length _); split; intros; try easy; discriminate.
Qed.

(** X6: the status of the record tells which step ended the scan:
    ['error'] exactly when the scratch directory could not be created,
    ['clone_failed'] exactly when it was created and the clone failed,
    ['analyzed'] exactly when both succeeded. *)
Theorem scan_repository_status env u fs0 :
  (Scanner.status (fst (Scanner.scan_repository urlparse_path set_iter env u fs0))
   = py "error"
   <-> exists e, Scanner.mkdtemp env = Raise e)
  /\ (Scanner.status (fst (Scanner.scan_repository urlparse_path set_iter env u fs0))
      = py "clone_failed"
      <-> (exists random, Scanner.mkdtemp env = Ok random)
          /\ Scanner.clone_repository (Scanner.git_clone env) = false)
  /\ (Scanner.status (fst (Scanner.scan_repository urlparse_path set_iter env u fs0))
      = py "analyzed"
      <-> (exists random, Scanner.mkdtemp env = Ok random)
          /\ Scanner.clone_repository (Scanner.git_clone env) = true).
Proof.
  assert (D1 : py "error" <> py "clone_failed") by (vm_compute; discriminate).
  assert (D2 : py "error" <> py "analyzed") by (vm_compute; discriminate).
  assert (D3 : py "clone_failed" <> py "analyzed") by (vm_compute; discriminate).
  destruct (scan_repository_cases env) as [[e H] | [(r & H1 & H2) | (r & H1 & H2)]].
  - rewrite (scan_repository_error _ _ _ _ _ H). cbn [fst Scanner.status].
    repeat split; eauto; try congruence;
      intros [[r Hr] _]; congruence.
  - rewrite (scan_repository_clone_failed _ _ _ _ _ H1 H2). cbn [fst Scanner.status].
    repeat split; eauto; try congruence.
    + intros [e He]. congruence.
    + intros [_ Hc]. congruence.
  - rewrite (scan_repository_analyzed _ _ _ _ _ H1 H2). cbn [fst Scanner.status].
    repeat split; eauto; try congruence.
    + intros [e He]. congruence.
    + intros [_ Hc]. congruence.
Qed.

(** X7: a scan touches no scratch directory but its own; when the new
    directory's name is fresh and [shutil.rmtree] succeeds, the scratch
    directories are afterwards exactly what they were before; and a scan
    that could not create its directory leaves them as they were. *)
Theorem scan_repository_scratch env u fs0 :
  (forall d, (forall random, Scanner.mkdtemp env = Ok random ->
                             d <> Scanner.temp_path random) ->
             str_in d (snd (Scanner.scan_repository urlparse_path set_iter env u fs0))
             = str_in d fs0)
  /\ (forall random x,
        Scanner.mkdtemp env = Ok random -> Scanner.rmtree env = Ok x ->
        ~ In (Scanner.temp_path random) fs0 ->
        snd (Scanner.scan_repository urlparse_path set_iter env u fs0) = fs0)
  /\ (forall e, Scanner.mkdtemp env = Raise e ->
                snd (Scanner.scan_repository urlparse_path set_iter env u fs0) = fs0).
Proof.
  assert (Hsnd : forall random, Scanner.mkdtemp env = Ok random ->
            snd (Scanner.scan_repository urlparse_path set_iter env u fs0)
            = Scanner.cleanup env (Some (Scanner.temp_path random))
                              (Scanner.temp_path random :: fs0)).
  { intros random H1.
    destruct (Scanner.clone_repository (Scanner.git_clone env)) eqn:H2.
    - now rewrite (scan_repository_analyzed _ _ _ _ _ H1 H2).
    - now rewrite (scan_repository_clone_failed _ _ _ _ _ H1 H2). }
  split; [|split].
  - intros d Hd. destruct (Scanner.mkdtemp env) as [random|e] eqn:H1.
    + rewrite (Hsnd random eq_refl). specialize (Hd random eq_refl).
      unfold Scanner.cleanup.
      destruct (Scanner.nonempty _ && str_in _ _);
        [destruct (Scanner.rmtree env)|];
        rewrite ?str_in_filter_other by assumption; now apply str_in_cons_other.
    + now rewrite (scan_repository_error _ _ _ _ _ H1).
  - intros random x H1 Hx Hfresh. rewrite (Hsnd random H1).
    unfold Scanner.cleanup. rewrite temp_path_nonempty, Hx.
    unfold str_in at 1. cbn [existsb]. rewrite str_eqb_refl. cbn [orb andb List.filter].
    rewrite str_eqb_refl. cbn [negb]. now apply filter_out_notin.
  - intros e H1. now rewrite (scan_repository_error _ _ _ _ _ H1).
Qed.

End ScanMore.

Lemma scan_repository_scratch_witness :
  Scanner.mkdtemp Sample.env_timeout = Ok (py "k3x9")
  /\ Scanner.rmtree Sample.env_timeout = Ok tt
  /\ ~ In (Scanner.temp_path (py "k3x9")) [py "/tmp/cmdb_repo_older"]
  /\ snd (Scanner.scan_repository Sample.plain_path Sample.in_order
            Sample.env_timeout Sample.octocat [py "/tmp/cmdb_repo_older"])
     = [py "/tmp/cmdb_repo_older"].
Proof.
  assert (Hfresh : ~ In (Scanner.temp_path (py "k3x9")) [py "/tmp/cmdb_repo_older"]).
  { intros [H | []]. vm_compute in H. discriminate. }
  split; [reflexivity|]. split; [reflexivity|]. split; [exact Hfresh|].
  exact (proj1 (proj2 (scan_repository_scratch Sample.plain_path Sample.in_order
                         Sample.env_timeout Sample.octocat [py "/tmp/cmdb_repo_older"]))
           (py "k3x9") tt eq_refl eq_refl Hfresh).
Defined.

(* ===================================================================== *)
(** * More on the classifier *)
(* ===================================================================== *)

(** The outer loop keeps its result free of repetitions and in the order
    of the catalog. *)
Lemma scan_catalog_from_ordered catalog manifest files : forall acc done,
  List.NoDup acc -> acc `sublist_of` done ->
  List.NoDup (fold_left (fun a entry =>
                           Scanner.scan_patterns manifest files (fst entry) (snd entry) a)
                        catalog acc)
  /\ fold_left (fun a entry =>
                  Scanner.scan_patterns manifest files (fst entry) (snd entry) a)
               catalog acc
     `sublist_of` done ++ List.map fst catalog.
Proof.
  induction catalog as [|[tech pats] catalog IH]; intros acc done Hnd Hsub; simpl.
  - split; [assumption | now rewrite app_nil_r].
  - rewrite scan_patterns_spec.
    replace (done ++ tech :: List.map fst catalog)
      with ((done ++ [tech]) ++ List.map fst catalog) by now rewrite <- app_assoc.
    destruct (existsb (Scanner._matches_pattern files) pats
              && negb (str_in tech acc)
              && Scanner._validate_technology tech manifest files) eqn:E.
    + apply IH.
      * apply andb_true_iff in E as [E _]. apply andb_true_iff in E as [_ E].
        apply negb_true_iff, str_in_false in E.
        apply List.NoDup_app; [assumption | repeat constructor; simpl; tauto |].
        intros x Hx [<- | []]. contradiction.
      * now apply sublist_app.
    + apply IH; [assumption | now apply sublist_inserts_r].
Qed.

(** X8: the technologies [scan_directory_for_technologies] returns are
    free of repetitions and listed in the order of the catalog. *)
Theorem scan_directory_labels_ordered walked manifest :
  List.NoDup (Scanner.scan_directory_for_technologies walked manifest)
  /\ Scanner.scan_directory_for_technologies walked manifest
     `sublist_of` List.map fst Scanner.technology_patterns.
Proof.
  unfold Scanner.scan_directory_for_technologies.
  destruct walked as [t|e]; cbn [bind try_except].
  - unfold Scanner.scan_catalog.
    apply (scan_catalog_from_ordered Scanner.technology_patterns manifest
             (Scanner.walk Scanner.keep_classify [] t) (acc := []) (done := []));
      [constructor | apply sublist_nil_l].
  - split; [constructor | apply sublist_nil_l].
Qed.



Lemma android_entry (pats : list pystr) :
  In (py "Android", pats) Scanner.technology_patterns
  <-> pats = [py "build.gradle"; py "AndroidManifest.xml"].
Proof.
  split.
  - intros H. vm_compute in H.
    repeat (destruct H as [H | H]; [try discriminate H|]); try contradiction.
    injection H as <-. vm_compute. reflexivity.
  - intros ->. vm_compute. tauto.
Qed.

Lemma csharp_entry (pats : list pystr) :
  In (py "C#", pats) Scanner.technology_patterns
  <-> pats = [py "*.csproj"; py "*.sln"; py "packages.config"; py "project.json"].
Proof.
  split.
  - intros H. vm_compute in H.
    repeat (destruct H as [H | H]; [try discriminate H|]); try contradiction.
    injection H as <-. vm_compute. reflexivity.
  - intros ->. vm_compute. tauto.
Qed.

Lemma validate_android manifest files :
  Scanner._validate_technology (py "Android") manifest files
  = existsb (contains (py "AndroidManifest.xml")) files.
Proof.
  unfold Scanner._validate_technology, Scanner.validate_technology_body.
  assert (E : str_eqb (py "Android") (py "React") = false) by (vm_compute; reflexivity).
  now rewrite E, str_eqb_refl.
Qed.

Lemma validate_csharp manifest files :
  Scanner._validate_technology (py "C#") manifest files
  = existsb (endswith (py ".cs")) files.
Proof.
  unfold Scanner._validate_technology, Scanner.validate_technology_body.
  assert (E1 : str_eqb (py "C#") (py "React") = false) by (vm_compute; reflexivity).
  assert (E2 : str_eqb (py "C#") (py "Android") = false) by (vm_compute; reflexivity).
  now rewrite E1, E2, str_eqb_refl.
Qed.

(** X10: Android is accepted exactly when one of its two signatures
    matches and the name [AndroidManifest.xml] occurs in some listed path;
    C# is accepted exactly when one of its four signatures matches and some
    listed path ends in [.cs]. *)
Theorem guarded_technologies walked manifest :
  (In (py "Android") (Scanner.scan_directory_for_technologies (Ok walked) manifest)
   <-> existsb (Scanner._matches_pattern (Scanner.walk Scanner.keep_classify [] walked))
               [py "build.gradle"; py "AndroidManifest.xml"] = true
       /\ existsb (contains (py "AndroidManifest.xml"))
                  (Scanner.walk Scanner.keep_classify [] walked) = true)
  /\ (In (py "C#") (Scanner.scan_directory_for_technologies (Ok walked) manifest)
      <-> existsb (Scanner._matches_pattern (Scanner.walk Scanner.keep_classify [] walked))
                  [py "*.csproj"; py "*.sln"; py "packages.config"; py "project.json"] = true
          /\ existsb (endswith (py ".cs"))
                     (Scanner.walk Scanner.keep_classify [] walked) = true).
Proof.
  unfold Scanner.scan_directory_for_technologies. cbn [bind try_except].
  rewrite !scan_catalog_In. split; split.
  - intros (pats & Hin & Hm & Hv). apply android_entry in Hin. subst.
    rewrite validate_android in Hv. now split.
  - intros [Hm Hv]. eexists. split; [now apply android_entry|].
    rewrite validate_android. now split.
  - intros (pats & Hin & Hm & Hv). apply csharp_entry in Hin. subst.
    rewrite validate_csharp in Hv. now split.
  - intros [Hm Hv]. eexists. split; [now apply csharp_entry|].
    rewrite validate_csharp. now split.
Qed.

(* ===================================================================== *)
(** * Signatures are suffix tests *)
(* ===================================================================== *)

Lemma endswith_split (p s : pystr) :
  endswith p s = true <-> exists pre, s = pre ++ p.
Proof.
  unfold endswith. rewrite startswith_split. split.
  - intros [t H]. exists (rev t).
    rewrite <- (rev_involutive s), H, rev_app_distr. now rewrite rev_involutive.
  - intros [pre ->]. exists (rev pre). now rewrite rev_app_distr.
Qed.

Lemma endswith_refl (p : pystr) : endswith p p = true.
Proof. apply endswith_split. now exists []. Qed.

Lemma plain_text_cons (c : N) (lit : pystr) :
  plain_text (c :: lit) = true ->
  (c =? Scanner.star)%N = false /\ (c =? Scanner.qmark)%N = false
  /\ (c =? Scanner.lbracket)%N = false /\ plain_text lit = true.
Proof.
  unfold plain_text, has_char. cbn [existsb]. intros H.
  apply andb_true_iff in H as [H H3]. apply andb_true_iff in H as [H1 H2].
  apply negb_true_iff, orb_false_iff in H1 as [H1 H1'].
  apply negb_true_iff, orb_false_iff in H2 as [H2 H2'].
  apply negb_true_iff, orb_false_iff in H3 as [H3 H3'].
  rewrite (N.eqb_sym c), H1, (N.eqb_sym c), H2, (N.eqb_sym c), H3.
  repeat split. now rewrite H1', H2', H3'.
Qed.

(** Plain text is translated character by character. *)
Lemma translate_from_plain (lit : pystr) : forall fuel,
  plain_text lit = true -> List.length lit <= fuel ->
  Scanner.translate_from fuel lit = List.map Scanner.GChar lit.
Proof.
  induction lit as [|c lit IH]; intros fuel Hp Hf.
  - now destruct fuel.
  - destruct fuel as [|fuel]; [cbn in Hf; lia|].
    apply plain_text_cons in Hp as (H1 & H2 & H3 & Hp).
    cbn [Scanner.translate_from List.map]. rewrite H1, H2, H3.
    f_equal. apply IH; [exact Hp | cbn in Hf; lia].
Qed.

Lemma glob_match_plain (lit name : pystr) :
  Scanner.glob_match (List.map Scanner.GChar lit) name = str_eqb lit name.
Proof.
  revert name; induction lit as [|c lit IH]; intros name.
  - now destruct name.
  - cbn [List.map Scanner.glob_match str_eqb].
    destruct name as [|x name]; [reflexivity|].
    cbn [Scanner.glob_one]. rewrite (N.eqb_sym x c). f_equal. apply IH.
Qed.

(** A pattern of plain text matches its own text only. *)
Lemma fnmatch_pat_plain (lit name : pystr) :
  plain_text lit = true ->
  Scanner.fnmatch_pat lit name = str_eqb lit name.
Proof.
  intros Hp. unfold Scanner.fnmatch_pat, Scanner.translate.
  rewrite translate_from_plain by (assumption || lia). apply glob_match_plain.
Qed.

(** A star followed by plain text matches the names that end in the text. *)
Lemma fnmatch_star_plain (lit name : pystr) :
  plain_text lit = true ->
  Scanner.fnmatch name (Scanner.star :: lit) = endswith lit name.
Proof.
  intros Hp. unfold Scanner.fnmatch, Scanner.fnmatch_pat, Scanner.translate.
  cbn [List.length Scanner.translate_from]. rewrite N.eqb_refl.
  rewrite translate_from_plain by (assumption || lia).
  cbn [Scanner.glob_match].
  assert (H : forall name,
             (fix any (name : pystr) : bool :=
                Scanner.glob_match (List.map Scanner.GChar lit) name
                || match name with [] => false | _ :: name' => any name' end) name = true
             <-> exists pre, name = pre ++ lit).
  { clear name. induction name as [|x name IH].
    - rewrite orb_false_r, glob_match_plain, str_eqb_eq. split.
      + intros ->. now exists [].
      + intros [pre H]. symmetry in H. apply app_eq_nil in H as [_ ->]. reflexivity.
    - rewrite orb_true_iff, IH, glob_match_plain, str_eqb_eq. split.
      + intros [-> | [pre ->]]; [now exists [] | now exists (x :: pre)].
      + intros [[|y pre] H]; [left; now rewrite H | right].
        injection H as -> ->. now exists pre. }
  destruct (endswith lit name) eqn:E.
  - apply H. now apply endswith_split.
  - destruct ((fix any (name : pystr) : bool := _) name) eqn:E'; [|reflexivity].
    apply H, endswith_split in E'. congruence.
Qed.

Lemma existsb_ext_in {A : Type} (f g : A -> bool) (l : list A) :
  (forall x, f x = g x) -> existsb f l = existsb g l.
Proof.
  intros H. induction l as [|x l IH]; simpl; [reflexivity|]. now rewrite H, IH.
Qed.

(** X11: every signature is a test on the end of a path.  A signature
    of plain text (no star, no question mark, no opening bracket) matches
    when some listed path ends in it (so a file whose name merely ends in
    the signature matches too), a star followed by plain text matches
    when some listed path, in any directory, ends in the text; and every
    signature of the catalog has one of these two shapes. *)
Theorem signatures_are_suffix_tests (files : list pystr) (lit : pystr) :
  plain_text lit = true ->
  Scanner._matches_pattern files lit = existsb (endswith lit) files
  /\ Scanner._matches_pattern files (Scanner.star :: lit) = existsb (endswith lit) files
  /\ forallb (fun entry =>
                forallb (fun p => plain_text p
                                  || match p with
                                     | c :: lit' => (c =? Scanner.star)%N && plain_text lit'
                                     | [] => false
                                     end) (snd entry))
             Scanner.technology_patterns = true.
Proof.
  intros Hp.
  assert (Hs : has_char Scanner.star lit = false).
  { unfold plain_text in Hp. apply andb_true_iff in Hp as [Hp _].
    apply andb_true_iff in Hp as [Hp _]. now apply negb_true_iff in Hp. }
  split; [|split].
  - unfold Scanner._matches_pattern. rewrite Hs.
    destruct (str_in lit files) eqn:E; [|reflexivity]. simpl. symmetry.
    apply existsb_exists. exists lit. split; [now apply str_in_In | apply endswith_refl].
  - unfold Scanner._matches_pattern, has_char. cbn [existsb]. rewrite N.eqb_refl.
    cbn [orb]. apply existsb_ext_in. intros f. now apply fnmatch_star_plain.
  - vm_compute. reflexivity.
Qed.


Lemma signatures_are_suffix_tests_witness :
  plain_text (py "package.json") = true
  /\ Scanner._matches_pattern [py "docs/mypackage.json"] (py "package.json") = true.
Proof.
  assert (Hp : plain_text (py "package.json") = true) by (vm_compute; reflexivity).
  split; [exact Hp|].
  rewrite (proj1 (signatures_are_suffix_tests [py "docs/mypackage.json"]
                    (py "package.json") Hp)).
  vm_compute. reflexivity.
Defined.

(* ===================================================================== *)
(** * More on the store *)
(* ===================================================================== *)

Lemma find_snoc {A : Type} (f : A -> bool) (l : list A) (x : A) :
  List.find f l = None -> List.find f (l ++ [x]) = if f x then Some x else None.
Proof.
  induction l as [|y l IH]; simpl; [reflexivity|].
  destruct (f y); [discriminate | exact IH].
Qed.

Lemma find_url_eq (u : pystr) (l : list Db.Row) (r : Db.Row) :
  List.find (fun r => str_eqb (Db.url r) u) l = Some r -> In r l /\ Db.url r = u.
Proof.
  intros H. apply find_some in H as [Hin E]. apply str_eqb_eq in E. now split.
Qed.

(** The row found under a URL after an insert for it. *)
Lemma insert_repository_lookup st u owner repo techs identified stat expl :
  exists r,
    Db.get_repository_by_url true
      (snd (Db.insert_repository true st u owner repo techs identified stat expl)) u
    = Some r
    /\ fst (Db.insert_repository true st u owner repo techs identified stat expl)
       = Some (Db.id r)
    /\ Db.url r = u /\ Db.owner_name r = owner /\ Db.repo_name r = repo
    /\ Db.technologies r = Db.or_empty techs /\ Db.is_identified r = identified
    /\ Db.status r = stat /\ Db.ai_explanation r = expl.
Proof.
  unfold Db.get_repository_by_url, Db.insert_repository.
  set (new := {| Db.id := Db.next_id st; Db.url := u |}).
  destruct (List.find (fun r => str_eqb (Db.url r) (Db.url new)) (Db.rows st))
    as [old|] eqn:E.
  - destruct (upsert_conflict new (Db.rows st) E) as (H1 & H2 & _).
    destruct (Db.upsert new (Db.rows st)) as [rid rows']. cbn [fst snd Db.rows] in *.
    exists (Db.do_update old new). split; [exact H2|].
    apply find_url_eq in E as [_ E]. cbn in E |- *. subst rid.
    repeat split. exact E.
  - rewrite (upsert_fresh new (Db.rows st) E). cbn [fst snd Db.rows].
    exists new. split.
    + change u with (Db.url new) at 1. rewrite (find_snoc _ _ new E).
      now rewrite str_eqb_refl.
    + repeat split.
Qed.

(** X12: a record written by [insert_repository] is read back by
    [get_repository_by_url] under the same URL, with the columns that were
    given ([technologies=None] stored as the empty list) and the identifier
    the insert returned, whether the URL was new or not; an insert that does
    not reach the database returns [None] and changes nothing. *)
Theorem insert_then_lookup st u owner repo techs identified stat expl :
  (exists r,
      Db.get_repository_by_url true
        (snd (Db.insert_repository true st u owner repo techs identified stat expl)) u
      = Some r
      /\ fst (Db.insert_repository true st u owner repo techs identified stat expl)
         = Some (Db.id r)
      /\ Db.url r = u /\ Db.owner_name r = owner /\ Db.repo_name r = repo
      /\ Db.technologies r = Db.or_empty techs /\ Db.is_identified r = identified
      /\ Db.status r = stat /\ Db.ai_explanation r = expl)
  /\ Db.insert_repository false st u owner repo techs identified stat expl = (None, st).
Proof.
  split; [apply insert_repository_lookup | reflexivity].
Qed.

(** X13: [insert_repository] changes the record of no other URL. *)
Theorem insert_keeps_other_urls online st u owner repo techs identified stat expl u' :
  u' <> u ->
  Db.get_repository_by_url true
    (snd (Db.insert_repository online st u owner repo techs identified stat expl)) u'
  = Db.get_repository_by_url true st u'.
Proof.
  intros Hne. unfold Db.get_repository_by_url, Db.insert_repository.
  destruct online; [|reflexivity].
  set (new := {| Db.id := Db.next_id st; Db.url := u |}).
  pose proof (@upsert_other new (Db.rows st) u' Hne) as H.
  destruct (Db.upsert new (Db.rows st)) as [rid rows']. exact H.
Qed.

Lemma upsert_ids (new : Db.Row) (l : list Db.Row) :
  List.map Db.id (snd (Db.upsert new l))
  = match List.find (fun r => str_eqb (Db.url r) (Db.url new)) l with
    | Some _ => List.map Db.id l
    | None => List.map Db.id l ++ [Db.id new]
    end.
Proof.
  induction l as [|r l IH]; simpl; [reflexivity|].
  destruct (str_eqb (Db.url r) (Db.url new)); [reflexivity|].
  destruct (Db.upsert new l) as [i l'']. simpl in *. rewrite IH.
  now destruct (List.find _ l).
Qed.

Lemma upsert_urls_fresh (new : Db.Row) (l : list Db.Row) :
  List.find (fun r => str_eqb (Db.url r) (Db.url new)) l = None ->
  ~ In (Db.url new) (List.map Db.url l).
Proof.
  intros H Hin. apply in_map_iff in Hin as (r & E & Hr).
  apply (find_none _ _ H) in Hr. rewrite E, str_eqb_refl in Hr. discriminate.
Qed.

Lemma insert_repository_well_formed online st u owner repo techs identified stat expl :
  well_formed st ->
  well_formed (snd (Db.insert_repository online st u owner repo techs
                                         identified stat expl)).
Proof.
  intros (Hu & Hi & Hn & Hb). unfold Db.insert_repository.
  {
    destruct online; [|cbn [snd]; repeat split; assumption || apply Hb; assumption].
    set (new := {| Db.id := Db.next_id st; Db.url := u |}).
    pose proof (upsert_ids new (Db.rows st)) as Hids.
    destruct (List.find (fun r => str_eqb (Db.url r) (Db.url new)) (Db.rows st))
      as [old|] eqn:E.
    + destruct (upsert_conflict new (Db.rows st) E) as (_ & _ & Hurls).
      destruct (Db.upsert new (Db.rows st)) as [rid rows'] eqn:Eup.
      unfold well_formed. cbn [fst snd Db.rows Db.next_id] in *.
      split; [now rewrite Hurls|]. split; [now rewrite Hids|]. split; [lia|].
      intros r Hr.
      assert (Hid : In (Db.id r) (List.map Db.id (Db.rows st))).
      { rewrite <- Hids. now apply in_map. }
      apply in_map_iff in Hid as (r0 & <- & Hr0). specialize (Hb r0 Hr0). lia.
    + rewrite (upsert_fresh new (Db.rows st) E).
      unfold well_formed. cbn [fst snd Db.rows Db.next_id].
      rewrite !List.map_app. cbn [List.map]. split; [|split; [|split]].
      * apply List.NoDup_app; [assumption | repeat constructor; simpl; tauto |].
        intros x Hx [<- | []]. now apply (upsert_urls_fresh new (Db.rows st)).
      * apply List.NoDup_app; [assumption | repeat constructor; simpl; tauto |].
        intros x Hx [<- | []]. apply in_map_iff in Hx as (r0 & E0 & Hr0).
        specialize (Hb r0 Hr0). cbn in E0. lia.
      * lia.
      * intros r Hr. apply in_app_or in Hr as [Hr | [<- | []]].
        -- specialize (Hb r Hr). lia.
        -- cbn. lia.
  }
Qed.

(** X14: the empty store is well formed, and [insert_repository] keeps a
    store well formed: there is still one row per URL, and the identifiers
    stay distinct, positive and below the counter. *)
Theorem insert_keeps_well_formed online st u owner repo techs identified stat expl :
  well_formed Db.empty
  /\ (well_formed st ->
      well_formed (snd (Db.insert_repository online st u owner repo techs
                                             identified stat expl))).
Proof.
  split; [|apply insert_repository_well_formed].
  unfold well_formed. cbn. split; [constructor|]. split; [constructor|].
  split; [lia | intros r []].
Qed.

Lemma insert_repository_id_positive st u owner repo techs identified stat expl rid :
  well_formed st ->
  fst (Db.insert_repository true st u owner repo techs identified stat expl) = Some rid ->
  1 <= rid.
Proof.
  intros (_ & _ & Hn & Hb). unfold Db.insert_repository.
  set (new := {| Db.id := Db.next_id st; Db.url := u |}).
  destruct (List.find (fun r => str_eqb (Db.url r) (Db.url new)) (Db.rows st))
    as [old|] eqn:E.
  - destruct (upsert_conflict new (Db.rows st) E) as (H1 & _).
    destruct (Db.upsert new (Db.rows st)) as [i rows']. cbn [fst] in *.
    intros [= <-]. subst i. apply find_some in E as [Hin _].
    specialize (Hb old Hin). lia.
  - rewrite (upsert_fresh new (Db.rows st) E). cbn [fst]. intros [= <-]. cbn. lia.
Qed.

Section StoreAfterScan.

Variable urlparse_path : pystr -> result pystr.
Variable set_iter : list pystr -> list pystr.

(** X15: on a well-formed store, [scan_and_store_repository] returns
    [True] exactly when the record reached the database, also for a scan
    that ended in ['clone_failed'] or ['error']; the store stays well
    formed, and is unchanged when the database was not reached. *)
Theorem scan_and_store_success env u w :
  well_formed (Scanner.store w) ->
  fst (Scanner.scan_and_store_repository urlparse_path set_iter env u w)
  = Scanner.db_online env
  /\ well_formed
       (Scanner.store (snd (Scanner.scan_and_store_repository
                              urlparse_path set_iter env u w)))
  /\ (Scanner.db_online env = false ->
      Scanner.store (snd (Scanner.scan_and_store_repository
                            urlparse_path set_iter env u w)) = Scanner.store w).
Proof.
  intros Hwf. split; [|split].
  - unfold Scanner.scan_and_store_repository.
    destruct (Scanner.scan_repository urlparse_path set_iter env u (Scanner.fs w))
      as [r fs'].
    destruct (Scanner.db_online env) eqn:Eon.
    + pose proof (fun rid => @insert_repository_id_positive (Scanner.store w)
                    (Scanner.url r) (Scanner.owner_name r) (Scanner.repo_name r)
                    (Some (Scanner.technologies r)) (Scanner.is_identified r)
                    (Scanner.status r) (Scanner.ai_explanation r) rid Hwf) as Hpos.
      destruct (Db.insert_repository true _ _ _ _ _ _ _ _) as [[rid|] st'] eqn:Ei.
      * cbn [fst] in *. specialize (Hpos rid eq_refl).
        destruct rid; [lia | reflexivity].
      * unfold Db.insert_repository in Ei.
        destruct (Db.upsert _ _) in Ei. discriminate.
    + reflexivity.
  - rewrite scan_and_store_repository_store. cbn zeta.
    now apply insert_repository_well_formed.
  - intros Eoff. rewrite scan_and_store_repository_store. cbn zeta.
    now rewrite Eoff.
Qed.

End StoreAfterScan.

(* ===================================================================== *)
(** * Reading the store *)
(* ===================================================================== *)

Lemma insert_sorted_desc {A : Type} (key : A -> nat) (x : A) (l : list A) :
  StronglySorted (fun a b => key b <= key a) l ->
  StronglySorted (fun a b => key b <= key a) (insert_sorted (desc key) x l).
Proof.
  induction l as [|y l IH]; intros Hs; simpl.
  - constructor; constructor.
  - apply StronglySorted_inv in Hs as [Hs Hy].
    unfold desc at 1. destruct (key y <=? key x) eqn:E.
    + apply Nat.leb_le in E. constructor; [now constructor|].
      constructor; [assumption|].
      rewrite List.Forall_forall in Hy |- *. intros z Hz. specialize (Hy z Hz). lia.
    + apply Nat.leb_gt in E. constructor; [now apply IH|].
      rewrite List.Forall_forall in Hy |- *. intros z Hz.
      apply (Permutation_in _ (insert_sorted_perm (desc key) x l)) in Hz.
      destruct Hz as [<- | Hz]; [lia | now apply Hy].
Qed.

Lemma sorted_desc {A : Type} (key : A -> nat) (l : list A) :
  StronglySorted (fun a b => key b <= key a) (sorted (desc key) l).
Proof.
  induction l as [|x l IH]; simpl; [constructor | now apply insert_sorted_desc].
Qed.

(** X16: [get_all_repositories] lists every row once, newest first; a
    positive limit keeps the first rows of that list, while a limit of zero
    is taken as no limit at all and returns every row; a database that
    cannot be reached gives the empty list. *)
Theorem get_all_repositories_limit (st : Db.Store) :
  Permutation (Db.get_all_repositories true st None) (Db.rows st)
  /\ StronglySorted (fun a b => Db.created_at b <= Db.created_at a)
                    (Db.get_all_repositories true st None)
  /\ (forall n, Db.get_all_repositories true st (Some (S n))
                = firstn (S n) (Db.get_all_repositories true st None)
                /\ List.length (Db.get_all_repositories true st (Some (S n)))
                   = Nat.min (S n) (List.length (Db.rows st)))
  /\ Db.get_all_repositories true st (Some 0) = Db.get_all_repositories true st None
  /\ (forall limit, Db.get_all_repositories false st limit = []).
Proof.
  unfold Db.get_all_repositories, Db.newest_first. split; [apply sorted_perm|].
  split; [apply (sorted_desc Db.created_at)|]. split; [|split; reflexivity].
  intros n. split; [reflexivity|].
  now rewrite List.length_firstn, sorted_length.
Qed.

Section CountIntent.

Variable online : bool.
Variable st : Db.Store.
Variable sql_lower : pystr -> pystr.
Variable row_order : list Db.Row -> list Db.Row.
Variable api_key : bool.
Variable gemini_model : option (pystr -> result pystr).
Variable model_name : pystr.
Variable save_online : bool.

(** X17: when the [repository_count] intent fires the answer always
    reports success; its count is the number of stored rows when the
    database is reached, and zero when it is not (the failure of the
    database is not told apart from an empty table). *)
Theorem count_intent_answer (q : pystr) :
  Query.classify_query (strip (lower q)) = Some Query.RepositoryCount ->
  Query.success
    (fst (Query.process_natural_language_query
            online st sql_lower row_order api_key gemini_model model_name
               save_online q)) = true
  /\ Query.count
       (fst (Query.process_natural_language_query
               online st sql_lower row_order api_key gemini_model model_name
               save_online q))
     = Some (if online then List.length (Db.rows st) else 0)
  /\ Query.results
       (fst (Query.process_natural_language_query
               online st sql_lower row_order api_key gemini_model model_name
               save_online q))
     = Query.TotalRepositories [if online then List.length (Db.rows st) else 0].
Proof.
  intros H. rewrite (process_query_intent _ _ _ _ _ _ _ _ _ H).
  cbn [fst Query.answer_intent]. unfold Query._count_repositories.
  assert (E : List.length (Db.get_all_repositories online st None)
              = if online then List.length (Db.rows st) else 0).
  { unfold Db.get_all_repositories, Db.newest_first.
    destruct online; [apply sorted_length | reflexivity]. }
  rewrite E. repeat split.
Qed.

End CountIntent.

Lemma store_octocat_well_formed : well_formed Sample.store_octocat.
Proof.
  unfold well_formed. cbn -[py].
  split; [repeat constructor; simpl; tauto|].
  split; [repeat constructor; simpl; lia|].
  split; [lia|]. intros r [<- | []]. cbn. lia.
Qed.

Lemma insert_keeps_other_urls_witness :
  py "https://github.com/octo/dog" <> Sample.octocat
  /\ Db.get_repository_by_url true
       (snd (Db.insert_repository true Sample.store_octocat Sample.octocat
               (py "octo") (py "cat") None false (py "error") None))
       (py "https://github.com/octo/dog") = None.
Proof.
  assert (Hne : py "https://github.com/octo/dog" <> Sample.octocat)
    by (vm_compute; discriminate).
  split; [exact Hne|].
  rewrite (insert_keeps_other_urls true Sample.store_octocat (py "octo") (py "cat")
             None false (py "error") None Hne).
  vm_compute. reflexivity.
Defined.

Lemma insert_keeps_well_formed_witness :
  well_formed Sample.store_octocat
  /\ well_formed (snd (Db.insert_repository true Sample.store_octocat
                         (py "https://github.com/octo/dog") (py "octo") (py "dog")
                         (Some [py "Go"]) true (py "analyzed") None)).
Proof.
  split; [exact store_octocat_well_formed|].
  exact (proj2 (insert_keeps_well_formed true Sample.store_octocat
                  (py "https://github.com/octo/dog") (py "octo") (py "dog")
                  (Some [py "Go"]) true (py "analyzed") None)
           store_octocat_well_formed).
Defined.

Lemma scan_and_store_success_witness :
  well_formed (Scanner.store Sample.world_octocat)
  /\ Scanner.status
       (fst (Scanner.scan_repository Sample.plain_path Sample.in_order
               Sample.env_timeout Sample.octocat (Scanner.fs Sample.world_octocat)))
     = py "clone_failed"
  /\ fst (Scanner.scan_and_store_repository Sample.plain_path Sample.in_order
            Sample.env_timeout Sample.octocat Sample.world_octocat) = true.
Proof.
  split; [exact store_octocat_well_formed|]. split; [vm_compute; reflexivity|].
  exact (proj1 (scan_and_store_success Sample.plain_path Sample.in_order
                  Sample.env_timeout Sample.octocat Sample.world_octocat
                  store_octocat_well_formed)).
Defined.

Lemma count_intent_answer_witness :
  Query.classify_query (strip (lower (py "¿Cuántos repositorios hay?")))
  = Some Query.RepositoryCount
  /\ Query.count
       (fst (Query.process_natural_language_query
               false Sample.store_three Sample.lower_c Sample.table_order
               false None (py "gemini-1.5-flash") false
               (py "¿Cuántos repositorios hay?"))) = Some 0.
Proof.
  assert (H : Query.classify_query (strip (lower (py "¿Cuántos repositorios hay?")))
              = Some Query.RepositoryCount) by (vm_compute; reflexivity).
  split; [exact H|].
  exact (proj1 (proj2 (count_intent_answer
                         false Sample.store_three Sample.lower_c Sample.table_order
                         false None (py "gemini-1.5-flash") false
                         (py "¿Cuántos repositorios hay?") H))).
Defined.

(* ===================================================================== *)
(** * Matching, step by step *)
(* ===================================================================== *)

Lemma m_seq_cons a l s c k :
  Re.m (Re.seq (a :: l)) s c k
  = Re.m a s c (fun s1 c1 => Re.m (Re.seq l) s1 c1 k).
Proof. destruct l; reflexivity. Qed.

Lemma m_lit w s c k : Re.m (Re.lit w) (w ++ s) c k = k s c.
Proof.
  unfold Re.lit. induction w as [|x w IH]; [reflexivity|].
  cbn [List.map]. rewrite m_seq_cons. cbn [Re.m app]. now rewrite N.eqb_refl.
Qed.

Lemma m_lit_inv w : forall s c k r,
  Re.m (Re.lit w) s c k = Some r -> exists s', s = w ++ s' /\ k s' c = Some r.
Proof.
  unfold Re.lit. induction w as [|x w IH]; intros s c k r.
  - intros H. now exists s.
  - cbn [List.map]. rewrite m_seq_cons. cbn [Re.m].
    destruct s as [|y s]; [discriminate|].
    destruct (N.eqb_spec x y) as [<- | ]; [|discriminate].
    intros H. apply IH in H as (s' & -> & H). now exists s'.
Qed.

(** Forward steps: how a sequence of patterns takes its first item. *)
Lemma m_seq_lit w l s c k :
  Re.m (Re.seq (Re.lit w :: l)) (w ++ s) c k = Re.m (Re.seq l) s c k.
Proof. now rewrite m_seq_cons, m_lit. Qed.

Lemma m_seq_opt_take a l s c k r :
  Re.m (Re.seq (a :: l)) s c k = Some r ->
  Re.m (Re.seq (Re.Opt a :: l)) s c k = Some r.
Proof.
  rewrite !m_seq_cons. cbn [Re.m]. intros ->. reflexivity.
Qed.

Lemma m_seq_opt_skip a l s c k :
  Re.m (Re.seq (a :: l)) s c k = None ->
  Re.m (Re.seq (Re.Opt a :: l)) s c k = Re.m (Re.seq l) s c k.
Proof.
  rewrite !m_seq_cons. cbn [Re.m]. intros ->. reflexivity.
Qed.

Lemma m_seq_alt_left a b l s c k r :
  Re.m (Re.seq (a :: l)) s c k = Some r ->
  Re.m (Re.seq (Re.Alt a b :: l)) s c k = Some r.
Proof.
  rewrite !m_seq_cons. cbn [Re.m]. intros ->. reflexivity.
Qed.

Lemma m_seq_lit_mismatch w l s c k :
  startswith w s = false -> Re.m (Re.seq (Re.lit w :: l)) s c k = None.
Proof.
  intros H. rewrite m_seq_cons.
  destruct (Re.m (Re.lit w) s c _) eqn:E; [|reflexivity].
  apply m_lit_inv in E as (s' & -> & _). now rewrite startswith_app in H.
Qed.

Lemma firstn_app_exact {A : Type} (l1 l2 : list A) :
  firstn (List.length (l1 ++ l2) - List.length l2) (l1 ++ l2) = l1.
Proof.
  rewrite List.length_app.
  replace (List.length l1 + List.length l2 - List.length l2) with (List.length l1) by lia.
  rewrite List.firstn_app, Nat.sub_diag, List.firstn_all. simpl. apply app_nil_r.
Qed.

(** A greedy repetition stops where the class ends, if the rest of the
    pattern matches there. *)
Lemma star_greedy_stop p body x rest k r :
  Forall (fun c => p c = true) body -> p x = false ->
  k (x :: rest) = Some r ->
  Re.star_greedy p (body ++ x :: rest) k = Some r.
Proof.
  intros Hb Hx Hk. induction body as [|b body IH]; simpl.
  - now rewrite Hx.
  - inversion Hb as [|? ? Hpb Hb']; subst. rewrite Hpb, IH by assumption. reflexivity.
Qed.

Lemma m_seq_grp_plus i p l body x rest c k r :
  body <> [] -> Forall (fun c => p c = true) body -> p x = false ->
  Re.m (Re.seq l) (x :: rest) ((i, body) :: c) k = Some r ->
  Re.m (Re.seq (Re.Grp i (Re.Plus p) :: l)) (body ++ x :: rest) c k = Some r.
Proof.
  intros Hne Hb Hx Hk. rewrite m_seq_cons. cbn [Re.m].
  destruct body as [|b body]; [congruence|].
  inversion Hb as [|? ? Hpb Hb']; subst.
  cbn [app Re.plus_greedy]. rewrite Hpb.
  apply star_greedy_stop; [assumption | assumption|].
  change (b :: body ++ x :: rest) with ((b :: body) ++ x :: rest).
  now rewrite firstn_app_exact.
Qed.

(** A lazy repetition stops at the first place where the rest of the
    pattern matches. *)
Lemma plus_lazy_first p : forall body done rest (k : pystr -> pystr -> option Re.caps) r,
  body <> [] -> Forall (fun c => p c = true) body ->
  k (done ++ body) rest = Some r ->
  (forall b1 b2, body = b1 ++ b2 -> b1 <> [] -> b2 <> [] ->
                 k (done ++ b1) (b2 ++ rest) = None) ->
  Re.plus_lazy p (body ++ rest) (fun s' => k (firstn (List.length (done ++ body ++ rest)
                                                      - List.length s')
                                                     (done ++ body ++ rest)) s')
  = Some r.
Proof.
  induction body as [|b body IH]; intros done rest k r Hne Hb Hk Hnone; [congruence|].
  inversion Hb as [|? ? Hpb Hb']; subst. cbn [app Re.plus_lazy]. rewrite Hpb.
  assert (Hcut : firstn (List.length (done ++ b :: body ++ rest)
                         - List.length (body ++ rest)) (done ++ b :: body ++ rest)
                 = done ++ [b]).
  { replace (done ++ b :: body ++ rest) with ((done ++ [b]) ++ body ++ rest)
      by now rewrite <- app_assoc.
    apply firstn_app_exact. }
  rewrite Hcut. destruct body as [|b' body].
  - cbn [app] in *. now rewrite Hk.
  - rewrite (Hnone [b] (b' :: body)); [|reflexivity | discriminate | discriminate].
    cbn [Re.orelse].
    replace (done ++ b :: (b' :: body) ++ rest)
      with ((done ++ [b]) ++ (b' :: body) ++ rest) by now rewrite <- app_assoc.
    apply (IH (done ++ [b]) rest k r); [discriminate | assumption | |].
    + now rewrite <- app_assoc.
    + intros b1 b2 E H1 H2. rewrite <- app_assoc.
      apply (Hnone (b :: b1) b2); [now rewrite E | discriminate | assumption].
Qed.

Lemma m_seq_grp_lazy i p l body rest c k r :
  body <> [] -> Forall (fun c => p c = true) body ->
  Re.m (Re.seq l) rest ((i, body) :: c) k = Some r ->
  (forall b1 b2, body = b1 ++ b2 -> b1 <> [] -> b2 <> [] ->
                 Re.m (Re.seq l) (b2 ++ rest) ((i, b1) :: c) k = None) ->
  Re.m (Re.seq (Re.Grp i (Re.PlusLazy p) :: l)) (body ++ rest) c k = Some r.
Proof.
  intros Hne Hb Hk Hnone. rewrite m_seq_cons. cbn [Re.m].
  exact (@plus_lazy_first p body [] rest
           (fun g s' => Re.m (Re.seq l) s' ((i, g) :: c) k) r Hne Hb Hk Hnone).
Qed.

(** Backward steps: what a match of a sequence tells about the text. *)
Lemma m_seq_lit_inv w l s c k r :
  Re.m (Re.seq (Re.lit w :: l)) s c k = Some r ->
  exists s', s = w ++ s' /\ Re.m (Re.seq l) s' c k = Some r.
Proof. rewrite m_seq_cons. apply m_lit_inv. Qed.

Lemma m_seq_opt_inv a l s c k r :
  Re.m (Re.seq (Re.Opt a :: l)) s c k = Some r ->
  Re.m (Re.seq (a :: l)) s c k = Some r \/ Re.m (Re.seq l) s c k = Some r.
Proof.
  rewrite !m_seq_cons. cbn [Re.m].
  destruct (Re.m a s c _); cbn [Re.orelse]; [now left | now right].
Qed.

Lemma m_eos_inv s c k r :
  Re.m Re.Eos s c k = Some r -> s = [] \/ s = [10%N].
Proof.
  cbn [Re.m]. destruct s as [|x [|y s]]; cbn [Re.at_end]; [now left | | discriminate].
  destruct (N.eqb_spec x 10) as [-> | ]; [now right | discriminate].
Qed.

(* ===================================================================== *)
(** * The URL parser *)
(* ===================================================================== *)

Lemma last_char_is_app p (a b : pystr) :
  b <> [] -> last_char_is p (a ++ b) = last_char_is p b.
Proof.
  intros Hb. unfold last_char_is. rewrite rev_app_distr.
  destruct (rev b) as [|x t] eqn:E; [|reflexivity].
  apply (f_equal (@rev N)) in E. rewrite rev_involutive in E. now subst.
Qed.

Lemma rstrip_by_clean p (s : pystr) : last_char_is p s = false -> rstrip_by p s = s.
Proof.
  unfold last_char_is, rstrip_by. destruct (rev s) as [|x t] eqn:E; intros H.
  - apply (f_equal (@rev N)) in E. rewrite rev_involutive in E. now subst.
  - cbn [lstrip_by]. rewrite H, <- E. apply rev_involutive.
Qed.

Lemma rstrip_by_snoc p (s : pystr) (x : N) :
  p x = true -> rstrip_by p (s ++ [x]) = rstrip_by p s.
Proof.
  intros H. unfold rstrip_by. rewrite rev_app_distr. cbn [rev app lstrip_by].
  now rewrite H.
Qed.

Lemma has_char_false_Forall (c : N) (s : pystr) :
  has_char c s = false <-> Forall (fun x => (c =? x)%N = false) s.
Proof.
  unfold has_char. induction s as [|x s IH]; simpl.
  - split; [constructor | reflexivity].
  - rewrite orb_false_iff, IH. split.
    + intros [H1 H2]. now constructor.
    + intros H. inversion H. now split.
Qed.

Lemma has_char_last (c : N) (s : pystr) :
  has_char c s = false -> last_char_is (N.eqb c) s = false.
Proof.
  intros H. apply has_char_false_Forall in H. unfold last_char_is.
  destruct (rev s) as [|x t] eqn:E; [reflexivity|].
  rewrite List.Forall_forall in H. apply H. apply in_rev. rewrite E. now left.
Qed.

Lemma not_slash_Forall (s : pystr) :
  has_char Scanner.slash s = false -> Forall (fun c => Scanner.not_slash c = true) s.
Proof.
  intros H. apply has_char_false_Forall in H.
  eapply List.Forall_impl; [|exact H]. intros x Hx.
  unfold Scanner.not_slash, Re.none_of. change (py "/") with [Scanner.slash].
  unfold has_char. cbn [existsb]. now rewrite N.eqb_sym, Hx.
Qed.

Lemma nonempty_neq (s : pystr) : Scanner.nonempty s = true -> s <> [].
Proof. now apply nonempty_true. Qed.

(** The end of the four URL patterns, [(?:\.git)?/?$], accepts eight
    texts only. *)
Lemma url_tail_inv t c r :
  Re.m (Re.seq [Re.Opt (Re.lit (py ".git")); Re.Opt (Re.lit (py "/")); Re.Eos])
       t c Re.accept = Some r ->
  exists g sl e,
    t = g ++ sl ++ e
    /\ (g = [] \/ g = py ".git") /\ (sl = [] \/ sl = py "/") /\ (e = [] \/ e = [10%N]).
Proof.
  intros H.
  assert (Hslash : forall t', Re.m (Re.seq [Re.Opt (Re.lit (py "/")); Re.Eos])
                                   t' c Re.accept = Some r ->
            exists sl e, t' = sl ++ e /\ (sl = [] \/ sl = py "/")
                         /\ (e = [] \/ e = [10%N])).
  { intros t' H'. apply m_seq_opt_inv in H' as [H' | H'].
    - apply m_seq_lit_inv in H' as (e & -> & H'). apply m_eos_inv in H'.
      exists (py "/"), e. repeat split; [now right | assumption].
    - apply m_eos_inv in H'. exists [], t'. repeat split; [now left | assumption]. }
  apply m_seq_opt_inv in H as [H | H].
  - apply m_seq_lit_inv in H as (t' & -> & H).
    destruct (Hslash t' H) as (sl & e & -> & Hsl & He).
    exists (py ".git"), sl, e. repeat split; [now right | assumption | assumption].
  - destruct (Hslash t H) as (sl & e & -> & Hsl & He).
    exists [], sl, e. repeat split; [now left | assumption | assumption].
Qed.

(** A text whose last character is no slash and no space, and that is
    not [.git] itself, is not accepted by the end of the patterns; nor is
    it when [.git] is put after it. *)
Lemma url_tail_rejects q t0 c :
  q <> [] ->
  last_char_is (N.eqb Scanner.slash) q = false ->
  last_char_is is_space q = false ->
  q <> py ".git" ->
  t0 = [] \/ t0 = py ".git" ->
  Re.m (Re.seq [Re.Opt (Re.lit (py ".git")); Re.Opt (Re.lit (py "/")); Re.Eos])
       (q ++ t0) c Re.accept = None.
Proof.
  intros Hne Hslash Hspace Hgit Ht0.
  destruct (Re.m _ (q ++ t0) c Re.accept) eqn:E; [exfalso | reflexivity].
  apply url_tail_inv in E as (g & sl & e & E & Hg & Hsl & He).
  unfold last_char_is in Hslash, Hspace.
  destruct (rev q) as [|z q'] eqn:Eq.
  { apply (f_equal (@rev N)) in Eq. rewrite rev_involutive in Eq. now subst. }
  assert (Hq : q = rev q' ++ [z]).
  { rewrite <- (rev_involutive q), Eq. reflexivity. }
  apply (f_equal (@rev N)) in E. rewrite rev_app_distr, Eq in E.
  destruct Ht0 as [-> | ->], Hg as [-> | ->], Hsl as [-> | ->], He as [-> | ->];
    vm_compute in E;
    try (injection E as -> _; vm_compute in Hslash, Hspace; discriminate);
    try discriminate.
  - (* the text is [.git] itself *)
    apply Hgit. rewrite Hq. injection E as -> ->. vm_compute. reflexivity.
Qed.

Lemma endswith_app_r (p a b : pystr) : endswith p b = true -> endswith p (a ++ b) = true.
Proof.
  rewrite !endswith_split. intros [pre ->]. exists (a ++ pre). now rewrite app_assoc.
Qed.

(** The hosted HTTPS pattern on a URL in normal form. *)
Lemma hosted_pattern_match (A B t0 : pystr) :
  Scanner.nonempty A = true -> has_char Scanner.slash A = false ->
  Scanner.nonempty B = true -> has_char Scanner.slash B = false ->
  last_char_is is_space B = false -> endswith (py ".git") B = false ->
  t0 = [] \/ t0 = py ".git" ->
  Re.re_match Scanner.pattern_https_hosted
              (py "https://github.com/" ++ A ++ py "/" ++ B ++ t0)
  = Some [(2, B); (1, A)].
Proof.
  intros HA1 HA2 HB1 HB2 HB3 HB4 Ht0.
  assert (Epre : py "https://github.com/"
                 = py "http" ++ py "s" ++ py "://" ++ py "github" ++ py ".com" ++ py "/")
    by (vm_compute; reflexivity).
  rewrite Epre, <- !app_assoc.
  unfold Re.re_match, Scanner.pattern_https_hosted, Scanner.owner_repo_tail.
  cbn [app].
  rewrite m_seq_lit. apply m_seq_opt_take. rewrite !m_seq_lit.
  rewrite m_seq_opt_skip by (apply m_seq_lit_mismatch; vm_compute; reflexivity).
  apply m_seq_alt_left. rewrite !m_seq_lit.
  change (py "/" ++ B ++ t0) with (Scanner.slash :: B ++ t0).
  apply m_seq_grp_plus;
    [now apply nonempty_neq | now apply not_slash_Forall | vm_compute; reflexivity |].
  change (Scanner.slash :: B ++ t0) with (py "/" ++ B ++ t0). rewrite m_seq_lit.
  apply m_seq_grp_lazy; [now apply nonempty_neq | now apply not_slash_Forall | |].
  - destruct Ht0 as [-> | ->]; vm_compute; reflexivity.
  - intros b1 b2 -> Hb1 Hb2. apply url_tail_rejects; [assumption | | | | assumption].
    + rewrite <- (last_char_is_app _ b1 Hb2). now apply has_char_last.
    + now rewrite <- (last_char_is_app _ b1 Hb2).
    + intros ->. rewrite endswith_app_r in HB4; [discriminate | apply endswith_refl].
Qed.

Lemma lstrip_hosted (s : pystr) :
  lstrip_by is_space (py "https://github.com/" ++ s) = py "https://github.com/" ++ s.
Proof.
  assert (E : py "https://github.com/" = 104%N :: py "ttps://github.com/")
    by (vm_compute; reflexivity).
  rewrite E. reflexivity.
Qed.

(** What [url.strip().rstrip('/')] leaves of the four variants. *)
Lemma normalize_hosted (A B sfx : pystr) :
  Scanner.nonempty B = true -> has_char Scanner.slash B = false ->
  last_char_is is_space B = false ->
  In sfx [py ""; py ".git"; py "/"; py ".git/"] ->
  exists t0,
    (t0 = [] \/ t0 = py ".git")
    /\ rstrip_char Scanner.slash
         (strip (py "https://github.com/" ++ A ++ py "/" ++ B ++ sfx))
       = py "https://github.com/" ++ A ++ py "/" ++ B ++ t0.
Proof.
  intros HB1 HB2 HB3 Hsfx. apply nonempty_neq in HB1.
  assert (Hbase : forall p, last_char_is p B = false ->
            last_char_is p (py "https://github.com/" ++ A ++ py "/" ++ B) = false).
  { intros p Hp. rewrite !app_assoc. now rewrite last_char_is_app. }
  assert (Hgit : forall p, p 116%N = false ->
            last_char_is p (py "https://github.com/" ++ A ++ py "/" ++ B ++ py ".git")
            = false).
  { intros p Hp. rewrite !app_assoc. rewrite last_char_is_app; [|vm_compute; discriminate].
    exact Hp. }
  assert (Hslash : last_char_is (N.eqb Scanner.slash) B = false) by now apply has_char_last.
  unfold strip, rstrip_char. rewrite lstrip_hosted.
  destruct Hsfx as [<- | [<- | [<- | [<- | []]]]].
  - exists []. split; [now left|]. change (py "") with (@nil N).
    rewrite !app_nil_r.
    rewrite (rstrip_by_clean is_space) by now apply Hbase.
    now apply rstrip_by_clean, Hbase.
  - exists (py ".git"). split; [now right|].
    rewrite (rstrip_by_clean is_space) by now apply Hgit.
    now apply rstrip_by_clean, Hgit.
  - exists []. split; [now left|]. change (py "/") with [Scanner.slash] at 2.
    rewrite app_nil_r.
    replace (py "https://github.com/" ++ A ++ py "/" ++ B ++ [Scanner.slash])
      with ((py "https://github.com/" ++ A ++ py "/" ++ B) ++ [Scanner.slash])
      by now rewrite <- !app_assoc.
    rewrite (rstrip_by_clean is_space).
    + rewrite rstrip_by_snoc by reflexivity. now apply rstrip_by_clean, Hbase.
    + rewrite last_char_is_app by discriminate. reflexivity.
  - exists (py ".git"). split; [now right|].
    assert (E : py ".git/" = py ".git" ++ [Scanner.slash]) by (vm_compute; reflexivity).
    rewrite E.
    replace (py "https://github.com/" ++ A ++ py "/" ++ B ++ py ".git" ++ [Scanner.slash])
      with ((py "https://github.com/" ++ A ++ py "/" ++ B ++ py ".git") ++ [Scanner.slash])
      by now rewrite <- !app_assoc.
    rewrite (rstrip_by_clean is_space).
    + rewrite rstrip_by_snoc by reflexivity. now apply rstrip_by_clean, Hgit.
    + rewrite last_char_is_app by discriminate. reflexivity.
Qed.

Section HostedUrl.

Variable urlparse_path : pystr -> result pystr.

(** X18: for an owner [A] and a repository name [B] that are not empty
    and have no slash, [B] not ending in white space nor in [.git], the
    parser returns [(A, B)] on [https://github.com/A/B] and on its variants
    with [.git], with a final slash, and with both, whatever [urlparse]
    would do. *)
Theorem hosted_url_owner_repo (A B sfx : pystr) :
  Scanner.nonempty A = true -> has_char Scanner.slash A = false ->
  Scanner.nonempty B = true -> has_char Scanner.slash B = false ->
  last_char_is is_space B = false -> endswith (py ".git") B = false ->
  In sfx [py ""; py ".git"; py "/"; py ".git/"] ->
  Scanner.extract_repo_info_from_url urlparse_path
    (py "https://github.com/" ++ A ++ py "/" ++ B ++ sfx) = (A, B).
Proof.
  intros HA1 HA2 HB1 HB2 HB3 HB4 Hsfx.
  destruct (@normalize_hosted A B sfx HB1 HB2 HB3 Hsfx) as (t0 & Ht0 & Hnorm).
  unfold Scanner.extract_repo_info_from_url, Scanner.extract_repo_info_body.
  cbn zeta. rewrite Hnorm. unfold Scanner.url_patterns. cbn [Scanner.first_match].
  rewrite (@hosted_pattern_match A B t0 HA1 HA2 HB1 HB2 HB3 HB4 Ht0).
  reflexivity.
Qed.

End HostedUrl.

Lemma str_split_not_nil (c : N) (s : pystr) : str_split c s <> [].
Proof.
  induction s as [|x s IH]; simpl; [discriminate|].
  destruct (x =? c)%N; [discriminate|]. now destruct (str_split c s).
Qed.

Lemma str_split_no_sep (c : N) (s : pystr) :
  Forall (fun w => has_char c w = false) (str_split c s).
Proof.
  induction s as [|x s IH]; simpl; [now repeat constructor|].
  destruct (N.eqb_spec x c) as [-> | Hne].
  - now constructor.
  - destruct (str_split c s) as [|w ws] eqn:E;
      [exfalso; now apply (str_split_not_nil c s)|].
    inversion IH; subst. constructor; [|assumption].
    unfold has_char in *. cbn [existsb].
    destruct (N.eqb_spec c x); [congruence | assumption].
Qed.

Lemma last_item_Some {A : Type} (l : list A) :
  l <> [] -> exists x, last_item l = Some x /\ In x l.
Proof.
  unfold last_item. induction l as [|a l IH]; [congruence|]. intros _.
  destruct l as [|b l].
  - exists a. split; [reflexivity | now left].
  - destruct IH as (x & Hx & Hin); [discriminate|].
    exists x. split; [exact Hx | now right].
Qed.

Lemma penultimate_Some {A : Type} (l : list A) :
  2 <= List.length l -> exists x, penultimate l = Some x /\ In x l.
Proof.
  intros H. unfold penultimate.
  destruct (rev l) as [|a [|b t]] eqn:E.
  - apply (f_equal (@List.length A)) in E. rewrite List.length_rev in E. simpl in E. lia.
  - apply (f_equal (@List.length A)) in E. rewrite List.length_rev in E. simpl in E. lia.
  - exists b. split; [reflexivity|]. apply in_rev. rewrite E. right. now left.
Qed.

Section UrlFallback.

Variable urlparse_path : pystr -> result pystr.

(** X19: when none of the four patterns matches the URL in normal form,
    the parser returns ['unknown'] twice if [urlparse] raises; otherwise,
    with two or more non-empty path segments, the last but one as owner
    (never empty) and the last one without its [.git] occurrences as name,
    and with fewer, ['unknown'] as owner and the text after the last slash
    of the URL, without its [.git] occurrences, as name.  None of the
    indexings of the function can fail. *)
Theorem url_fallback (u : pystr) :
  Scanner.first_match Scanner.url_patterns (rstrip_char Scanner.slash (strip u)) = None ->
  (forall e, urlparse_path (rstrip_char Scanner.slash (strip u)) = Raise e ->
             Scanner.extract_repo_info_from_url urlparse_path u
             = (py "unknown", py "unknown"))
  /\ (forall path,
        urlparse_path (rstrip_char Scanner.slash (strip u)) = Ok path ->
        (2 <= List.length (List.filter Scanner.nonempty (str_split Scanner.slash path)) ->
         exists owner repo,
           penultimate (List.filter Scanner.nonempty (str_split Scanner.slash path))
           = Some owner
           /\ last_item (List.filter Scanner.nonempty (str_split Scanner.slash path))
              = Some repo
           /\ owner <> []
           /\ Scanner.extract_repo_info_from_url urlparse_path u
              = (owner, remove_all (py ".git") repo))
        /\ (List.length (List.filter Scanner.nonempty (str_split Scanner.slash path)) < 2 ->
            exists piece,
              last_item (str_split Scanner.slash (rstrip_char Scanner.slash (strip u)))
              = Some piece
              /\ has_char Scanner.slash piece = false
              /\ Scanner.extract_repo_info_from_url urlparse_path u
                 = (py "unknown", remove_all (py ".git") piece))).
Proof.
  intros Hnone.
  unfold Scanner.extract_repo_info_from_url, Scanner.extract_repo_info_body.
  cbn zeta. rewrite Hnone. split.
  - intros e ->. reflexivity.
  - intros path ->. cbn [bind]. split.
    + intros Hlen.
      destruct (penultimate_Some _ Hlen) as (owner & Ho & Hoin).
      destruct (@last_item_Some _ (List.filter Scanner.nonempty
                                     (str_split Scanner.slash path)))
        as (repo & Hr & _).
      { intros E. rewrite E in Hlen. simpl in Hlen. lia. }
      exists owner, repo. rewrite Ho, Hr.
      apply Nat.leb_le in Hlen. rewrite Hlen.
      repeat split. apply filter_In in Hoin as [_ Hne]. now apply nonempty_true.
    + intros Hlen.
      destruct (@last_item_Some _ (str_split Scanner.slash
                                     (rstrip_char Scanner.slash (strip u))))
        as (piece & Hp & Hin); [apply str_split_not_nil|].
      exists piece. rewrite Hp. apply Nat.leb_gt in Hlen. rewrite Hlen.
      repeat split.
      pose proof (str_split_no_sep Scanner.slash (rstrip_char Scanner.slash (strip u)))
        as Hall.
      rewrite List.Forall_forall in Hall. now apply Hall.
Qed.

End UrlFallback.

Lemma hosted_url_owner_repo_witness :
  Scanner.nonempty (py "octo") = true /\ has_char Scanner.slash (py "octo") = false
  /\ Scanner.nonempty (py "cat") = true /\ has_char Scanner.slash (py "cat") = false
  /\ last_char_is is_space (py "cat") = false /\ endswith (py ".git") (py "cat") = false
  /\ Scanner.extract_repo_info_from_url (fun _ => Raise (py "unused"))
       (py "https://github.com/" ++ py "octo" ++ py "/" ++ py "cat" ++ py ".git/")
     = (py "octo", py "cat").
Proof.
  repeat (split; [vm_compute; reflexivity|]).
  apply hosted_url_owner_repo; try (vm_compute; reflexivity).
  right. right. right. now left.
Defined.

Lemma url_fallback_witness :
  Scanner.first_match Scanner.url_patterns
    (rstrip_char Scanner.slash (strip (py "project.git"))) = None
  /\ Scanner.extract_repo_info_from_url Sample.plain_path (py "project.git")
     = (py "unknown", py "project").
Proof.
  assert (H : Scanner.first_match Scanner.url_patterns
                (rstrip_char Scanner.slash (strip (py "project.git"))) = None)
    by (vm_compute; reflexivity).
  split; [exact H|].
  destruct (proj2 (proj2 (url_fallback Sample.plain_path (py "project.git") H)
                     (rstrip_char Scanner.slash (strip (py "project.git"))) eq_refl))
    as (piece & Hp & _ & ->).
  - vm_compute. lia.
  - vm_compute in Hp. injection Hp as <-. vm_compute. reflexivity.
Defined.
(* ===================================================================== *)
(** * The completeness score *)
(* ===================================================================== *)

Section ValidatorFacts.

Variable float : Type.
Variable percent : nat -> nat -> float.

Ltac checks d :=
  unfold Validator.validate_repository_completeness, Validator.check;
  destruct (Validator.truthy (Validator.url d)),
           (Validator.known (Validator.owner_name d)),
           (Validator.known (Validator.repo_name d)),
           (Validator.has_technologies (Validator.technologies d)),
           (Validator.is_analyzed (Validator.status d));
  cbn [Validator.score Validator.max_score Validator.issues Validator.recommendations
       Validator.percentage app List.length Nat.add andb].

(** X20: the score of [validate_repository_completeness] is out of 100,
    it is 100 exactly when no issue is listed, which is exactly when the
    five checks pass; each issue costs between 15 and 30 points; a
    recommendation comes only with an issue; a missing key and a [None]
    are failed checks, not errors. *)
Theorem completeness_score (d : Validator.RepoData) :
  let v := Validator.validate_repository_completeness percent d in
  Validator.max_score v = 100
  /\ 100 - 30 * List.length (Validator.issues v) <= Validator.score v
     <= 100 - 15 * List.length (Validator.issues v)
  /\ (Validator.score v = 100 <-> Validator.issues v = [])
  /\ (Validator.issues v = []
      <-> Validator.truthy (Validator.url d) = true
          /\ Validator.known (Validator.owner_name d) = true
          /\ Validator.known (Validator.repo_name d) = true
          /\ Validator.has_technologies (Validator.technologies d) = true
          /\ Validator.is_analyzed (Validator.status d) = true)
  /\ List.length (Validator.recommendations v) <= List.length (Validator.issues v)
  /\ Validator.percentage v = percent (Validator.score v) 100.
Proof.
  checks d; (split; [reflexivity|]); (split; [lia|]);
    (split; [split; intros H; (discriminate H || reflexivity || lia)|]);
    (split; [|split; [lia | reflexivity]]);
    (split; [intros H; (discriminate H || (repeat split))
            | intros (H1 & H2 & H3 & H4 & H5); (reflexivity || discriminate)]).
Qed.

(** A check that fails costs its points, whatever the other keys hold. *)
Lemma score_without_technologies (d : Validator.RepoData) :
  Validator.has_technologies (Validator.technologies d) = false ->
  Validator.is_analyzed (Validator.status d) = false ->
  Validator.score (Validator.validate_repository_completeness percent d) <= 50.
Proof. intros H1 H2. checks d; (discriminate || lia). Qed.

Lemma score_full (d : Validator.RepoData) :
  Validator.score (Validator.validate_repository_completeness percent d) = 100
  <-> Validator.truthy (Validator.url d) = true
      /\ Validator.known (Validator.owner_name d) = true
      /\ Validator.known (Validator.repo_name d) = true
      /\ Validator.has_technologies (Validator.technologies d) = true
      /\ Validator.is_analyzed (Validator.status d) = true.
Proof.
  checks d;
    (split; [intros H; (discriminate H || lia || (repeat split))
            | intros (H1 & H2 & H3 & H4 & H5); (reflexivity || discriminate)]).
Qed.

Lemma technologies_score (d : Validator.RepoData) :
  Validator.has_technologies (Validator.technologies d) = false ->
  Validator.score (Validator.validate_repository_completeness percent d) <= 70.
Proof. intros H1. checks d; (discriminate || lia). Qed.

End ValidatorFacts.
(* ===================================================================== *)
(** * The completeness of a stored scan *)
(* ===================================================================== *)

Section StoredScan.

Variable urlparse_path : pystr -> result pystr.
Variable set_iter : list pystr -> list pystr.
Variable float : Type.
Variable percent : nat -> nat -> float.

Lemma analyzed_is_analyzed : str_eqb (py "analyzed") (py "analyzed") = true.
Proof. vm_compute. reflexivity. Qed.

Lemma error_not_analyzed : str_eqb (py "error") (py "analyzed") = false.
Proof. vm_compute. reflexivity. Qed.

Lemma clone_failed_not_analyzed : str_eqb (py "clone_failed") (py "analyzed") = false.
Proof. vm_compute. reflexivity. Qed.

Lemma has_technologies_length (l : list pystr) :
  Validator.has_technologies (Validator.Value l) = (0 <? List.length l).
Proof. now destruct l. Qed.

(** The two checks of the validator that depend on the outcome of the
    scan, read on the record of the scan. *)
Lemma scan_repository_checks env u fs0 :
  let r := fst (Scanner.scan_repository urlparse_path set_iter env u fs0) in
  Validator.has_technologies (Validator.Value (Scanner.technologies r))
  = Scanner.is_identified r
  /\ (Scanner.is_identified r = true ->
      Validator.is_analyzed (Validator.Value (Scanner.status r)) = true)
  /\ (Validator.is_analyzed (Validator.Value (Scanner.status r)) = true
      <-> Scanner.status r = py "analyzed")
  /\ Scanner.owner_name r = fst (Scanner.extract_repo_info_from_url urlparse_path u)
  /\ Scanner.repo_name r = snd (Scanner.extract_repo_info_from_url urlparse_path u).
Proof.
  intros r. subst r.
  destruct (scan_repository_cases env) as [[e H] | [(x & H1 & H2) | (x & H1 & H2)]].
  - rewrite (scan_repository_error _ _ _ _ _ H).
    cbn [fst Scanner.technologies Scanner.is_identified Scanner.status
         Scanner.owner_name Scanner.repo_name Validator.is_analyzed
         Validator.has_technologies].
    rewrite error_not_analyzed. repeat split; try discriminate.
    all: intros E; apply (f_equal (fun s => str_eqb s (py "analyzed"))) in E.
    all: now rewrite error_not_analyzed, analyzed_is_analyzed in E.
  - rewrite (scan_repository_clone_failed _ _ _ _ _ H1 H2).
    cbn [fst Scanner.technologies Scanner.is_identified Scanner.status
         Scanner.owner_name Scanner.repo_name Validator.is_analyzed
         Validator.has_technologies].
    rewrite clone_failed_not_analyzed. repeat split; try discriminate.
    all: intros E; apply (f_equal (fun s => str_eqb s (py "analyzed"))) in E.
    all: now rewrite clone_failed_not_analyzed, analyzed_is_analyzed in E.
  - rewrite (scan_repository_analyzed _ _ _ _ _ H1 H2).
    cbn [fst Scanner.technologies Scanner.is_identified Scanner.status
         Scanner.owner_name Scanner.repo_name Validator.is_analyzed].
    rewrite has_technologies_length, analyzed_is_analyzed. repeat split.
Qed.

(** X21: the completeness of the record that [scan_and_store_repository]
    wrote, as [get_repository_summary] validates it.  The record is found
    under the URL; it scores at most 50 when the scan did not end as
    ['analyzed'], at most 70 when no technology was identified, and 100
    exactly when a technology was identified, the URL is not empty and
    the URL parser found an owner and a name other than ['unknown']. *)
Theorem stored_scan_completeness env u w :
  Scanner.db_online env = true ->
  let r := fst (Scanner.scan_repository urlparse_path set_iter env u (Scanner.fs w)) in
  let info := Scanner.extract_repo_info_from_url urlparse_path u in
  exists row,
    Db.get_repository_by_url true
      (Scanner.store (snd (Scanner.scan_and_store_repository
                             urlparse_path set_iter env u w))) u = Some row
    /\ let v := Validator.validate_repository_completeness percent (Validator.of_row row) in
       (Scanner.status r <> py "analyzed" -> Validator.score v <= 50)
       /\ (Scanner.is_identified r = false -> Validator.score v <= 70)
       /\ (Validator.score v = 100
           <-> Scanner.is_identified r = true
               /\ Scanner.nonempty u = true
               /\ Validator.known (Validator.Value (fst info)) = true
               /\ Validator.known (Validator.Value (snd info)) = true).
Proof.
  intros Hon r info. rewrite scan_and_store_repository_store. cbn zeta. rewrite Hon.
  fold r.
  destruct (insert_repository_lookup (Scanner.store w) u
              (Scanner.owner_name r) (Scanner.repo_name r)
              (Some (Scanner.technologies r)) (Scanner.is_identified r)
              (Scanner.status r) (Scanner.ai_explanation r))
    as (row & Hget & _ & Hu & Ho & Hr & Ht & _ & Hs & _).
  exists row. split; [exact Hget|]. cbn zeta.
  destruct (scan_repository_checks env u (Scanner.fs w)) as (Ct & Ci & Ca & Co & Cr).
  fold r in Ct, Ci, Ca, Co, Cr. cbn [Db.or_empty] in Ht.
  assert (Et : Validator.has_technologies (Validator.technologies (Validator.of_row row))
               = Scanner.is_identified r).
  { cbn [Validator.of_row Validator.technologies]. now rewrite Ht. }
  assert (Ea : Validator.is_analyzed (Validator.status (Validator.of_row row))
               = Validator.is_analyzed (Validator.Value (Scanner.status r))).
  { cbn [Validator.of_row Validator.status]. now rewrite Hs. }
  split; [|split].
  - intros Hne. apply score_without_technologies.
    + rewrite Et. destruct (Scanner.is_identified r); [|reflexivity].
      exfalso. apply Hne, Ca, Ci. reflexivity.
    + rewrite Ea. destruct (Validator.is_analyzed _) eqn:E; [|reflexivity].
      exfalso. now apply Hne, Ca.
  - intros Hid. apply technologies_score. now rewrite Et.
  - rewrite score_full, Et, Ea.
    cbn [Validator.of_row Validator.url Validator.owner_name Validator.repo_name
         Validator.truthy].
    rewrite Hu, Ho, Hr, Co, Cr. fold info. split.
    + intros (H1 & H2 & H3 & H4 & _). repeat split; assumption.
    + intros (H1 & H2 & H3 & H4). repeat split; try assumption. now apply Ci.
Qed.

End StoredScan.
(* ===================================================================== *)
(** * The analysis of the stored repositories *)
(* ===================================================================== *)

Lemma occurrences_pos (t : pystr) (l : list pystr) :
  In t l -> 1 <= Query.occurrences t l.
Proof.
  unfold Query.occurrences. induction l as [|x l IH]; [contradiction|].
  intros [-> | H]; cbn [List.filter].
  - rewrite str_eqb_refl. cbn [List.length]. lia.
  - destruct (str_eqb t x); cbn [List.length]; [lia | now apply IH].
Qed.

Lemma firstn_incl {A : Type} (n : nat) (l : list A) (x : A) :
  In x (firstn n l) -> In x l.
Proof.
  intros H. rewrite <- (firstn_skipn n l). apply in_or_app. now left.
Qed.

Lemma StronglySorted_firstn {A : Type} (R : A -> A -> Prop) (n : nat) (l : list A) :
  StronglySorted R l -> StronglySorted R (firstn n l).
Proof.
  intros H. revert n. induction H as [|a l H IH Ha]; intros [|n]; cbn [firstn];
    try constructor.
  - apply IH.
  - apply List.Forall_forall. intros x Hx. apply firstn_incl in Hx.
    revert x Hx. now apply List.Forall_forall.
Qed.

Lemma top_ten_spec (l : list pystr) :
  List.length (Validator.top_ten (Query.tech_counts l)) <= 10
  /\ (forall t n, In (t, n) (Validator.top_ten (Query.tech_counts l))
                  -> In t l /\ n = Query.occurrences t l /\ 1 <= n)
  /\ StronglySorted (Query.ranks_before l) (Validator.top_ten (Query.tech_counts l))
  /\ (List.length (Query.tech_counts l) <= 10 ->
      forall t, In t l ->
                In (t, Query.occurrences t l) (Validator.top_ten (Query.tech_counts l))).
Proof.
  destruct (ranking_spec l) as (_ & Hin & Hs). unfold Validator.top_ten.
  split; [apply List.firstn_le_length|]. split; [|split].
  - intros t n H. apply firstn_incl, Hin in H as [H ->].
    repeat split; [assumption | now apply occurrences_pos].
  - now apply StronglySorted_firstn.
  - intros Hlen t Ht. rewrite firstn_all2 by now rewrite sorted_length.
    now apply Hin.
Qed.

Section AnalysisFacts.

Variable float : Type.
Variable percent : nat -> nat -> float.

(** The dict built for a list that is not empty. *)
Lemma analyze_repository_patterns_some (repositories : list Db.Row) :
  repositories <> [] ->
  Validator.analyze_repository_patterns percent repositories
  = Validator.AnalysisOk
      {| Validator.total_repositories := List.length repositories;
         Validator.identified_repositories :=
           List.length (List.filter Db.is_identified repositories);
         Validator.identification_rate :=
           inl (percent (List.length (List.filter Db.is_identified repositories))
                        (List.length repositories));
         Validator.most_common_technologies :=
           Validator.top_ten
             (Query.tech_counts (List.concat (List.map Db.technologies repositories)));
         Validator.most_active_owners :=
           Validator.top_ten (Query.tech_counts (List.map Db.owner_name repositories));
         Validator.unidentified_count :=
           List.length repositories
           - List.length (List.filter Db.is_identified repositories) |}.
Proof. destruct repositories; [congruence | reflexivity]. Qed.

(** X22: [analyze_repository_patterns] answers an empty list with the
    error dict.  For a list that is not empty the identified and the
    unidentified repositories add up to the total, the rate is the
    floating-point percentage (never the integer 0 of the [else]), and
    each of the two rankings has at most ten entries, every entry a
    technology (an owner) that occurs with the number of its occurrences,
    by decreasing count and, for one count, in the order first seen; with
    ten or fewer different entries none is left out. *)
Theorem analysis_of_rows (repositories : list Db.Row) :
  Validator.analyze_repository_patterns percent []
  = Validator.AnalysisError float (py "No hay repositorios para analizar")
  /\ (repositories <> [] ->
      let techs := List.concat (List.map Db.technologies repositories) in
      let owners := List.map Db.owner_name repositories in
      exists a,
        Validator.analyze_repository_patterns percent repositories = Validator.AnalysisOk a
        /\ Validator.total_repositories a = List.length repositories
        /\ Validator.identified_repositories a + Validator.unidentified_count a
           = Validator.total_repositories a
        /\ Validator.identification_rate a
           = inl (percent (Validator.identified_repositories a)
                          (Validator.total_repositories a))
        /\ List.length (Validator.most_common_technologies a) <= 10
        /\ List.length (Validator.most_active_owners a) <= 10
        /\ (forall t n, In (t, n) (Validator.most_common_technologies a)
                        -> In t techs /\ n = Query.occurrences t techs /\ 1 <= n)
        /\ (forall o n, In (o, n) (Validator.most_active_owners a)
                        -> In o owners /\ n = Query.occurrences o owners /\ 1 <= n)
        /\ StronglySorted (Query.ranks_before techs) (Validator.most_common_technologies a)
        /\ StronglySorted (Query.ranks_before owners) (Validator.most_active_owners a)
        /\ (List.length (Query.tech_counts owners) <= 10 ->
            forall o, In o owners ->
                      In (o, Query.occurrences o owners) (Validator.most_active_owners a))).
Proof.
  split; [reflexivity|]. intros Hne techs owners.
  eexists. split; [apply (analyze_repository_patterns_some Hne)|].
  cbn [Validator.total_repositories Validator.identified_repositories
       Validator.unidentified_count Validator.identification_rate
       Validator.most_common_technologies Validator.most_active_owners].
  fold techs owners.
  destruct (top_ten_spec techs) as (T1 & T2 & T3 & _).
  destruct (top_ten_spec owners) as (O1 & O2 & O3 & O4).
  assert (Hle : List.length (List.filter Db.is_identified repositories)
                <= List.length repositories) by apply List.filter_length_le.
  split; [reflexivity|]. split; [lia|]. split; [reflexivity|].
  split; [exact T1|]. split; [exact O1|]. split; [exact T2|]. split; [exact O2|].
  split; [exact T3|]. split; [exact O3 | exact O4].
Qed.

(** The rows [get_all_repositories] returns: none exactly when the
    database is not reached or the table is empty. *)
Lemma get_all_repositories_nil (online : bool) (st : Db.Store) :
  Db.get_all_repositories online st None = [] <-> online = false \/ Db.rows st = [].
Proof.
  unfold Db.get_all_repositories, Db.newest_first. destruct online.
  - split.
    + intros H. right. apply (f_equal (@List.length _)) in H.
      rewrite sorted_length in H. now destruct (Db.rows st).
    + intros [H | ->]; [discriminate | reflexivity].
  - split; [now left | reflexivity].
Qed.

(** X23: the statistics of the command line ([get_statistics]) and the
    answer of the query engine to the statistics intent are computed from
    the same rows and agree: one reports that there is no repository
    exactly when the other does, which is when the database is not
    reached or the table is empty; otherwise the engine reports the same
    total, the same number of identified repositories, and the first five
    entries of [most_common_technologies]. *)
Theorem statistics_agree (online : bool) (st : Db.Store) :
  let ans := Query._get_general_statistics online st in
  (online = false \/ Db.rows st = [] ->
   fst (Main.get_statistics percent online st)
   = Validator.AnalysisError float (py "No hay repositorios para analizar")
   /\ ans = Query.failure (py "No hay repositorios en la base de datos"))
  /\ (online = true /\ Db.rows st <> [] ->
      exists a,
        fst (Main.get_statistics percent online st) = Validator.AnalysisOk a
        /\ Validator.total_repositories a = List.length (Db.rows st)
        /\ Query.success ans = true
        /\ Query.count ans = Some (Validator.total_repositories a)
        /\ Query.results ans
           = Query.Statistics (Validator.total_repositories a)
               (Validator.identified_repositories a)
               (firstn 5 (Validator.most_common_technologies a))).
Proof.
  intros ans. subst ans. unfold Main.get_statistics, Query._get_general_statistics.
  cbn [fst]. split.
  - intros H. apply get_all_repositories_nil in H. rewrite H. split; reflexivity.
  - intros [Hon Hrows].
    assert (Hlen : List.length (Db.get_all_repositories online st None)
                   = List.length (Db.rows st)).
    { rewrite Hon. unfold Db.get_all_repositories, Db.newest_first.
      apply sorted_length. }
    assert (Hne : Db.get_all_repositories online st None <> []).
    { intros H. apply get_all_repositories_nil in H as [H | H]; congruence. }
    eexists. split; [apply (analyze_repository_patterns_some Hne)|].
    cbn [Validator.total_repositories Validator.identified_repositories
         Validator.most_common_technologies].
    split; [exact Hlen|].
    destruct (@true_div_part
                (List.length (List.filter Db.is_identified
                                (Db.get_all_repositories online st None)))
                (List.length (Db.get_all_repositories online st None))
                (List.filter_length_le _ _)) as [x Hx].
    destruct (Db.get_all_repositories online st None) as [|r rs]; [congruence|].
    unfold Query.percentage. rewrite Hx.
    cbn [List.length Nat.eqb bind try_except Query.answer Query.success Query.count
         Query.results].
    split; [reflexivity|]. split; [reflexivity|].
    unfold Query.top_techs, Validator.top_ten. now rewrite firstn_firstn.
Qed.

End AnalysisFacts.

Lemma stored_scan_completeness_witness :
  Scanner.db_online Sample.env_java = true
  /\ exists row,
       Db.get_repository_by_url true
         (Scanner.store (snd (Scanner.scan_and_store_repository
                                Sample.plain_path Sample.in_order
                                Sample.env_java Sample.octocat Sample.world_octocat)))
         Sample.octocat = Some row
       /\ Validator.score
            (Validator.validate_repository_completeness Sample.pct_floor
               (Validator.of_row row)) = 100.
Proof.
  split; [reflexivity|].
  pose proof (stored_scan_completeness Sample.plain_path Sample.in_order
                Sample.pct_floor Sample.env_java Sample.octocat Sample.world_octocat
                eq_refl) as H.
  cbn zeta in H. destruct H as (row & Hget & _ & _ & H100).
  exists row. split; [exact Hget|]. apply H100. vm_compute. repeat split.
Defined.

Lemma analysis_of_rows_witness :
  Db.rows Sample.store_three <> []
  /\ exists a,
       Validator.analyze_repository_patterns Sample.pct_floor (Db.rows Sample.store_three)
       = Validator.AnalysisOk a
       /\ Validator.total_repositories a = 3
       /\ Validator.identified_repositories a + Validator.unidentified_count a = 3.
Proof.
  assert (Hne : Db.rows Sample.store_three <> []) by (vm_compute; discriminate).
  split; [exact Hne|].
  pose proof (proj2 (analysis_of_rows Sample.pct_floor (Db.rows Sample.store_three)) Hne)
    as H.
  cbn zeta in H. destruct H as (a & Ha & Htotal & Hsum & _).
  exists a. split; [exact Ha|]. split; [exact Htotal|]. now rewrite Hsum, Htotal.
Defined.

Lemma statistics_agree_witness :
  (true = true /\ Db.rows Sample.store_three <> [])
  /\ exists a,
       fst (Main.get_statistics Sample.pct_floor true Sample.store_three)
       = Validator.AnalysisOk a
       /\ Query.results (Query._get_general_statistics true Sample.store_three)
          = Query.Statistics (Validator.total_repositories a)
              (Validator.identified_repositories a)
              (firstn 5 (Validator.most_common_technologies a)).
Proof.
  assert (Hne : true = true /\ Db.rows Sample.store_three <> [])
    by (split; [reflexivity | vm_compute; discriminate]).
  split; [exact Hne|].
  pose proof (proj2 (statistics_agree Sample.pct_floor true Sample.store_three) Hne)
    as H.
  cbn zeta in H. destruct H as (a & Ha & _ & _ & _ & Hres).
  exists a. split; [exact Ha | exact Hres].
Defined.
(* ===================================================================== *)
(** * What a query does to the store, and the shape of its answers *)
(* ===================================================================== *)

Section QueryEffects.

Variable online : bool.
Variable st : Db.Store.
Variable sql_lower : pystr -> pystr.
Variable row_order : list Db.Row -> list Db.Row.
Variable api_key : bool.
Variable gemini_model : option (pystr -> result pystr).
Variable model_name : pystr.
Variable save_online : bool.

(** The answer to a recognised intent is never marked as the model's. *)
Lemma answer_intent_not_ai (i : Query.Intent) :
  Query.ai_processed (Query.answer_intent online st sql_lower row_order i) = false.
Proof.
  destruct i; cbn [Query.answer_intent].
  5: { destruct (get_general_statistics_cases online st) as [[_ ->] | (x & _ & _ & ->)];
       reflexivity. }
  all: unfold Query._find_repository_owner, Query._find_repositories_by_owner,
         Query._find_technologies_for_repository, Query._find_projects_with_technology,
         Query._get_unidentified_repositories,
         Query._count_repositories, Query.failure, Query.answer.
  all: repeat match goal with
         | |- context [match ?l with [] => _ | _ :: _ => _ end] => destruct l
         end.
  all: reflexivity.
Qed.

(** X24: a query never changes the [repositories] table.  The store is
    left as it was unless the model answered, which happens only when no
    pattern matched, a key is configured and the model returned a text for
    the prompt built from the rows the read connection gave; then the
    answer is that text stripped, and the query as it was typed (not
    lowercased) is recorded with it in [ai_queries], once, when the
    connection of [save_ai_query] succeeds: that is a connection of its
    own, and the answer is the same when it fails. *)
Theorem query_store_effect (q : pystr) :
  let res := Query.process_natural_language_query
               online st sql_lower row_order api_key gemini_model model_name
               save_online q in
  Db.rows (snd res) = Db.rows st
  /\ Db.next_id (snd res) = Db.next_id st
  /\ (Query.ai_processed (fst res) = false -> snd res = st)
  /\ (Query.ai_processed (fst res) = true ->
      Query.classify_query (strip (lower q)) = None
      /\ api_key = true
      /\ exists generate text,
           gemini_model = Some generate
           /\ generate (Query.ai_prompt q (Db.get_all_repositories online st (Some 50)))
              = Ok text
           /\ fst res
              = {| Query.success := true; Query.explanation := Some (strip text);
                   Query.error := None; Query.results := Query.Rows [];
                   Query.count := Some 0; Query.suggestions := [];
                   Query.ai_processed := true |}
           /\ Db.ai_queries (snd res)
              = Db.ai_queries st
                ++ (if save_online
                    then [{| Db.query_text := q; Db.response_text := strip text;
                             Db.query_type := py "natural_language" |}]
                    else [])).
Proof.
  intros res. subst res.
  unfold Query.process_natural_language_query, Query._try_pattern_matching.
  destruct (Query.classify_query (strip (lower q))) as [i|] eqn:Ei; cbn [option_map].
  - cbn [fst snd]. split; [reflexivity|]. split; [reflexivity|].
    split; [reflexivity|]. rewrite answer_intent_not_ai. discriminate.
  - destruct api_key.
    + unfold Query._process_with_ai. destruct gemini_model as [generate|].
      * destruct (generate (Query.ai_prompt q (Db.get_all_repositories online st (Some 50))))
          as [text|e] eqn:Eg.
        -- unfold Db.save_ai_query. destruct save_online;
             cbn [fst snd Db.rows Db.next_id Db.ai_queries Query.ai_processed];
             (split; [reflexivity|]); (split; [reflexivity|]);
             (split; [discriminate|]); intros _;
             (split; [reflexivity|]); (split; [reflexivity|]);
             exists generate, text; repeat split; try assumption.
           now rewrite app_nil_r.
        -- cbn [fst snd Query.failure Query.answer Query.ai_processed].
           repeat split; try reflexivity; discriminate.
      * cbn [fst snd Query.failure Query.answer Query.ai_processed].
        repeat split; try reflexivity; discriminate.
    + cbn [fst snd Query._process_fallback Query.ai_processed].
      repeat split; try reflexivity; discriminate.
Qed.

Ltac shape :=
  cbn [Query.failure Query.answer Query.ai_processed Query.suggestions
       Query.error Query.success Query.results Query.count List.length];
  repeat split; try discriminate; try tauto;
  try (intros [? | ?]; discriminate).

(** X25: the answer to a recognised intent.  It is never marked as
    processed by the model, carries no suggestion and no error; it fails
    exactly when it has no results, which is exactly when it has no count;
    otherwise the count is the number of rows listed (of technologies, for
    the technologies of one repository; the total, for the statistics and
    the count).  When the database is not reached, the unidentified and
    the count intents still succeed (with nothing to list and a total of
    0), the other intents fail. *)
Theorem intent_answers_consistent (i : Query.Intent) :
  let a := Query.answer_intent online st sql_lower row_order i in
  Query.ai_processed a = false
  /\ Query.suggestions a = []
  /\ Query.error a = None
  /\ (Query.success a = false <-> Query.results a = Query.NoResults)
  /\ (Query.success a = false <-> Query.count a = None)
  /\ match Query.results a with
     | Query.NoResults => True
     | Query.Rows l => Query.count a = Some (List.length l)
     | Query.RepoTechnologies l =>
         exists name techs, l = [(name, techs)] /\ techs <> []
                            /\ Query.count a = Some (List.length techs)
     | Query.Statistics total identified top =>
         Query.count a = Some total /\ 1 <= total /\ identified <= total
         /\ List.length top <= 5
     | Query.TotalRepositories l => exists total, l = [total] /\ Query.count a = Some total
     end
  /\ (online = false ->
      (Query.success a = true <-> i = Query.UnidentifiedRepos \/ i = Query.RepositoryCount)
      /\ (Query.success a = true -> Query.count a = Some 0)).
Proof.
  clear api_key gemini_model model_name save_online.
  intros a. subst a. destruct i; cbn [Query.answer_intent].
  - unfold Query._find_repository_owner, Db.select_repo_name_like.
    destruct online; [|shape].
    destruct (row_order _) as [|r [|r' l]]; shape.
  - unfold Query._find_repositories_by_owner, Db.get_repositories_by_owner.
    destruct online; [|shape].
    destruct (Db.by_repo_name _) as [|r l]; shape.
  - unfold Query._find_technologies_for_repository, Db.select_repo_name_like.
    destruct online; [|shape].
    destruct (row_order _) as [|r l];
      [|destruct (Db.technologies r) as [|t ts] eqn:Et]; shape.
    exists (Db.repo_name r), (t :: ts). repeat split. discriminate.
  - unfold Query._find_projects_with_technology, Db.get_repositories_by_technology.
    destruct online; [|shape].
    destruct (Db.by_owner_then_repo _) as [|r l]; shape.
  - destruct (get_general_statistics_cases online st)
      as [[E ->] | (x & Hne & _ & ->)].
    + shape.
    + assert (Hon : online = true).
      { destruct online; [reflexivity|]. now contradiction Hne. }
      shape.
      all: try (apply List.filter_length_le).
      all: try (unfold Query.top_techs; apply List.firstn_le_length).
      all: try (destruct (Db.get_all_repositories online st None);
                [congruence | cbn [List.length]; lia]).
      all: exfalso; congruence.
  - unfold Query._get_unidentified_repositories, Db.get_unidentified_repositories.
    destruct online; [destruct (Db.newest_first _) as [|r l]|]; shape.
  - unfold Query._count_repositories. shape.
    + eexists. split; reflexivity.
    + intros _. now subst online.
Qed.

End QueryEffects.
(* ===================================================================== *)
(** * The search by name: [LIKE] and substrings *)
(* ===================================================================== *)

Lemma like_any (p s : pystr) :
  Db.like (37%N :: p) s
  = Db.like p s || match s with [] => false | _ :: s' => Db.like (37%N :: p) s' end.
Proof. destruct s; reflexivity. Qed.

Lemma like_percent (s : pystr) : Db.like [37%N] s = true.
Proof.
  induction s as [|x s IH]; [reflexivity|].
  rewrite like_any. rewrite IH. apply orb_true_r.
Qed.

Lemma like_char (c : N) (p s : pystr) :
  like_plain [c] = true ->
  Db.like (c :: p) s
  = match s with x :: s' => (x =? c)%N && Db.like p s' | [] => false end.
Proof.
  unfold like_plain. cbn [forallb]. rewrite andb_true_r, negb_true_iff.
  intros H. apply orb_false_iff in H as [H H3]. apply orb_false_iff in H as [H1 H2].
  cbn [Db.like]. rewrite H1, H2, H3. reflexivity.
Qed.

Lemma like_plain_cons (c : N) (a : pystr) :
  like_plain (c :: a) = true -> like_plain [c] = true /\ like_plain a = true.
Proof.
  unfold like_plain. cbn [forallb]. rewrite andb_true_r. apply andb_true_iff.
Qed.

(** A pattern that starts with plain text: the text must be there. *)
Lemma like_plain_prefix (a p : pystr) :
  like_plain a = true ->
  forall s, Db.like (a ++ p) s
            = startswith a s && Db.like p (skipn (List.length a) s).
Proof.
  induction a as [|c a IH]; intros Ha s; [reflexivity|].
  apply like_plain_cons in Ha as [Hc Ha]. cbn [app]. rewrite like_char by exact Hc.
  destruct s as [|x s]; [reflexivity|]. cbn [startswith List.length skipn].
  rewrite (IH Ha), (N.eqb_sym x c). apply andb_assoc.
Qed.

Lemma like_contains (a : pystr) :
  like_plain a = true ->
  forall s, Db.like (37%N :: a ++ [37%N]) s = contains a s.
Proof.
  intros Ha. induction s as [|x s IH]; rewrite like_any, like_plain_prefix, like_percent, andb_true_r
    by exact Ha.
  - reflexivity.
  - rewrite IH. reflexivity.
Qed.

Lemma skipn_length_app {A : Type} (a s : list A) : skipn (List.length a) (a ++ s) = s.
Proof. induction a; [reflexivity | assumption]. Qed.

Lemma percent_literal : py "%" = [37%N].
Proof. vm_compute. reflexivity. Qed.

Lemma underscore_literal : py "_" = [95%N].
Proof. vm_compute. reflexivity. Qed.

Lemma filter_ext_all {A : Type} (f g : A -> bool) (l : list A) :
  (forall x, f x = g x) -> List.filter f l = List.filter g l.
Proof.
  intros H. induction l as [|x l IH]; [reflexivity|].
  cbn [List.filter]. now rewrite H, IH.
Qed.

Section NameSearch.

(** The server: [LOWER] and the order of the rows found. *)
Variable sql_lower : pystr -> pystr.
Variable row_order : list Db.Row -> list Db.Row.

(** X26: the search by repository name of the owner and technologies
    intents, on a server that returns the rows found in some order, whose
    [LOWER] works character by character and leaves the percent sign as
    it is.  For an argument that has, lowered, no [%], [_] and backslash,
    the rows returned are exactly those whose lowered name contains the
    lowered argument, each once, in the order the server chooses; the
    owner intent succeeds exactly when there is one.  An underscore in
    the argument stands for any one character: the search for [a_b] also
    finds a repository named [a], one character, [b]. *)
Theorem name_search_is_substring (st : Db.Store) (name : pystr) :
  (forall l, Permutation (row_order l) l) ->
  (forall a b, sql_lower (a ++ b) = sql_lower a ++ sql_lower b) ->
  sql_lower (py "%") = py "%" ->
  (like_plain (sql_lower name) = true ->
   Permutation
     (Db.select_repo_name_like sql_lower row_order true st (py "%" ++ name ++ py "%"))
     (List.filter (fun r => contains (sql_lower name) (sql_lower (Db.repo_name r)))
                  (Db.rows st))
   /\ (Query.success (Query._find_repository_owner true st sql_lower row_order name) = true
       <-> exists r, In r (Db.rows st)
                     /\ contains (sql_lower name) (sql_lower (Db.repo_name r)) = true))
  /\ (forall a b c x r,
        name = a ++ py "_" ++ b ->
        sql_lower (py "_") = py "_" -> sql_lower [c] = [x] ->
        like_plain (sql_lower a) = true -> like_plain (sql_lower b) = true ->
        In r (Db.rows st) -> Db.repo_name r = a ++ [c] ++ b ->
        In r (Db.select_repo_name_like sql_lower row_order true st
                (py "%" ++ name ++ py "%"))).
Proof.
  intros Hperm Hmorph Hpct. split.
  - intros Hp.
    assert (Hsel : Permutation
                     (Db.select_repo_name_like sql_lower row_order true st
                        (py "%" ++ name ++ py "%"))
                     (List.filter
                        (fun r => contains (sql_lower name) (sql_lower (Db.repo_name r)))
                        (Db.rows st))).
    { unfold Db.select_repo_name_like. rewrite Hperm.
      rewrite (@filter_ext_all _
                 (fun r => Db.like (sql_lower (py "%" ++ name ++ py "%"))
                                   (sql_lower (Db.repo_name r)))
                 (fun r => contains (sql_lower name) (sql_lower (Db.repo_name r))));
        [reflexivity|].
      intros r. rewrite !Hmorph, Hpct, percent_literal. cbn [app].
      now apply like_contains. }
    split; [exact Hsel|].
    unfold Query._find_repository_owner.
    destruct (Db.select_repo_name_like sql_lower row_order true st
                (py "%" ++ name ++ py "%")) as [|r [|r' l]] eqn:E;
      cbn [Query.failure Query.answer Query.success].
    + split; [discriminate|]. intros (r & Hin & Hc).
      assert (H : In r (List.filter
                          (fun r => contains (sql_lower name) (sql_lower (Db.repo_name r)))
                          (Db.rows st))) by (apply filter_In; now split).
      apply (Permutation_in _ (Permutation_sym Hsel)) in H. destruct H.
    + split; [intros _ | reflexivity]. exists r.
      assert (H : In r [r]) by now left.
      apply (Permutation_in _ Hsel), filter_In in H. exact H.
    + split; [intros _ | reflexivity]. exists r.
      assert (H : In r (r :: r' :: l)) by now left.
      apply (Permutation_in _ Hsel), filter_In in H. exact H.
  - intros a b c x r -> Hus Hc Ha Hb Hin Hname.
    unfold Db.select_repo_name_like.
    apply (Permutation_in _ (Permutation_sym (Hperm _))).
    apply filter_In. split; [exact Hin|].
    rewrite Hname, !Hmorph, Hpct, Hus, Hc, percent_literal, underscore_literal.
    cbn [app]. rewrite like_any. apply orb_true_iff. left.
    rewrite <- app_assoc. cbn [app].
    rewrite (like_plain_prefix (sql_lower a) (95%N :: sql_lower b ++ [37%N]) Ha).
    rewrite startswith_app, skipn_length_app.
    cbn [andb Db.like N.eqb Pos.eqb].
    rewrite (like_plain_prefix (sql_lower b) [37%N] Hb).
    rewrite <- (app_nil_r (sql_lower b)) at 2. rewrite startswith_app.
    rewrite <- (app_nil_r (sql_lower b)) at 2. rewrite skipn_length_app.
    reflexivity.
Qed.

End NameSearch.
(* ===================================================================== *)
(** * The census behind the explanation of an unidentified repository *)
(* ===================================================================== *)

Lemma last_item_In {A : Type} (l : list A) (x : A) : last_item l = Some x -> In x l.
Proof.
  intros H. destruct l as [|a l]; [discriminate|].
  destruct (@last_item_Some _ (a :: l)) as (y & Hy & Hin); [discriminate|].
  congruence.
Qed.

Lemma set_add_ok (x : pystr) (l : list pystr) :
  List.NoDup l -> List.NoDup (Scanner.set_add x l)
                  /\ List.length (Scanner.set_add x l) <= S (List.length l)
                  /\ forall y, In y (Scanner.set_add x l) <-> y = x \/ In y l.
Proof.
  intros H. unfold Scanner.set_add. destruct (str_in x l) eqn:E.
  - apply str_in_In in E. split; [exact H|]. split; [lia|].
    intros y. split; [now right | now intros [-> | Hy]].
  - apply str_in_false in E. split; [|split].
    + apply List.NoDup_app; [exact H | repeat constructor; simpl; tauto |].
      intros y Hy [<- | []]. now apply E.
    + rewrite List.length_app. cbn [List.length]. lia.
    + intros y. rewrite in_app_iff. cbn [In]. split.
      * intros [Hy | [<- | []]]; [now right | now left].
      * intros [-> | Hy]; [right; now left | now left].
Qed.

Lemma census_file_ok (acc : Scanner.Census) (file : pystr) :
  census_ok acc -> census_ok (Scanner.census_file acc file).
Proof.
  intros (Hnd & Hform & Hlen). unfold Scanner.census_file.
  destruct (Scanner.not_hidden file); [|now repeat split].
  unfold census_ok. cbn [Scanner.file_extensions Scanner.file_count].
  destruct (has_char 46 file); [|repeat split; [assumption | assumption | lia]].
  destruct (last_item (str_split 46 file)) as [ext|] eqn:E;
    [|repeat split; [assumption | assumption | lia]].
  destruct (@set_add_ok (lower ext) _ Hnd) as (H1 & H2 & H3).
  split; [exact H1|]. split; [|lia].
  apply List.Forall_forall. intros y Hy. apply H3 in Hy as [-> | Hy].
  - split.
    + rewrite lower_has_dot. apply last_item_In in E.
      pose proof (str_split_no_sep 46 file) as Hs.
      rewrite List.Forall_forall in Hs. now apply Hs.
    + apply has_upper_false, lower_not_upper.
  - rewrite List.Forall_forall in Hform. now apply Hform.
Qed.

Lemma census_files_ok (files : list pystr) : forall acc,
  census_ok acc -> census_ok (fold_left Scanner.census_file files acc).
Proof.
  induction files as [|f files IH]; intros acc H; [exact H|].
  cbn [fold_left]. apply IH. now apply census_file_ok.
Qed.

Lemma census_ok_walk : forall (t : Scanner.tree) (acc : Scanner.Census),
  census_ok acc -> census_ok (Scanner.census t acc).
Proof.
  fix IH 1. intros [files dirs] acc H. cbn [Scanner.census].
  match goal with
  | |- census_ok (_ dirs ?a) =>
      assert (Ha : census_ok a) by (apply census_files_ok; exact H);
      revert Ha; generalize a
  end.
  clear H acc files. revert dirs. fix IHdirs 1.
  intros [|[d sub] ds] a Ha.
  - exact Ha.
  - apply IHdirs. destruct (Scanner.not_hidden d); [apply IH|]; exact Ha.
Qed.

(** X27: the census that [_generate_explanation_for_unidentified] takes of
    a cloned tree.  The extensions it collects are distinct, none contains
    a dot or a character that [str.lower] changes (they are lowercased, in
    every script), and there are no more of them than files counted; so a
    tree in which every file is hidden, or which has no file, yields no
    extension. *)
Theorem census_extensions (t : Scanner.tree) :
  let c := Scanner.census t {| Scanner.file_count := 0; Scanner.dir_count := 0;
                               Scanner.file_extensions := [] |} in
  List.NoDup (Scanner.file_extensions c)
  /\ Forall extension_form (Scanner.file_extensions c)
  /\ List.length (Scanner.file_extensions c) <= Scanner.file_count c
  /\ (Scanner.file_count c = 0 -> Scanner.file_extensions c = []).
Proof.
  intros c.
  assert (H : census_ok c).
  { apply census_ok_walk. repeat split; [constructor | constructor | cbn; lia]. }
  destruct H as (H1 & H2 & H3). repeat split; try assumption.
  intros Hz. destruct (Scanner.file_extensions c); [reflexivity|].
  cbn [List.length] in H3. lia.
Qed.

Lemma query_store_effect_witness :
  Query.ai_processed
    (fst (Query.process_natural_language_query
            false Sample.store_three Sample.lower_c Sample.table_order true
            (Some (fun _ => Ok (py " Hola. "))) (py "gemini-1.5-flash") true
            (py "Hola"))) = true
  /\ exists generate text,
       generate (Query.ai_prompt (py "Hola")
                   (Db.get_all_repositories false Sample.store_three (Some 50))) = Ok text
       /\ Db.ai_queries
            (snd (Query.process_natural_language_query
                    false Sample.store_three Sample.lower_c Sample.table_order true
                    (Some (fun _ => Ok (py " Hola. "))) (py "gemini-1.5-flash") true
                    (py "Hola")))
          = [{| Db.query_text := py "Hola"; Db.response_text := strip text;
                Db.query_type := py "natural_language" |}].
Proof.
  assert (Hai : Query.ai_processed
                  (fst (Query.process_natural_language_query
                          false Sample.store_three Sample.lower_c Sample.table_order true
                          (Some (fun _ => Ok (py " Hola. "))) (py "gemini-1.5-flash") true
                          (py "Hola"))) = true) by (vm_compute; reflexivity).
  split; [exact Hai|].
  pose proof (query_store_effect false Sample.store_three Sample.lower_c
                Sample.table_order true (Some (fun _ => Ok (py " Hola. ")))
                (py "gemini-1.5-flash") true (py "Hola")) as H.
  cbn zeta in H. destruct H as (_ & _ & _ & H).
  destruct (H Hai) as (_ & _ & generate & text & _ & Hg & _ & Hq).
  exists generate, text. split; [exact Hg | exact Hq].
Defined.

Lemma intent_answers_consistent_witness :
  false = false
  /\ Query.count (Query.answer_intent false Sample.store_three Sample.lower_c
                    Sample.table_order Query.RepositoryCount) = Some 0.
Proof.
  split; [reflexivity|].
  pose proof (intent_answers_consistent false Sample.store_three Sample.lower_c
                Sample.table_order Query.RepositoryCount) as H.
  cbn zeta in H. destruct H as (_ & _ & _ & _ & _ & _ & H).
  destruct (H eq_refl) as [Hs Hc]. apply Hc, Hs. now right.
Defined.

Lemma lower_c_app (a b : pystr) :
  Sample.lower_c (a ++ b) = Sample.lower_c a ++ Sample.lower_c b.
Proof. apply List.map_app. Qed.

Lemma name_search_is_substring_witness :
  (forall l, Permutation (Sample.table_order l) l)
  /\ (forall a b, Sample.lower_c (a ++ b) = Sample.lower_c a ++ Sample.lower_c b)
  /\ Sample.lower_c (py "%") = py "%"
  /\ like_plain (Sample.lower_c (py "API")) = true
  /\ Permutation
       (Db.select_repo_name_like Sample.lower_c Sample.table_order true
          Sample.store_three (py "%" ++ py "API" ++ py "%"))
       (List.filter (fun r => contains (Sample.lower_c (py "API"))
                                       (Sample.lower_c (Db.repo_name r)))
                    (Db.rows Sample.store_three)).
Proof.
  assert (Hperm : forall l, Permutation (Sample.table_order l) l)
    by (intros l; apply Permutation_refl).
  assert (Hpct : Sample.lower_c (py "%") = py "%") by (vm_compute; reflexivity).
  assert (Hp : like_plain (Sample.lower_c (py "API")) = true) by (vm_compute; reflexivity).
  split; [exact Hperm|]. split; [exact lower_c_app|]. split; [exact Hpct|].
  split; [exact Hp|].
  exact (proj1 (proj1 (name_search_is_substring Sample.lower_c Sample.table_order
                         Sample.store_three (py "API") Hperm lower_c_app Hpct) Hp)).
Defined.

Lemma census_extensions_witness :
  Scanner.file_count
    (Scanner.census (Scanner.Dir [py ".gitignore"] [])
       {| Scanner.file_count := 0; Scanner.dir_count := 0;
          Scanner.file_extensions := [] |}) = 0
  /\ Scanner.file_extensions
       (Scanner.census (Scanner.Dir [py ".gitignore"] [])
          {| Scanner.file_count := 0; Scanner.dir_count := 0;
             Scanner.file_extensions := [] |}) = [].
Proof.
  assert (Hz : Scanner.file_count
                 (Scanner.census (Scanner.Dir [py ".gitignore"] [])
                    {| Scanner.file_count := 0; Scanner.dir_count := 0;
                       Scanner.file_extensions := [] |}) = 0)
    by (vm_compute; reflexivity).
  split; [exact Hz|].
  pose proof (census_extensions (Scanner.Dir [py ".gitignore"] [])) as H.
  cbn zeta in H. destruct H as (_ & _ & _ & H). exact (H Hz).
Defined.
Example py_literal : py "a/é•" = [97; 47; 233; 8226]%N.
Proof. reflexivity. Qed.

Example split_ex : str_split 47 (py "/a//b") = [py ""; py "a"; py ""; py "b"].
Proof. reflexivity. Qed.

Example replace_ex : remove_all (py ".git") (py "my.github.git") = py "myhub".
Proof. reflexivity. Qed.

Example strip_ex : strip (py "  a b
 ") = py "a b".
Proof. reflexivity. Qed.

Example str_of_nat_ex : str_of_nat 0 = py "0" /\ str_of_nat 120 = py "120".
Proof. split; reflexivity. Qed.

Example re_lazy_ex :
  Re.re_match (Re.seq [Re.Grp 1 (Re.PlusLazy (Re.none_of (py "/")));
                       Re.Opt (Re.lit (py ".git")); Re.Eos]) (py "a.git.git")
  = Some [(1, py "a.git")].
Proof. reflexivity. Qed.

Example url_ex1 :
  Scanner.extract_repo_info_from_url Sample.plain_path (py " https://github.com/octo/cat.git/ ")
  = (py "octo", py "cat").
Proof. reflexivity. Qed.

Example url_ex2 :
  Scanner.extract_repo_info_from_url Sample.plain_path (py "git@gitlab.com:team/tool.git")
  = (py "team", py "tool").
Proof. reflexivity. Qed.

Example url_ex3 :
  Scanner.extract_repo_info_from_url Sample.plain_path (py "https://example.org/x/a/b")
  = (py "a", py "b").
Proof. reflexivity. Qed.

Example url_ex4 :
  Scanner.extract_repo_info_from_url Sample.plain_path (py "project.git")
  = (py "unknown", py "project").
Proof. reflexivity. Qed.

Example url_ex5 :
  Scanner.extract_repo_info_from_url (fun _ => Raise (py "Invalid IPv6 URL")) (py "http://[x")
  = (py "unknown", py "unknown").
Proof. reflexivity. Qed.

Example classify_ex1 :
  Scanner.scan_directory_for_technologies
    (Ok (Scanner.Dir [py "package.json"; py "README.md"]
           [(py "src", Scanner.Dir [py "index.js"] []);
            (py "node_modules", Scanner.Dir [py "pom.xml"] [])]))
    (Scanner.Parsed Sample.react_manifest)
  = [py "Node.js"; py "React"].
Proof. reflexivity. Qed.

Example classify_ex2 :
  Scanner.scan_directory_for_technologies
    (Ok (Scanner.Dir [py "main.tf"] [(py "app", Scanner.Dir [py "build.gradle"; py "x.sln"] [])]))
    Scanner.NoFile
  = [py "Java"; py "Terraform"].
Proof. reflexivity. Qed.

Example classify_query_ex1 :
  Query.classify_query (strip (lower (py "¿Quién es el dueño del repositorio 'Foo'?")))
  = Some (Query.RepositoryOwner (py "foo")).
Proof. reflexivity. Qed.

Example classify_query_ex2 :
  Query.classify_query (strip (lower (py "Repositorios de usuario Juan")))
  = Some (Query.OwnerRepositories (py "usuario juan")).
Proof. reflexivity. Qed.

Example classify_query_ex3 :
  Query.classify_query (strip (lower (py "¿Qué tecnologías usa el repositorio 'mi-app'?")))
  = Some (Query.TechnologiesUsed (py "mi-app")).
Proof. reflexivity. Qed.

Example classify_query_ex4 :
  Query.classify_query (strip (lower (py "¿Qué proyectos usan Python?")))
  = Some (Query.ProjectsWithTechnology (py "python")).
Proof. reflexivity. Qed.

Example classify_query_ex5 :
  Query.classify_query (py "repositorios no identificados") = Some Query.UnidentifiedRepos
  /\ Query.classify_query (py "estadísticas del sistema") = Some Query.GeneralStatistics
  /\ Query.classify_query (py "¿cuántos repositorios hay?") = Some Query.RepositoryCount
  /\ Query.classify_query (py "proyectos que usan python") = None.
Proof. repeat split; reflexivity. Qed.

(** The same file without the dependency: React is rejected although the
    signature matched. *)
Example classify_ex3 :
  Scanner.scan_directory_for_technologies
    (Ok (Scanner.Dir [py "package.json"] []))
    (Scanner.Parsed (Scanner.JObj [(py "dependencies",
                                    Scanner.JObj [(py "vue", Scanner.JStr (py "3"))])]))
  = [py "Node.js"].
Proof. vm_compute. reflexivity. Qed.

(** A manifest whose document is not an object: the heuristic raises and
    React is accepted. *)
Example classify_ex4 :
  Scanner.scan_directory_for_technologies
    (Ok (Scanner.Dir [py "package.json"] [])) (Scanner.Parsed (Scanner.JArr []))
  = [py "Node.js"; py "React"].
Proof. vm_compute. reflexivity. Qed.

(** Python and Java are as frequent; Python is first seen earlier (in the
    newest repository, which the engine lists first), so it comes before
    Java. *)
Example statistics_ex :
  Query.results
    (fst (Query.process_natural_language_query
            true Sample.store_three Sample.lower_c Sample.table_order false None (py "gemini-1.5-flash") false
            (py "estadísticas")))
  = Query.Statistics 3 2 [(py "Docker", 2); (py "Python", 1); (py "Java", 1)].
Proof. vm_compute. reflexivity. Qed.

Example statistics_empty_ex :
  fst (Query.process_natural_language_query
         true Db.empty Sample.lower_c Sample.table_order false None (py "gemini-1.5-flash") false
         (py "estadísticas"))
  = Query.failure (py "No hay repositorios en la base de datos").
Proof. vm_compute. reflexivity. Qed.

(** The time-out of the second clone does not stop the batch: the third
    URL is scanned, and all three progress lines are written. *)
Example batch_ex :
  Scanner.progress
    (snd (Scanner.batch_scan_repositories Sample.plain_path Sample.in_order
            Sample.batch_envs Sample.batch_urls Sample.world_octocat))
  = [(1, 3, Sample.octocat); (2, 3, py "https://github.com/octo/gone"); (3, 3, Sample.octocat)]
  /\ fst (Scanner.batch_scan_repositories Sample.plain_path Sample.in_order
            Sample.batch_envs Sample.batch_urls Sample.world_octocat)
     !! py "https://github.com/octo/gone"
     = Some {| Scanner.success := true; Scanner.scanned_at := 2; Scanner.total := 3 |}.
Proof. split; vm_compute; reflexivity. Qed.
